(** * tfl/server.py: a shallow embedding and its specification

    The server answers five tool calls by querying the TfL HTTP API and
    rendering the JSON it gets back as text.  The embedding follows the
    Python source function by function:

    - JSON values are an inductive type; a Python [dict] is an association
      list in insertion order, a [float] is a binary64 primitive float;
    - a Python exception is the [Raise] outcome of an error monad;
    - the HTTP calls of a handler are recorded, in order, in the state of a
      state-and-error monad, so that "no upstream call" is a statement about
      that record;
    - what the process reads from outside (credentials, the upstream's
      replies, the clock, the interpreter's ISO-8601 parser and its sort
      on keys that are not all strings) is a [world].

    Strings are sequences of code points below 256. *)

From Stdlib Require Import ZArith List String Ascii Bool Lia Floats.
From Stdlib Require Import DecimalString DecimalPos DecimalZ.
From Stdlib Require Import Permutation Sorted.
Import ListNotations.

Set Warnings "-inexact-float,-register-all".

Open Scope string_scope.
Open Scope Z_scope.

(* ================================================================== *)
(** * Part I: the Python values the server handles *)
(* ================================================================== *)

(** ** Exceptions and results *)

Inductive exn : Type :=
| ValueError (msg : string)
| AttributeError
| TypeError
| KeyError
| IndexError
| OverflowError
| HTTPError
| JSONDecodeError.

Inductive result (A : Type) : Type :=
| Ok (a : A)
| Raise (e : exn).

Arguments Ok {A} a.
Arguments Raise {A} e.

Definition rbind {A B : Type} (r : result A) (k : A -> result B) : result B :=
  match r with
  | Ok a => k a
  | Raise e => Raise e
  end.

Declare Scope result_scope.
Delimit Scope result_scope with res.
Notation "x <- c ;; k" := (rbind c (fun x => k))
  (at level 61, c at next level, right associativity) : result_scope.
Open Scope result_scope.

Fixpoint rmap {A B : Type} (f : A -> result B) (l : list A) : result (list B) :=
  match l with
  | [] => Ok []
  | x :: t =>
      y <- f x ;;
      ys <- rmap f t ;;
      Ok (y :: ys)
  end.

(** ** JSON values as Python objects *)

Inductive json : Type :=
| JNull
| JBool (b : bool)
| JInt (n : Z)
| JFloat (x : float)
| JStr (s : string)
| JList (items : list json)
| JDict (fields : list (string * json)).

(** A [dict] keeps its keys in insertion order; a key occurs once. *)
Definition dict : Type := list (string * json).

Fixpoint dict_lookup (k : string) (d : dict) : option json :=
  match d with
  | [] => None
  | (k', v) :: t => if (k' =? k)%string then Some v else dict_lookup k t
  end.

(** [d.get(k, default)] *)
Definition dict_get (d : dict) (k : string) (default : json) : json :=
  match dict_lookup k d with
  | Some v => v
  | None => default
  end.

(** [d[k] = v]: an existing key keeps its place, a new one goes last. *)
Fixpoint dict_set (k : string) (v : json) (d : dict) : dict :=
  match d with
  | [] => [(k, v)]
  | (k', v') :: t =>
      if (k' =? k)%string then (k', v) :: t else (k', v') :: dict_set k v t
  end.

(** [d.update(other)] *)
Definition dict_update (d other : dict) : dict :=
  fold_left (fun acc kv => dict_set (fst kv) (snd kv) acc) other d.

(** ** Strings *)

Definition nl : string := String "010"%char EmptyString.
Definition dquote : ascii := "034"%char.

(** [str.isspace] on one code point below 256. *)
Definition isspace (c : ascii) : bool :=
  let n := nat_of_ascii c in
  (((9 <=? n) && (n <=? 13)) || ((28 <=? n) && (n <=? 32))
   || (n =? 133) || (n =? 160))%nat.

Fixpoint lstrip (s : string) : string :=
  match s with
  | EmptyString => EmptyString
  | String c t => if isspace c then lstrip t else s
  end.

Fixpoint rstrip (s : string) : string :=
  match s with
  | EmptyString => EmptyString
  | String c t =>
      match rstrip t with
      | EmptyString => if isspace c then EmptyString else String c EmptyString
      | t' => String c t'
      end
  end.

(** [s.strip()] *)
Definition strip (s : string) : string := rstrip (lstrip s).

(** [s.split(sep)] for a one-character separator. *)
Fixpoint split (sep : ascii) (s : string) : list string :=
  match s with
  | EmptyString => [EmptyString]
  | String c t =>
      if Ascii.eqb c sep then EmptyString :: split sep t
      else match split sep t with
           | h :: r => String c h :: r
           | [] => [String c EmptyString]
           end
  end.

(** [sep.join(l)] on strings. *)
Definition join (sep : string) (l : list string) : string := String.concat sep l.

(** [s.replace(c, by)] for a one-character pattern. *)
Fixpoint replace (c : ascii) (by_ : string) (s : string) : string :=
  match s with
  | EmptyString => EmptyString
  | String a t => if Ascii.eqb a c then by_ ++ replace c by_ t
                  else String a (replace c by_ t)
  end.

Fixpoint contains_char (c : ascii) (s : string) : bool :=
  match s with
  | EmptyString => false
  | String a t => Ascii.eqb a c || contains_char c t
  end.

(** [sub in s] for strings. *)
Fixpoint is_substring (sub s : string) : bool :=
  String.prefix sub s ||
  match s with
  | EmptyString => false
  | String _ t => is_substring sub t
  end.

(** [str(n)] for an [int]. *)
Definition string_of_Z (n : Z) : string := NilZero.string_of_int (Z.to_int n).

Definition repeat_char (c : ascii) (n : nat) : string :=
  string_of_list_ascii (List.repeat c n).

(** ** Binary64 numbers *)

(** [float(n)]: the nearest double, [None] for Python's OverflowError. *)
Definition float_of_Z (n : Z) : option float :=
  match binary_normalize 53 1024 n 0 false with
  | S754_infinity _ => None
  | sf => Some (SF2Prim sf)
  end.

(** [n / d] on two ints, [d] positive: Python's true division, the double
    nearest to the quotient.  The quotient is cut to at least 56 bits with
    a sticky last bit, which rounds as the exact value does. *)
Definition float_truediv (n d : Z) : float :=
  let a := Z.abs n in
  let shift := Z.max 0 (57 + Z.log2 d - Z.log2 a) in
  let q := Z.shiftl a shift / d in
  let sticky := if Z.shiftl a shift mod d =? 0 then 0 else 1 in
  let m := 2 * q + sticky in
  SF2Prim (binary_normalize 53 1024 (if n <? 0 then - m else m)
             (- shift - 1) false).

(** [int(x)]: truncation toward zero; [None] for inf and nan. *)
Definition float_trunc (x : float) : option Z :=
  match Prim2SF x with
  | S754_zero _ => Some 0
  | S754_finite s m e =>
      let a := if 0 <=? e then Z.shiftl (Zpos m) e
               else Z.shiftr (Zpos m) (- e) in
      Some (if s then - a else a)
  | _ => None
  end.

(** The exact order between an int and a double ([None] against nan). *)
Definition compare_Z_float (n : Z) (x : float) : option comparison :=
  match Prim2SF x with
  | S754_nan => None
  | S754_infinity s => Some (if s then Gt else Lt)
  | S754_zero _ => Some (n ?= 0)
  | S754_finite s m e =>
      let v := if s then Zneg m else Zpos m in
      Some (if 0 <=? e then n ?= Z.shiftl v e else Z.shiftl n (- e) ?= v)
  end.

(** Is the double above the integer?  Below it? *)
Definition float_above (x : float) (n : Z) : bool :=
  match compare_Z_float n x with
  | Some Lt => true
  | _ => false
  end.

Definition float_below (x : float) (n : Z) : bool :=
  match compare_Z_float n x with
  | Some Gt => true
  | _ => false
  end.

(** [m / 2^k] rounded to the nearest integer, ties to even ([k] positive). *)
Definition round_half_even (m k : Z) : Z :=
  let q := Z.shiftr m k in
  let r := m - Z.shiftl q k in
  let half := Z.shiftl 1 (k - 1) in
  if r <? half then q
  else if half <? r then q + 1
  else if Z.even q then q else q + 1.

(** [format(x, ".0f")] on a float. *)
Definition float_fixed0 (x : float) : string :=
  match Prim2SF x with
  | S754_zero s => if s then "-0" else "0"
  | S754_infinity s => if s then "-inf" else "inf"
  | S754_nan => "nan"
  | S754_finite s m e =>
      let n := if 0 <=? e then Z.shiftl (Zpos m) e
               else round_half_even (Zpos m) (- e) in
      (if s then "-" else "") ++ string_of_Z n
  end.

(** *** [repr] of a float

    Python prints the shortest decimal that reads back as the same double,
    the nearest to it among the shortest, ties to an even last digit.
    A finite positive double is [m * 2^e]; the reals that round to it lie
    between [lo] and [hi], counted below in units of [2^(e-2)]. *)

Record shortest_ctx : Type := {
  sc_x : Z;       (* the double, in units of 2^(e-2) *)
  sc_lo : Z;      (* lower end of its rounding interval *)
  sc_hi : Z;      (* upper end *)
  sc_incl : bool; (* are the ends part of the interval? *)
  sc_e2 : Z       (* e - 2 *)
}.

Definition shortest_ctx_of (m e : Z) : shortest_ctx :=
  let narrow_below := (m =? 2 ^ 52) && (-1074 <? e) in
  {| sc_x := 4 * m;
     sc_lo := 4 * m - (if narrow_below then 1 else 2);
     sc_hi := 4 * m + 2;
     sc_incl := Z.even m;
     sc_e2 := e - 2 |}.

(** A count [u] of units and a decimal [c * 10^k] compare as [u * unit_mul]
    and [c * dec_mul]. *)
Definition unit_mul (c : shortest_ctx) (k : Z) : Z :=
  2 ^ Z.max (sc_e2 c) 0 * 10 ^ Z.max (- k) 0.

Definition dec_mul (c : shortest_ctx) (k : Z) : Z :=
  10 ^ Z.max k 0 * 2 ^ Z.max (- sc_e2 c) 0.

(** [floor (log10 x)] *)
Definition decimal_exponent (c : shortest_ctx) : Z :=
  let bits := Z.log2 (sc_x c) + sc_e2 c in
  let e0 := bits * 30103 / 100000 in
  let at_least k := dec_mul c k <=? sc_x c * unit_mul c k in
  if at_least (e0 + 1) then e0 + 1
  else if at_least e0 then e0
  else e0 - 1.

(** The [p]-digit decimal nearest to the double, when it reads back. *)
Definition candidate (c : shortest_ctx) (k : Z) : option Z :=
  let P := unit_mul c k in
  let Q := dec_mul c k in
  let low := sc_x c * P / Q in
  let rem := sc_x c * P mod Q in
  let high := low + 1 in
  let low_ok := if sc_incl c then sc_lo c * P <=? low * Q
                else sc_lo c * P <? low * Q in
  let high_ok := if sc_incl c then high * Q <=? sc_hi c * P
                 else high * Q <? sc_hi c * P in
  if low_ok && high_ok then
    if 2 * rem <? Q then Some low
    else if Q <? 2 * rem then Some high
    else Some (if Z.even low then low else high)
  else if low_ok then Some low
  else if high_ok then Some high
  else None.

Fixpoint shortest_digits (fuel : nat) (c : shortest_ctx) (k : Z) : Z * Z :=
  match candidate c k, fuel with
  | Some d, _ => (d, k)
  | None, O => (sc_x c * unit_mul c k / dec_mul c k, k)
  | None, S fuel' => shortest_digits fuel' c (k - 1)
  end.

Fixpoint drop_zeros (fuel : nat) (d k : Z) : Z * Z :=
  match fuel with
  | O => (d, k)
  | S fuel' => if (d mod 10 =? 0) && (0 <? d) then drop_zeros fuel' (d / 10) (k + 1)
               else (d, k)
  end.

Definition exponent_text (n : Z) : string :=
  let a := string_of_Z (Z.abs n) in
  (if n <? 0 then "-" else "+") ++ (if Z.abs n <? 10 then "0" ++ a else a).

(** The layout of [repr]: plain digits while the decimal point stays within
    [-4 < decpt <= 16], an exponent otherwise. *)
Definition layout_repr (ds : string) (decpt : Z) : string :=
  let n := Z.of_nat (String.length ds) in
  if (-4 <? decpt) && (decpt <=? 16) then
    if decpt <=? 0 then "0." ++ repeat_char "0" (Z.to_nat (- decpt)) ++ ds
    else if n <=? decpt then ds ++ repeat_char "0" (Z.to_nat (decpt - n)) ++ ".0"
    else substring 0 (Z.to_nat decpt) ds ++ "."
         ++ substring (Z.to_nat decpt) (Z.to_nat (n - decpt)) ds
  else
    substring 0 1 ds
    ++ (if 1 <? n then "." ++ substring 1 (Z.to_nat (n - 1)) ds else "")
    ++ "e" ++ exponent_text (decpt - 1).

(** [repr(x)] and [str(x)] on a float. *)
Definition float_repr (x : float) : string :=
  match Prim2SF x with
  | S754_zero s => if s then "-0.0" else "0.0"
  | S754_infinity s => if s then "-inf" else "inf"
  | S754_nan => "nan"
  | S754_finite s m e =>
      let c := shortest_ctx_of (Zpos m) e in
      let '(d, k) := shortest_digits 17 c (decimal_exponent c) in
      let '(d, k) := drop_zeros 20 d k in
      let ds := string_of_Z d in
      (if s then "-" else "")
      ++ layout_repr ds (k + Z.of_nat (String.length ds))
  end.

(** ** Python's operations on JSON values *)

(** *** [repr] and [str] *)

Definition hex_digit (n : nat) : ascii :=
  nth n (list_ascii_of_string "0123456789abcdef") "0"%char.

(** [str.isprintable] on one code point below 256. *)
Definition isprintable (c : ascii) : bool :=
  let n := nat_of_ascii c in
  (((32 <=? n) && (n <? 127)) || ((161 <=? n) && negb (n =? 173)))%nat.

Definition escape_char (quote c : ascii) : string :=
  let n := nat_of_ascii c in
  if Ascii.eqb c "\"%char then "\\"
  else if Ascii.eqb c quote then String "\"%char (String c EmptyString)
  else if (n =? 9)%nat then "\t"
  else if (n =? 10)%nat then "\n"
  else if (n =? 13)%nat then "\r"
  else if isprintable c then String c EmptyString
  else String "\"%char (String "x"%char
         (String (hex_digit (n / 16)) (String (hex_digit (n mod 16)) EmptyString))).

Fixpoint escape (quote : ascii) (s : string) : string :=
  match s with
  | EmptyString => EmptyString
  | String c t => escape_char quote c ++ escape quote t
  end.

(** [repr(s)] on a string: single quotes, unless the text holds one and
    no double quote. *)
Definition str_repr (s : string) : string :=
  let quote := if contains_char "'"%char s && negb (contains_char dquote s)
               then dquote else "'"%char in
  String quote (escape quote s) ++ String quote EmptyString.

Fixpoint py_repr (v : json) : string :=
  match v with
  | JNull => "None"
  | JBool b => if b then "True" else "False"
  | JInt n => string_of_Z n
  | JFloat x => float_repr x
  | JStr s => str_repr s
  | JList l => "[" ++ join ", " (map py_repr l) ++ "]"
  | JDict d =>
      "{" ++ join ", " (map (fun kv => let '(k, x) := kv in
                                       str_repr k ++ ": " ++ py_repr x) d)
      ++ "}"
  end.

(** [str(v)], what an f-string field [{v}] renders. *)
Definition py_str (v : json) : string :=
  match v with
  | JStr s => s
  | _ => py_repr v
  end.

(** *** Truth value, [not v] *)

Definition truthy (v : json) : bool :=
  match v with
  | JNull => false
  | JBool b => b
  | JInt n => negb (n =? 0)
  | JFloat x => negb (PrimFloat.eqb x 0)
  | JStr s => negb (s =? "")%string
  | JList l => match l with [] => false | _ :: _ => true end
  | JDict d => match d with [] => false | _ :: _ => true end
  end.

(** *** Numbers: [bool], [int] and [float] compare by value *)

Inductive number : Type :=
| NInt (n : Z)
| NFloat (x : float).

Definition as_number (v : json) : option number :=
  match v with
  | JBool b => Some (NInt (if b then 1 else 0))
  | JInt n => Some (NInt n)
  | JFloat x => Some (NFloat x)
  | _ => None
  end.

Definition number_ltb (a b : number) : bool :=
  match a, b with
  | NInt n, NInt m => n <? m
  | NFloat x, NFloat y => PrimFloat.ltb x y
  | NInt n, NFloat y => float_above y n
  | NFloat x, NInt m => float_below x m
  end.

Definition number_eqb (a b : number) : bool :=
  match a, b with
  | NInt n, NInt m => n =? m
  | NFloat x, NFloat y => PrimFloat.eqb x y
  | NInt n, NFloat y | NFloat y, NInt n =>
      match compare_Z_float n y with Some Eq => true | _ => false end
  end.

(** [a == b] *)
Fixpoint py_eq (a b : json) {struct a} : bool :=
  match a, b with
  | JNull, JNull => true
  | JStr s, JStr t => (s =? t)%string
  | JList l, JList l' =>
      (fix all2 (l l' : list json) : bool :=
         match l, l' with
         | [], [] => true
         | x :: t, y :: t' => py_eq x y && all2 t t'
         | _, _ => false
         end) l l'
  | JDict d, JDict d' =>
      (List.length d =? List.length d')%nat &&
      (fix each (d : list (string * json)) : bool :=
         match d with
         | [] => true
         | (k, v) :: t =>
             match dict_lookup k d' with
             | Some v' => py_eq v v'
             | None => false
             end && each t
         end) d
  | _, _ =>
      match as_number a, as_number b with
      | Some x, Some y => number_eqb x y
      | _, _ => false
      end
  end.

(** [a < b]: strings by code point, numbers by value, lists element by
    element; anything else is a TypeError. *)
Fixpoint py_lt (a b : json) {struct a} : result bool :=
  match a, b with
  | JStr s, JStr t => Ok (String.ltb s t)
  | JList l, JList l' =>
      (fix lex (l l' : list json) : result bool :=
         match l, l' with
         | [], [] => Ok false
         | [], _ :: _ => Ok true
         | _ :: _, [] => Ok false
         | x :: t, y :: t' => if py_eq x y then lex t t' else py_lt x y
         end) l l'
  | _, _ =>
      match as_number a, as_number b with
      | Some x, Some y => Ok (number_ltb x y)
      | _, _ => Raise TypeError
      end
  end.

(** [min(a, b)]: [b] when [b < a], else [a]. *)
Definition py_min (a b : json) : result json :=
  lt <- py_lt b a ;;
  Ok (if lt then b else a).

(** *** Attribute and item access *)

(** [v.get(k, default)]: only a dict has the method. *)
Definition py_get (v : json) (k : string) (default : json) : result json :=
  match v with
  | JDict d => Ok (dict_get d k default)
  | _ => Raise AttributeError
  end.

(** [v.strip()] *)
Definition py_strip (v : json) : result string :=
  match v with
  | JStr s => Ok (strip s)
  | _ => Raise AttributeError
  end.

(** [v.replace(c, by)] *)
Definition py_replace (c : ascii) (by_ : string) (v : json) : result string :=
  match v with
  | JStr s => Ok (replace c by_ s)
  | _ => Raise AttributeError
  end.

(** [v[0]] *)
Definition py_first (v : json) : result json :=
  match v with
  | JList (x :: _) => Ok x
  | JList [] => Raise IndexError
  | JStr (String c _) => Ok (JStr (String c EmptyString))
  | JStr EmptyString => Raise IndexError
  | JDict _ => Raise KeyError
  | _ => Raise TypeError
  end.

(** [v[k]] for a string [k] *)
Definition py_item (v : json) (k : string) : result json :=
  match v with
  | JDict d =>
      match dict_lookup k d with
      | Some x => Ok x
      | None => Raise KeyError
      end
  | _ => Raise TypeError
  end.

(** [v[:n]]; slicing a dict is a TypeError (a KeyError from 3.12 on). *)
Definition py_slice (n : nat) (v : json) : result json :=
  match v with
  | JList l => Ok (JList (firstn n l))
  | JStr s => Ok (JStr (substring 0 n s))
  | _ => Raise TypeError
  end.

(** The items [for x in v] visits. *)
Definition py_iter (v : json) : result (list json) :=
  match v with
  | JList l => Ok l
  | JStr s =>
      Ok (map (fun c => JStr (String c EmptyString)) (list_ascii_of_string s))
  | JDict d => Ok (map (fun kv => JStr (fst kv)) d)
  | _ => Raise TypeError
  end.

(** [k in v] for a string [k] *)
Definition py_in (k : string) (v : json) : result bool :=
  match v with
  | JDict d => Ok (match dict_lookup k d with Some _ => true | None => false end)
  | JList l => Ok (existsb (py_eq (JStr k)) l)
  | JStr s => Ok (is_substring k s)
  | _ => Raise TypeError
  end.

Definition as_str (v : json) : result string :=
  match v with
  | JStr s => Ok s
  | _ => Raise TypeError
  end.

(** [sep.join(items)]: every item must be a str. *)
Definition py_join (sep : string) (items : list json) : result string :=
  strs <- rmap as_str items ;;
  Ok (join sep strs).

(** [format(v, ".0f")], the f-string field [{v:.0f}]. *)
Definition py_format_0f (v : json) : result string :=
  match v with
  | JFloat x => Ok (float_fixed0 x)
  | JInt n =>
      match float_of_Z n with
      | Some x => Ok (float_fixed0 x)
      | None => Raise OverflowError
      end
  | JBool b => Ok (if b then "1" else "0")
  | JStr _ => Raise (ValueError "Unknown format code 'f' for object of type 'str'")
  | _ => Raise TypeError
  end.

Definition is_none (v : json) : bool :=
  match v with
  | JNull => true
  | _ => false
  end.

(** [len(v)] *)
Definition py_len (v : json) : result Z :=
  match v with
  | JList l => Ok (Z.of_nat (List.length l))
  | JStr s => Ok (Z.of_nat (String.length s))
  | JDict d => Ok (Z.of_nat (List.length d))
  | _ => Raise TypeError
  end.

(* ================================================================== *)
(** * Part II: the world outside the process *)
(* ================================================================== *)

(** ** Dates and times *)

(** A [datetime] is the count of microseconds from 0001-01-01T00:00:00 on
    its own wall clock, with that clock's offset from UTC in microseconds
    ([None] for a naive value). *)
Record datetime : Type := {
  wall : Z;
  utcoffset : option Z
}.

(** [a - now], in microseconds, for an aware [now] given as its UTC
    instant; a naive [a] cannot be subtracted from it. *)
Definition datetime_sub (a : datetime) (now : Z) : result Z :=
  match utcoffset a with
  | Some off => Ok (wall a - off - now)
  | None => Raise TypeError
  end.

(** [timedelta.total_seconds()] *)
Definition total_seconds (delta : Z) : float := float_truediv delta 1000000.

(** [int(x)] on a float. *)
Definition py_int (x : float) : result Z :=
  match float_trunc x with
  | Some n => Ok n
  | None => Raise OverflowError
  end.

Definition is_leap (y : Z) : bool :=
  ((y mod 4 =? 0) && negb (y mod 100 =? 0)) || (y mod 400 =? 0).

Definition days_in_month (y m : Z) : Z :=
  match m with
  | 1 | 3 | 5 | 7 | 8 | 10 | 12 => 31
  | 4 | 6 | 9 | 11 => 30
  | 2 => if is_leap y then 29 else 28
  | _ => 0
  end.

Definition days_before_month (y m : Z) : Z :=
  fold_left Z.add
    (map (days_in_month y) (map Z.of_nat (seq 1 (Z.to_nat (m - 1))))) 0.

Definition days_before_year (y : Z) : Z :=
  let p := y - 1 in 365 * p + p / 4 - p / 100 + p / 400.

(** Microseconds from 0001-01-01T00:00:00 to the given wall-clock time. *)
Definition wall_of (y mo d h mi s us : Z) : Z :=
  (((days_before_year y + days_before_month y mo + d - 1) * 86400
    + h * 3600 + mi * 60 + s) * 1000000) + us.

(** An instant written as a UTC date and time. *)
Definition utc (y mo d h mi s : Z) : Z := wall_of y mo d h mi s 0.

(** *** A reference reader for ISO timestamps

    [datetime.fromisoformat] belongs to the interpreter, and what it
    accepts differs between versions.  The handlers take it from the
    [world].  [fromisoformat_reference] reads the one shape every version
    reads alike, the shape [isoformat()] writes and the upstream sends:
    [YYYY-MM-DD?HH:MM:SS], then an optional fraction of 3 or 6 digits, then
    an optional offset [+HH:MM] or [-HH:MM].  It answers [None] on other text. *)

Definition obind {A B : Type} (o : option A) (k : A -> option B) : option B :=
  match o with
  | Some a => k a
  | None => None
  end.

Notation "x <-- c ;; k" := (obind c (fun x => k))
  (at level 61, c at next level, right associativity).

Definition digit_of (c : ascii) : option Z :=
  let n := nat_of_ascii c in
  if ((48 <=? n) && (n <=? 57))%nat then Some (Z.of_nat n - 48) else None.

Fixpoint read_digits (n : nat) (acc : Z) (s : string) : option (Z * string) :=
  match n with
  | O => Some (acc, s)
  | S n' =>
      match s with
      | String c t => d <-- digit_of c ;; read_digits n' (10 * acc + d) t
      | EmptyString => None
      end
  end.

Definition expect (c : ascii) (s : string) : option string :=
  match s with
  | String a t => if Ascii.eqb a c then Some t else None
  | EmptyString => None
  end.

Definition skip_one (s : string) : option string :=
  match s with
  | String _ t => Some t
  | EmptyString => None
  end.

Definition guard (b : bool) : option unit := if b then Some tt else None.

Definition read_fraction (s : string) : option (Z * string) :=
  match s with
  | String "."%char t =>
      match read_digits 6 0 t with
      | Some r => Some r
      | None => r <-- read_digits 3 0 t ;; Some (fst r * 1000, snd r)
      end
  | _ => Some (0, s)
  end.

Definition read_offset (s : string) : option (option Z) :=
  match s with
  | EmptyString => Some None
  | String c t =>
      sign <-- (if Ascii.eqb c "+"%char then Some 1
                else if Ascii.eqb c "-"%char then Some (-1) else None) ;;
      hh <-- read_digits 2 0 t ;;
      t1 <-- expect ":"%char (snd hh) ;;
      mm <-- read_digits 2 0 t1 ;;
      _ <-- guard ((fst hh <=? 23) && (fst mm <=? 59)
                   && (snd mm =? "")%string) ;;
      Some (Some (sign * (fst hh * 3600 + fst mm * 60) * 1000000))
  end.

Definition fromisoformat_reference (s : string) : option datetime :=
  y <-- read_digits 4 0 s ;;
  s1 <-- expect "-"%char (snd y) ;;
  mo <-- read_digits 2 0 s1 ;;
  s2 <-- expect "-"%char (snd mo) ;;
  d <-- read_digits 2 0 s2 ;;
  s3 <-- skip_one (snd d) ;;
  h <-- read_digits 2 0 s3 ;;
  s4 <-- expect ":"%char (snd h) ;;
  mi <-- read_digits 2 0 s4 ;;
  s5 <-- expect ":"%char (snd mi) ;;
  sec <-- read_digits 2 0 s5 ;;
  us <-- read_fraction (snd sec) ;;
  off <-- read_offset (snd us) ;;
  _ <-- guard ((1 <=? fst y) && (1 <=? fst mo) && (fst mo <=? 12)
               && (1 <=? fst d) && (fst d <=? days_in_month (fst y) (fst mo))
               && (fst h <=? 23) && (fst mi <=? 59) && (fst sec <=? 59)) ;;
  Some {| wall := wall_of (fst y) (fst mo) (fst d) (fst h) (fst mi) (fst sec)
                    (fst us);
          utcoffset := off |}.

(** ** HTTP and the environment *)

(** One GET as [client.get] sends it. *)
Record request : Type := {
  url : string;
  params : dict
}.

(** What comes back: no response at all ([client.get] raises: connection
    error, timeout), or a status with a body that parses as JSON
    ([Some]) or does not ([None]). *)
Inductive response : Type :=
| NoResponse
| Response (status_code : Z) (body : option json).

Record world : Type := {
  (** [os.getenv]: a str, or None when the variable is not set *)
  APP_KEY : option string;
  APP_ID : option string;
  (** the upstream's reply to a request, given how many requests the
      invocation has sent before *)
  upstream : nat -> request -> response;
  (** the UTC instant, in microseconds from 0001-01-01T00:00:00, at which
      the arrival at a given position of the output is formatted *)
  clock : nat -> Z;
  (** the interpreter's [datetime.fromisoformat]; [None] is its ValueError *)
  fromisoformat : string -> option datetime;
  (** the interpreter's [list.sort] on items paired with their keys, for
      keys that are not all [str]: what it returns, or raises, then depends
      on which pairs its merge strategy compares *)
  sort_other : list (json * json) -> result (list json)
}.

Definition TFL_API_BASE : string := "https://api.tfl.gov.uk".

Definition getenv (v : option string) : json :=
  match v with
  | Some s => JStr s
  | None => JNull
  end.

(** ** The handler monad: exceptions, and the requests sent so far *)

Definition M (A : Type) : Type := list request -> result A * list request.

Definition ret {A : Type} (a : A) : M A := fun calls => (Ok a, calls).

Definition raise {A : Type} (e : exn) : M A := fun calls => (Raise e, calls).

Definition lift {A : Type} (r : result A) : M A := fun calls => (r, calls).

Definition bind {A B : Type} (m : M A) (k : A -> M B) : M B :=
  fun calls =>
    match m calls with
    | (Ok a, calls') => k a calls'
    | (Raise e, calls') => (Raise e, calls')
    end.

Notation "x <~ c ;; k" := (bind c (fun x => k))
  (at level 61, c at next level, right associativity).

(** [try: body  except Exception: handler] *)
Definition try_except {A : Type} (body : M A) (handler : exn -> M A) : M A :=
  fun calls =>
    match body calls with
    | (Ok a, calls') => (Ok a, calls')
    | (Raise e, calls') => handler e calls'
    end.

(** An invocation starts with no request sent. *)
Definition run {A : Type} (m : M A) : result A * list request := m [].

(** [await client.get(url, params=..., timeout=30.0)]: the request counts
    as sent whether or not a response comes back. *)
Definition client_get (w : world) (req : request) : M (Z * option json) :=
  fun calls =>
    match upstream w (List.length calls) req with
    | NoResponse => (Raise HTTPError, (calls ++ [req])%list)
    | Response status body => (Ok (status, body), (calls ++ [req])%list)
    end.

(** [response.raise_for_status()] *)
Definition raise_for_status (r : Z * option json) : result unit :=
  if (200 <=? fst r) && (fst r <=? 299) then Ok tt else Raise HTTPError.

(** [response.json()] *)
Definition response_json (r : Z * option json) : result json :=
  match snd r with
  | Some v => Ok v
  | None => Raise JSONDecodeError
  end.

(* ================================================================== *)
(** * Part III: server.py *)
(* ================================================================== *)

(** ** The upstream client (server.py, lines 31-51) *)

(** The dict built at lines 33-36. *)
Definition default_params (w : world) : dict :=
  [("app_key", getenv (APP_KEY w)); ("app_id", getenv (APP_ID w))].

(** Lines 38-39: [if params: default_params.update(params)]. *)
Definition merged_params (w : world) (params : option dict) : dict :=
  match params with
  | Some ((_ :: _) as p) => dict_update (default_params w) p
  | _ => default_params w
  end.

(** The failure message the [except] branch prints is not part of the
    model; the branch's result is. *)
Definition make_tfl_request (w : world) (endpoint : string)
    (params : option dict) : M json :=
  let default_params := merged_params w params in
  try_except
    (response <~ client_get w {| url := TFL_API_BASE ++ "/" ++ endpoint;
                                 params := default_params |} ;;
     _ <~ lift (raise_for_status response) ;;
     lift (response_json response))
    (fun e => ret JNull).

(** ** The formatters (lines 137-239) *)

Definition format_line_status (line_data : json) : result string :=
  name <- py_get line_data "name" (JStr "Unknown Line") ;;
  statuses <- py_get line_data "lineStatuses" (JList []) ;;
  sr <- (if truthy statuses then
           first <- py_first statuses ;;
           status <- py_get first "statusSeverityDescription" (JStr "Unknown") ;;
           first' <- py_first statuses ;;
           reason <- py_get first' "reason" (JStr "") ;;
           Ok (status, reason)
         else Ok (JStr "Unknown", JStr "")) ;;
  let '(status, reason) := sr in
  let formatted :=
    "Line: " ++ py_str name ++ nl ++ "Status: " ++ py_str status in
  let formatted :=
    if truthy reason then formatted ++ nl ++ "Reason: " ++ py_str reason
    else formatted in
  Ok (formatted ++ nl ++ "---").

(** Lines 159-165 of [format_arrival]: the [try] block and its bare
    [except].  [now] is what [datetime.now().astimezone()] returns. *)
Definition arrival_time_desc (fromisoformat : string -> option datetime)
    (now : Z) (arrival : json) : string :=
  let attempt :=
    raw <- py_get arrival "expectedArrival" (JStr "") ;;
    iso <- py_replace "Z"%char "+00:00" raw ;;
    expected_arrival <-
      match fromisoformat iso with
      | Some d => Ok d
      | None => Raise (ValueError "Invalid isoformat string")
      end ;;
    delta <- datetime_sub expected_arrival now ;;
    minutes <- py_int (PrimFloat.div (total_seconds delta) 60) ;;
    Ok (if 0 <? minutes then string_of_Z minutes ++ " minutes" else "Due") in
  match attempt with
  | Ok time_desc => time_desc
  | Raise _ => "Time unknown"
  end.

Definition format_arrival (fromisoformat : string -> option datetime)
    (now : Z) (arrival : json) : result string :=
  line <- py_get arrival "lineName" (JStr "Unknown Line") ;;
  destination <- py_get arrival "destinationName" (JStr "Unknown Destination") ;;
  platform <- py_get arrival "platformName" (JStr "Unknown Platform") ;;
  let time_desc := arrival_time_desc fromisoformat now arrival in
  Ok ("Line: " ++ py_str line ++ nl
      ++ "Platform: " ++ py_str platform ++ nl
      ++ "Destination: " ++ py_str destination ++ nl
      ++ "Arrival: " ++ time_desc ++ nl ++ "---").

(** One turn of the loop at lines 177-181; the state is
    [(bikes_available, docks_available)]. *)
Definition bike_point_step (acc : json * json) (prop : json)
    : result (json * json) :=
  key <- py_get prop "key" JNull ;;
  if py_eq key (JStr "NbBikes") then
    value <- py_get prop "value" (JStr "Unknown") ;;
    Ok (value, snd acc)
  else
    key' <- py_get prop "key" JNull ;;
    if py_eq key' (JStr "NbEmptyDocks") then
      value <- py_get prop "value" (JStr "Unknown") ;;
      Ok (fst acc, value)
    else Ok acc.

Fixpoint rfold {A B : Type} (f : A -> B -> result A) (acc : A) (l : list B)
    : result A :=
  match l with
  | [] => Ok acc
  | x :: t => acc' <- f acc x ;; rfold f acc' t
  end.

Definition format_bike_point (point : json) : result string :=
  name <- py_get point "commonName" (JStr "Unknown Location") ;;
  bikes <- py_get point "additionalProperties" (JList []) ;;
  props <- py_iter bikes ;;
  found <- rfold bike_point_step (JStr "Unknown", JStr "Unknown") props ;;
  let '(bikes_available, docks_available) := found in
  Ok ("Location: " ++ py_str name ++ nl
      ++ "Bikes Available: " ++ py_str bikes_available ++ nl
      ++ "Empty Docks: " ++ py_str docks_available ++ nl
      ++ "---").

(** The loops at lines 197-200 and 206-209: the [key] of each property
    whose [category] is the given one. *)
Fixpoint keys_of_category (category : string) (props : list json)
    : result (list json) :=
  match props with
  | [] => Ok []
  | additional :: t =>
      c <- py_get additional "category" JNull ;;
      if py_eq c (JStr category) then
        key <- py_get additional "key" (JStr "") ;;
        rest <- keys_of_category category t ;;
        Ok (key :: rest)
      else keys_of_category category t
  end.

(** [[line.get("name", "") for line in v]] *)
Definition names_of (v : json) : result (list json) :=
  items <- py_iter v ;;
  rmap (fun line => py_get line "name" (JStr "")) items.

Definition format_station_info (station_data : json) : result string :=
  name <- py_get station_data "commonName" (JStr "Unknown Station") ;;
  modes_field <- py_get station_data "modes" (JList []) ;;
  modes_items <- py_iter modes_field ;;
  modes <- py_join ", " modes_items ;;
  zones_field <- py_get station_data "zones" (JList []) ;;
  zones_items <- py_iter zones_field ;;
  let zones := join ", " (map py_str zones_items) in
  props <- py_get station_data "additionalProperties" (JList []) ;;
  props_items <- py_iter props ;;
  facilities <- keys_of_category "Facility" props_items ;;
  lines_field <- py_get station_data "lines" (JList []) ;;
  lines <- names_of lines_field ;;
  props' <- py_get station_data "additionalProperties" (JList []) ;;
  props_items' <- py_iter props' ;;
  accessibility <- keys_of_category "Accessibility" props_items' ;;
  lines_text <- py_join ", " lines ;;
  let formatted :=
    "Station: " ++ py_str name ++ nl
    ++ "Transport Modes: " ++ modes ++ nl
    ++ "Zones: " ++ zones ++ nl
    ++ "Lines: " ++ lines_text ++ nl in
  formatted <-
    match facilities with
    | [] => Ok formatted
    | _ :: _ =>
        t <- py_join ", " facilities ;;
        Ok (formatted ++ "Facilities: " ++ t ++ nl)
    end ;;
  formatted <-
    match accessibility with
    | [] => Ok formatted
    | _ :: _ =>
        t <- py_join ", " accessibility ;;
        Ok (formatted ++ "Accessibility: " ++ t ++ nl)
    end ;;
  Ok (formatted ++ "---").

Definition format_nearby_stop (stop : json) : result string :=
  name <- py_get stop "commonName" (JStr "Unknown Location") ;;
  distance <- py_get stop "distance" (JInt 0) ;;
  modes_field <- py_get stop "modes" (JList []) ;;
  modes_items <- py_iter modes_field ;;
  modes <- py_join ", " modes_items ;;
  lines_field <- py_get stop "lines" (JList []) ;;
  lines <- names_of lines_field ;;
  distance_text <- py_format_0f distance ;;
  lines_text <- py_join ", " lines ;;
  Ok ("Stop: " ++ py_str name ++ nl
      ++ "Distance: " ++ distance_text ++ "m" ++ nl
      ++ "Modes: " ++ modes ++ nl
      ++ "Lines: " ++ lines_text ++ nl
      ++ "---").

(** ** Tool dispatch (lines 241-413) *)

Record TextContent : Type := {
  type : string;
  text : string
}.

Definition text_content (t : string) : TextContent :=
  {| type := "text"; text := t |}.

(** [list.sort(key=...)]: the keys are computed first, then the items are
    ordered by [<] on their keys, equal keys keeping their order.  On keys
    that are all [str], [<] is a total order that never raises, and the
    result is that of any stable sort: the model is a stable insertion
    sort.  On other keys the result is the interpreter's
    ([sort_other]). *)
Fixpoint insert_keyed (kx : json * json) (sorted : list (json * json))
    : result (list (json * json)) :=
  match sorted with
  | [] => Ok [kx]
  | ky :: t =>
      lt <- py_lt (fst ky) (fst kx) ;;
      if lt then (r <- insert_keyed kx t ;; Ok (ky :: r))
      else Ok (kx :: ky :: t)
  end.

Fixpoint sort_keyed (l : list (json * json)) : result (list (json * json)) :=
  match l with
  | [] => Ok []
  | kx :: t => s <- sort_keyed t ;; insert_keyed kx s
  end.

Definition sort_by_insertion (items : list (json * json))
    : result (list json) :=
  s <- sort_keyed items ;;
  Ok (map snd s).

Definition list_sort (sort_other : list (json * json) -> result (list json))
    (key : json -> result json) (v : json) : result (list json) :=
  match v with
  | JList l =>
      keys <- rmap key l ;;
      match rmap as_str keys with
      | Ok _ => sort_by_insertion (combine keys l)
      | Raise _ => sort_other (combine keys l)
      end
  | _ => Raise AttributeError
  end.

(** The key of line 300: [lambda x: x.get("expectedArrival", "")]. *)
Definition arrival_key (x : json) : result json :=
  py_get x "expectedArrival" (JStr "").

(** [[f(i, x) for i, x in enumerate(l, start)]] *)
Fixpoint rmapi {A B : Type} (f : nat -> A -> result B) (start : nat)
    (l : list A) : result (list B) :=
  match l with
  | [] => Ok []
  | x :: t =>
      y <- f start x ;;
      ys <- rmapi f (S start) t ;;
      Ok (y :: ys)
  end.

(** The branch [name == "get-line-status"], lines 251-270. *)
Definition get_line_status (w : world) (arguments : dict)
    : M (list TextContent) :=
  lines <~ lift (py_strip (dict_get arguments "lines" (JStr ""))) ;;
  if (lines =? "")%string then
    raise (ValueError "Lines parameter must not be empty")
  else
    let lines_list := map strip (split ","%char lines) in
    statuses_data <~
      make_tfl_request w ("Line/" ++ join "," lines_list ++ "/Status") None ;;
    if negb (truthy statuses_data) then
      ret [text_content "Failed to retrieve line statuses"]
    else
      items <~ lift (py_iter statuses_data) ;;
      formatted_statuses <~ lift (rmap format_line_status items) ;;
      ret [text_content ("Current Line Statuses:" ++ nl ++ nl
                         ++ join nl formatted_statuses)].

(** The test [not search_result or not search_result.get("matches")]. *)
Definition no_matches (search_result : json) : result bool :=
  if negb (truthy search_result) then Ok true
  else
    matches <- py_get search_result "matches" JNull ;;
    Ok (negb (truthy matches)).

(** [search_result["matches"][0]["id"]] *)
Definition first_match_id (search_result : json) : result json :=
  matches <- py_item search_result "matches" ;;
  first <- py_first matches ;;
  py_item first "id".

(** The branch [name == "get-arrivals"], lines 272-306. *)
Definition get_arrivals (w : world) (arguments : dict)
    : M (list TextContent) :=
  station <~ lift (py_strip (dict_get arguments "station" (JStr ""))) ;;
  if (station =? "")%string then
    raise (ValueError "Station parameter must not be empty")
  else
    search_result <~
      make_tfl_request w ("StopPoint/Search/" ++ station)
        (Some [("modes", JStr "tube,overground,dlr")]) ;;
    none <~ lift (no_matches search_result) ;;
    if none then
      ret [text_content ("Could not find station: " ++ station)]
    else
      station_id <~ lift (first_match_id search_result) ;;
      arrivals_data <~
        make_tfl_request w
          ("StopPoint/" ++ py_str station_id ++ "/Arrivals") None ;;
      if negb (truthy arrivals_data) then
        ret [text_content ("Failed to retrieve arrivals for " ++ station)]
      else
        sorted <~
          lift (list_sort (sort_other w) arrival_key arrivals_data) ;;
        formatted_arrivals <~
          lift (rmapi (fun i arrival =>
                         format_arrival (fromisoformat w) (clock w i) arrival)
                  0 (firstn 10 sorted)) ;;
        ret [text_content ("Next arrivals at " ++ station ++ ":" ++ nl ++ nl
                           ++ join nl formatted_arrivals)].

(** The branch [name == "search-bike-points"], lines 308-336. *)
Definition search_bike_points (w : world) (arguments : dict)
    : M (list TextContent) :=
  location <~ lift (py_strip (dict_get arguments "location" (JStr ""))) ;;
  if (location =? "")%string then
    raise (ValueError "Location parameter must not be empty")
  else
    search_result <~
      make_tfl_request w "BikePoint/Search" (Some [("query", JStr location)]) ;;
    if negb (truthy search_result) then
      ret [text_content ("Failed to search for bike points near " ++ location)]
    else if negb (truthy search_result) then
      ret [text_content ("No bike points found near " ++ location)]
    else
      nearest <~ lift (py_slice 5 search_result) ;;
      points <~ lift (py_iter nearest) ;;
      formatted_points <~ lift (rmap format_bike_point points) ;;
      ret [text_content ("Bike points near " ++ location ++ ":" ++ nl ++ nl
                         ++ join nl formatted_points)].

(** The branch [name == "get-station-info"], lines 338-370. *)
Definition get_station_info (w : world) (arguments : dict)
    : M (list TextContent) :=
  station <~ lift (py_strip (dict_get arguments "station" (JStr ""))) ;;
  if (station =? "")%string then
    raise (ValueError "Station parameter must not be empty")
  else
    search_result <~
      make_tfl_request w ("StopPoint/Search/" ++ station)
        (Some [("modes", JStr "tube,overground,dlr")]) ;;
    none <~ lift (no_matches search_result) ;;
    if none then
      ret [text_content ("Could not find station: " ++ station)]
    else
      station_id <~ lift (first_match_id search_result) ;;
      station_data <~
        make_tfl_request w ("StopPoint/" ++ py_str station_id) None ;;
      if negb (truthy station_data) then
        ret [text_content ("Failed to retrieve information for " ++ station)]
      else
        formatted <~ lift (format_station_info station_data) ;;
        ret [text_content formatted].

(** The branch [name == "find-stops-by-radius"], lines 372-410. *)
Definition find_stops_by_radius (w : world) (arguments : dict)
    : M (list TextContent) :=
  let lat := dict_get arguments "lat" JNull in
  let lon := dict_get arguments "lon" JNull in
  radius <~ lift (py_min (dict_get arguments "radius" (JInt 1000)) (JInt 1000)) ;;
  if negb (forallb (fun x => negb (is_none x)) [lat; lon; radius]) then
    raise (ValueError "Missing required parameters")
  else
    stops_data <~
      make_tfl_request w "StopPoint"
        (Some [("lat", lat); ("lon", lon); ("radius", radius);
               ("modes", JStr "tube,overground,dlr")]) ;;
    let place :=
      py_str radius ++ "m of " ++ py_str lat ++ ", " ++ py_str lon in
    missing <~ lift (if negb (truthy stops_data) then Ok true
                     else (has <- py_in "stopPoints" stops_data ;;
                           Ok (negb has))) ;;
    if missing then
      ret [text_content ("Failed to find stops within " ++ place)]
    else
      stops <~ lift (py_item stops_data "stopPoints") ;;
      if negb (truthy stops) then
        ret [text_content ("No stops found within " ++ place)]
      else
        closest <~ lift (py_slice 10 stops) ;;
        items <~ lift (py_iter closest) ;;
        formatted_stops <~ lift (rmap format_nearby_stop items) ;;
        ret [text_content ("Stops within " ++ place ++ ":" ++ nl ++ nl
                           ++ join nl formatted_stops)].

(** [handle_call_tool(name, arguments)]: [arguments] is a dict or None. *)
Definition handle_call_tool (w : world) (name : string)
    (arguments : option dict) : M (list TextContent) :=
  match arguments with
  | None | Some [] => raise (ValueError "Missing arguments")
  | Some arguments =>
      if (name =? "get-line-status")%string then get_line_status w arguments
      else if (name =? "get-arrivals")%string then get_arrivals w arguments
      else if (name =? "search-bike-points")%string then
        search_bike_points w arguments
      else if (name =? "get-station-info")%string then
        get_station_info w arguments
      else if (name =? "find-stops-by-radius")%string then
        find_stops_by_radius w arguments
      else raise (ValueError ("Unknown tool: " ++ name))
  end.

(** ** The tools on offer (lines 53-135) *)

Module Tool.
Record t : Type := {
  name : string;
  description : string;
  inputSchema : json
}.
End Tool.

(** One property of an input schema. *)
Definition schema_property (type description : string) : json :=
  JDict [("type", JStr type); ("description", JStr description)].

Definition handle_list_tools : list Tool.t :=
  [ {| Tool.name := "get-line-status";
       Tool.description :=
         "Get the current status of specified London transport lines";
       Tool.inputSchema :=
         JDict [("type", JStr "object");
                ("properties",
                 JDict [("lines",
                         schema_property "string"
                           "Comma-separated list of line names (e.g., victoria,northern,central)")]);
                ("required", JList [JStr "lines"])] |};
    {| Tool.name := "get-arrivals";
       Tool.description := "Get arrival predictions for a specific station";
       Tool.inputSchema :=
         JDict [("type", JStr "object");
                ("properties",
                 JDict [("station",
                         schema_property "string" "Station name or ID")]);
                ("required", JList [JStr "station"])] |};
    {| Tool.name := "search-bike-points";
       Tool.description := "Search for bike points near a location";
       Tool.inputSchema :=
         JDict [("type", JStr "object");
                ("properties",
                 JDict [("location",
                         schema_property "string" "Location name in London")]);
                ("required", JList [JStr "location"])] |};
    {| Tool.name := "get-station-info";
       Tool.description :=
         "Get detailed information about a specific station including facilities, lines, and accessibility";
       Tool.inputSchema :=
         JDict [("type", JStr "object");
                ("properties",
                 JDict [("station",
                         schema_property "string" "Station name or ID")]);
                ("required", JList [JStr "station"])] |};
    {| Tool.name := "find-stops-by-radius";
       Tool.description :=
         "Find stops within a specified radius of a location";
       Tool.inputSchema :=
         JDict [("type", JStr "object");
                ("properties",
                 JDict [("lat",
                         schema_property "number"
                           "Latitude of the center point");
                        ("lon",
                         schema_property "number"
                           "Longitude of the center point");
                        ("radius",
                         schema_property "number"
                           "Radius in meters (max 1000)")]);
                ("required", JList [JStr "lat"; JStr "lon"; JStr "radius"])] |}
  ].

(** ** Resources (lines 415-504) *)

(** A URI as the handlers meet it.  [types.Resource] keeps its [uri] as a
    URL object of pydantic ([AnyUrl]), made from the str it is given, and
    the server hands [handle_read_resource] the URL object of the request;
    a caller of the function itself can pass a str, as its annotation
    says.  A URL object is not a str: [==] between the two is False.
    [AnyUrl s] is the URL object whose [str()] is [s]. *)
Inductive uri_value : Type :=
| StrUri (s : string)
| AnyUrl (s : string).

(** [str(uri)], what the f-string field [{uri}] renders. *)
Definition uri_str (uri : uri_value) : string :=
  match uri with
  | StrUri s | AnyUrl s => s
  end.

(** [uri == s] for a str literal [s]. *)
Definition uri_eq (uri : uri_value) (s : string) : bool :=
  match uri with
  | StrUri t => (t =? s)%string
  | AnyUrl _ => false
  end.

Module Resource.
Record t : Type := {
  uri : uri_value;
  name : string;
  description : string
}.
End Resource.

Definition handle_list_resources : list Resource.t :=
  [ {| Resource.uri := AnyUrl "tfl://lines";
       Resource.name := "TfL Lines";
       Resource.description :=
         "List of all TfL lines and their basic information" |};
    {| Resource.uri := AnyUrl "tfl://stations";
       Resource.name := "TfL Stations";
       Resource.description :=
         "List of all TfL stations and their basic information" |};
    {| Resource.uri := AnyUrl "tfl://modes";
       Resource.name := "TfL Transport Modes";
       Resource.description := "List of all available transport modes" |}
  ].

(** The body of the loop at lines 446-453. *)
Definition lines_entry (line : json) : result string :=
  name <- py_get line "name" JNull ;;
  id <- py_get line "id" JNull ;;
  mode_name <- py_get line "modeName" JNull ;;
  sections <- py_get line "routeSections" (JList []) ;;
  routes <- py_len sections ;;
  Ok ("Name: " ++ py_str name ++ nl
      ++ "ID: " ++ py_str id ++ nl
      ++ "Mode: " ++ py_str mode_name ++ nl
      ++ "Routes: " ++ string_of_Z routes ++ nl
      ++ "---").

(** The body of the loop at lines 468-482. *)
Definition stations_entry (station : json) : result string :=
  zones_field <- py_get station "zones" (JList []) ;;
  zones_items <- py_iter zones_field ;;
  let zones := join ", " (map py_str zones_items) in
  lines_field <- py_get station "lines" (JList []) ;;
  lines <- names_of lines_field ;;
  common_name <- py_get station "commonName" JNull ;;
  id <- py_get station "id" JNull ;;
  modes_field <- py_get station "modes" (JList []) ;;
  modes_items <- py_iter modes_field ;;
  modes <- py_join ", " modes_items ;;
  lines_text <- py_join ", " lines ;;
  Ok ("Name: " ++ py_str common_name ++ nl
      ++ "ID: " ++ py_str id ++ nl
      ++ "Modes: " ++ modes ++ nl
      ++ "Zones: " ++ zones ++ nl
      ++ "Lines: " ++ lines_text ++ nl
      ++ "---").

(** The body of the loop at lines 492-499. *)
Definition modes_entry (mode : json) : result string :=
  mode_name <- py_get mode "modeName" JNull ;;
  description <- py_get mode "description" (JStr "No description available") ;;
  is_tfl <- py_get mode "isTflService" JNull ;;
  is_scheduled <- py_get mode "isScheduledService" JNull ;;
  Ok ("Name: " ++ py_str mode_name ++ nl
      ++ "Description: " ++ py_str description ++ nl
      ++ "Is TfL Service: " ++ (if truthy is_tfl then "Yes" else "No") ++ nl
      ++ "Is Scheduled Service: "
      ++ (if truthy is_scheduled then "Yes" else "No") ++ nl
      ++ "---").

(** The test [not stations_data or not stations_data.get("stopPoints")]. *)
Definition no_stop_points (stations_data : json) : result bool :=
  if negb (truthy stations_data) then Ok true
  else
    stop_points <- py_get stations_data "stopPoints" JNull ;;
    Ok (negb (truthy stop_points)).

(** [handle_read_resource(uri)] *)
Definition handle_read_resource (w : world) (uri : uri_value) : M string :=
  if uri_eq uri "tfl://lines" then
    lines_data <~ make_tfl_request w "Line/Mode/tube,overground,dlr" None ;;
    if negb (truthy lines_data) then ret "Failed to retrieve lines data"
    else
      items <~ lift (py_iter lines_data) ;;
      formatted_lines <~ lift (rmap lines_entry items) ;;
      ret ("TfL Lines:" ++ nl ++ nl ++ join nl formatted_lines)
  else if uri_eq uri "tfl://stations" then
    stations_data <~
      make_tfl_request w "StopPoint/Mode/tube,overground,dlr" None ;;
    none <~ lift (no_stop_points stations_data) ;;
    if none then ret "Failed to retrieve stations data"
    else
      stop_points <~ lift (py_item stations_data "stopPoints") ;;
      first_50 <~ lift (py_slice 50 stop_points) ;;
      items <~ lift (py_iter first_50) ;;
      formatted_stations <~ lift (rmap stations_entry items) ;;
      ret ("TfL Stations (first 50):" ++ nl ++ nl
           ++ join nl formatted_stations)
  else if uri_eq uri "tfl://modes" then
    modes_data <~ make_tfl_request w "Mode" None ;;
    if negb (truthy modes_data) then
      ret "Failed to retrieve transport modes data"
    else
      items <~ lift (py_iter modes_data) ;;
      formatted_modes <~ lift (rmap modes_entry items) ;;
      ret ("TfL Transport Modes:" ++ nl ++ nl ++ join nl formatted_modes)
  else raise (ValueError ("Unknown resource URI: " ++ uri_str uri)).

(* ================================================================== *)
(** * Part IV: vocabulary of the specification *)
(* ================================================================== *)

(** A dict has each key once. *)
Definition unique_keys (d : dict) : Prop := NoDup (map fst d).

(** What the spec says the client hands back for a reply: the parsed body
    of a 2xx reply, the absent value otherwise. *)
Definition client_outcome (r : response) : json :=
  match r with
  | Response status (Some body) =>
      if (200 <=? status) && (status <=? 299) then body else JNull
  | _ => JNull
  end.

(** The request [make_tfl_request] sends for an endpoint and parameters. *)
Definition request_for (w : world) (endpoint : string) (params : option dict)
    : request :=
  {| url := TFL_API_BASE ++ "/" ++ endpoint; params := merged_params w params |}.

(** The five formatters, and one run of a formatter on a record where the
    clock reads [now]. *)
Inductive formatter : Type :=
| LineStatus
| Arrival
| BikePoint
| StationInfo
| NearbyStop.

Definition run_formatter (f : formatter)
    (fromisoformat : string -> option datetime) (now : Z) (record : json)
    : result string :=
  match f with
  | LineStatus => format_line_status record
  | Arrival => format_arrival fromisoformat now record
  | BikePoint => format_bike_point record
  | StationInfo => format_station_info record
  | NearbyStop => format_nearby_stop record
  end.

(** *** The shapes the formatters expect of a record's fields *)

Definition is_dict (v : json) : bool :=
  match v with
  | JDict _ => true
  | _ => false
  end.

Definition is_str (v : json) : bool :=
  match v with
  | JStr _ => true
  | _ => false
  end.

(** The field is absent, or holds a list whose items all pass [item]. *)
Definition list_field (item : json -> bool) (d : dict) (k : string) : bool :=
  match dict_lookup k d with
  | None => true
  | Some (JList l) => forallb item l
  | Some _ => false
  end.

(** The field is absent or passes [p]. *)
Definition opt_field (p : json -> bool) (d : dict) (k : string) : bool :=
  match dict_lookup k d with
  | None => true
  | Some v => p v
  end.

(** An object whose [k], when present, is a string. *)
Definition has_str (k : string) (v : json) : bool :=
  match v with
  | JDict d => opt_field is_str d k
  | _ => false
  end.

(** A number [format(x, ".0f")] can render. *)
Definition is_distance (v : json) : bool :=
  match v with
  | JFloat _ | JBool _ => true
  | JInt n => match float_of_Z n with Some _ => true | None => false end
  | _ => false
  end.

Definition line_status_shape (d : dict) : bool :=
  list_field is_dict d "lineStatuses".

Definition bike_point_shape (d : dict) : bool :=
  list_field is_dict d "additionalProperties".

Definition station_info_shape (d : dict) : bool :=
  list_field is_str d "modes"
  && list_field (fun _ => true) d "zones"
  && list_field (has_str "key") d "additionalProperties"
  && list_field (has_str "name") d "lines".

Definition nearby_stop_shape (d : dict) : bool :=
  opt_field is_distance d "distance"
  && list_field is_str d "modes"
  && list_field (has_str "name") d "lines".

Definition expected_shape (f : formatter) (d : dict) : bool :=
  match f with
  | LineStatus => line_status_shape d
  | Arrival => true
  | BikePoint => bike_point_shape d
  | StationInfo => station_info_shape d
  | NearbyStop => nearby_stop_shape d
  end.





(** *** Arrivals *)

(** The text the sort of line 300 orders a record by. *)
Definition arrival_key_text (a : json) : string :=
  match a with
  | JDict d =>
      match dict_lookup "expectedArrival" d with
      | Some (JStr t) => t
      | _ => EmptyString
      end
  | _ => EmptyString
  end.

(** A record as the upstream documents it: an object whose
    [expectedArrival], when present, is a string. *)
Definition arrival_shape (a : json) : bool := has_str "expectedArrival" a.

Definition key_le (a b : json) : Prop :=
  String.leb (arrival_key_text a) (arrival_key_text b) = true.

(** The text [format_arrival] hands to the parser: that of
    [expectedArrival] with each Z replaced, the empty text when the record
    has no such field; none when the field is not a string or the record
    not an object. *)
Definition arrival_stamp (a : json) : option string :=
  match a with
  | JDict d =>
      match dict_get d "expectedArrival" (JStr EmptyString) with
      | JStr t => Some (replace "Z"%char "+00:00" t)
      | _ => None
      end
  | _ => None
  end.

(** The instant a record's [expectedArrival] names, as [format_arrival]
    reads it. *)
Definition arrival_instant (fromisoformat : string -> option datetime)
    (a : json) : option Z :=
  match arrival_stamp a with
  | Some t =>
      match fromisoformat t with
      | Some d =>
          match utcoffset d with
          | Some off => Some (wall d - off)
          | None => None
          end
      | None => None
      end
  | None => None
  end.

(** Whole minutes from [now] to that instant, as [format_arrival]
    computes them; none when it computes none. *)
Definition minutes_left (fromisoformat : string -> option datetime)
    (now : Z) (a : json) : option Z :=
  match arrival_instant fromisoformat a with
  | Some t => float_trunc (PrimFloat.div (total_seconds (t - now)) 60)
  | None => None
  end.

(** Two clock readings between which an arrival prints the same: at both
    no minutes are computed, or the minutes left are the same, or none
    are left at either reading. *)
Definition same_reading (fromisoformat : string -> option datetime)
    (now1 now2 : Z) (a : json) : Prop :=
  match minutes_left fromisoformat now1 a,
        minutes_left fromisoformat now2 a with
  | None, None => True
  | Some m1, Some m2 => m1 = m2 \/ (m1 <= 0 /\ m2 <= 0)
  | _, _ => False
  end.

(** Is the first record's instant no later than the second's? *)
Definition time_leb (fromisoformat : string -> option datetime)
    (a b : json) : bool :=
  match arrival_instant fromisoformat a, arrival_instant fromisoformat b with
  | Some x, Some y => x <=? y
  | _, _ => false
  end.

(** The stable sort by key text, as a function on the records. *)
Fixpoint insert_arrival (a : json) (sorted : list json) : list json :=
  match sorted with
  | [] => [a]
  | b :: t =>
      if String.ltb (arrival_key_text b) (arrival_key_text a)
      then b :: insert_arrival a t
      else a :: b :: t
  end.

Fixpoint sort_arrivals (l : list json) : list json :=
  match l with
  | [] => []
  | a :: t => insert_arrival a (sort_arrivals t)
  end.

(** A record paired with its sort key. *)
Definition keyed (a : json) : json * json := (JStr (arrival_key_text a), a).

(** *** Station search *)

(** A search result with nothing to pick from: the absent value, or an
    object without matches. *)
Definition zero_matches (search_result : json) : bool :=
  match search_result with
  | JNull => true
  | JDict d =>
      match dict_lookup "matches" d with
      | None | Some (JList []) => true
      | Some _ => false
      end
  | _ => false
  end.

(** The two tools that resolve a station by search, each with the endpoint
    of its second request for a station id. *)
Definition station_tools : list (string * (string -> string)) :=
  [("get-arrivals", fun id => "StopPoint/" ++ id ++ "/Arrivals");
   ("get-station-info", fun id => "StopPoint/" ++ id)].

Definition search_request (w : world) (station : string) : request :=
  request_for w ("StopPoint/Search/" ++ station)
    (Some [("modes", JStr "tube,overground,dlr")]).

(** What the search for a station hands back, [calls] being the requests
    sent before it. *)
Definition search_outcome (w : world) (calls : list request) (station : string)
    : json :=
  client_outcome (upstream w (List.length calls) (search_request w station)).

(** *** Required arguments *)

(** The four tools with one required string argument. *)
Definition string_tools : list (string * string) :=
  [("get-line-status", "lines"); ("get-arrivals", "station");
   ("search-bike-points", "location"); ("get-station-info", "station")].

(** The argument is not there, or is a string that is blank once trimmed. *)
Definition missing_or_blank (k : string) (arguments : option dict) : Prop :=
  match arguments with
  | None => True
  | Some d =>
      dict_lookup k d = None
      \/ exists s, dict_lookup k d = Some (JStr s) /\ strip s = EmptyString
  end.

Definition stops_request (w : world) (lat lon radius : json) : request :=
  request_for w "StopPoint"
    (Some [("lat", lat); ("lon", lon); ("radius", radius);
           ("modes", JStr "tube,overground,dlr")]).

(** The radius the handler is to send for a requested one: 1000 when none
    is given or the requested one is above 1000, else the requested number
    as it is. *)
Definition radius_sent (requested : option json) : option json :=
  match requested with
  | None => Some (JInt 1000)
  | Some (JInt n) => Some (JInt (Z.min n 1000))
  | Some (JFloat x) => Some (if float_above x 1000 then JInt 1000 else JFloat x)
  | Some _ => None
  end.

(** The argument is not there. *)
Definition missing (k : string) (arguments : option dict) : Prop :=
  match arguments with
  | None => True
  | Some d => dict_lookup k d = None
  end.

(** *** The example of the spec: the Victoria line in good service *)

Definition victoria_statuses : json :=
  JList [JDict [("name", JStr "Victoria");
                ("lineStatuses",
                 JList [JDict [("statusSeverityDescription",
                                JStr "Good Service")]])]].

(** *** Two arrivals whose timestamps carry different offsets

    The train to Walthamstow Central is due at 11:05 UTC, written with the
    offset +01:00; the train to Brixton is due at 11:30 UTC. *)

Definition to_walthamstow : json :=
  JDict [("lineName", JStr "Victoria");
         ("destinationName", JStr "Walthamstow Central");
         ("expectedArrival", JStr "2024-01-01T12:05:00+01:00")].

Definition to_brixton : json :=
  JDict [("lineName", JStr "Victoria");
         ("destinationName", JStr "Brixton");
         ("expectedArrival", JStr "2024-01-01T11:30:00+00:00")].

Definition victoria_search : json :=
  JDict [("matches", JList [JDict [("id", JStr "940GZZLUVIC")]])].

(** Two arrivals in the upstream's own format, the later one first. *)
Definition two_arrivals : list json :=
  [JDict [("destinationName", JStr "Brixton");
          ("expectedArrival", JStr "2024-01-01T11:30:00Z")];
   JDict [("destinationName", JStr "Walthamstow Central");
          ("expectedArrival", JStr "2024-01-01T11:05:00Z")]].

(** *** Bike points *)

Definition says_no_bike_points (out : result (list TextContent)) : bool :=
  match out with
  | Ok l =>
      existsb (fun c => String.prefix "No bike points found near " (text c)) l
  | Raise _ => false
  end.

(** *** Worlds for the examples *)

Definition example_world (up : nat -> request -> response) (now : Z) : world :=
  {| APP_KEY := Some "key";
     APP_ID := Some "id";
     upstream := up;
     clock := fun _ => now;
     fromisoformat := fromisoformat_reference;
     sort_other := sort_by_insertion |}.

Definition silent : nat -> request -> response := fun _ _ => NoResponse.

Definition replies (l : list json) : nat -> request -> response :=
  fun n _ =>
    match nth_error l n with
    | Some body => Response 200 (Some body)
    | None => NoResponse
    end.

(* ================================================================== *)
(** * Part IV, continued: vocabulary of the further properties *)
(* ================================================================== *)

(** ** What a handler sends and returns *)

(** A request to the API's base URL that carries the two credentials of
    the environment. *)
Definition api_request (w : world) (r : request) : Prop :=
  String.prefix (TFL_API_BASE ++ "/") (url r) = true
  /\ dict_lookup "app_key" (params r) = Some (getenv (APP_KEY w))
  /\ dict_lookup "app_id" (params r) = Some (getenv (APP_ID w)).

(** [sends n P Q m]: whatever was sent before, [m] adds at most [n]
    requests, all satisfying [P], and a value it returns satisfies [Q]. *)
Definition sends {A : Type} (n : nat) (P : request -> Prop) (Q : A -> Prop)
    (m : M A) : Prop :=
  forall calls,
  exists extra,
    snd (m calls) = (calls ++ extra)%list
    /\ (List.length extra <= n)%nat
    /\ Forall P extra
    /\ match fst (m calls) with
       | Ok a => Q a
       | Raise _ => True
       end.

(** The result of a tool is one text block. *)
Definition one_text (out : list TextContent) : Prop :=
  exists t, out = [text_content t].

(** The names [handle_list_tools] offers, the URIs [handle_list_resources]
    offers. *)
Definition tool_names : list string := map Tool.name handle_list_tools.

Definition resource_uris : list uri_value :=
  map Resource.uri handle_list_resources.

(** ** Resources *)

(** A station of the stations view whose fields, where present, have the
    shape the loop reads them in. *)
Definition station_entry_shape (v : json) : bool :=
  match v with
  | JDict d =>
      list_field (fun _ => true) d "zones"
      && list_field (has_str "name") d "lines"
      && list_field is_str d "modes"
  | _ => false
  end.

(** Each view with its endpoint and the message it returns when the
    upstream gives it nothing. *)
Definition resource_failures : list (string * (string * string)) :=
  [("tfl://lines",
    ("Line/Mode/tube,overground,dlr", "Failed to retrieve lines data"));
   ("tfl://stations",
    ("StopPoint/Mode/tube,overground,dlr", "Failed to retrieve stations data"));
   ("tfl://modes", ("Mode", "Failed to retrieve transport modes data"))].

(** A value [len] accepts. *)
Definition is_sized (v : json) : bool :=
  match v with
  | JList _ | JStr _ | JDict _ => true
  | _ => false
  end.

(** A line of the lines view: an object whose routeSections, when present,
    can be counted. *)
Definition line_entry_shape (v : json) : bool :=
  match v with
  | JDict d => opt_field is_sized d "routeSections"
  | _ => false
  end.

(** The two views that list the upstream's records as they come.  Each has
    its URI, its endpoint, its heading, the formatter of one record and
    the shape that formatter reads a record in. *)
Record plain_view : Type := {
  view_uri : string;
  view_endpoint : string;
  view_heading : string;
  view_entry : json -> result string;
  view_shape : json -> bool
}.

Definition plain_views : list plain_view :=
  [{| view_uri := "tfl://lines";
      view_endpoint := "Line/Mode/tube,overground,dlr";
      view_heading := "TfL Lines:";
      view_entry := lines_entry;
      view_shape := line_entry_shape |};
   {| view_uri := "tfl://modes";
      view_endpoint := "Mode";
      view_heading := "TfL Transport Modes:";
      view_entry := modes_entry;
      view_shape := is_dict |}].

(** ** Tools *)

(** A record of the given formatter's expected shape. *)
Definition record_shape (f : formatter) (v : json) : bool :=
  match v with
  | JDict d => expected_shape f d
  | _ => false
  end.

(** The upstream gives nothing to any request: no reply, an error status,
    a body that is not JSON, or an empty one. *)
Definition gives_nothing (w : world) : Prop :=
  forall n r, truthy (client_outcome (upstream w n r)) = false.

(** The place a find-stops-by-radius message names. *)
Definition place_text (lat lon radius : json) : string :=
  py_str radius ++ "m of " ++ py_str lat ++ ", " ++ py_str lon.

(** The text each station tool returns when its second request gives
    nothing, after the endpoint of that request. *)
Definition detail_failures : list (string * ((string -> string) * string)) :=
  [("get-arrivals",
    (fun id => "StopPoint/" ++ id ++ "/Arrivals",
     "Failed to retrieve arrivals for "));
   ("get-station-info",
    (fun id => "StopPoint/" ++ id, "Failed to retrieve information for "))].

(** The arguments a tool declares in its input schema. *)
Definition declared_properties (t : Tool.t) : list string :=
  match Tool.inputSchema t with
  | JDict schema =>
      match dict_lookup "properties" schema with
      | Some (JDict props) => map fst props
      | _ => []
      end
  | _ => []
  end.

(** Arguments that pass the test [if not arguments] of line 247: a dict
    that is not empty. *)
Definition has_arguments (arguments : option dict) : bool :=
  match arguments with
  | Some (_ :: _) => true
  | _ => false
  end.

(** The value the arguments give for a key, if any. *)
Definition argument (k : string) (arguments : option dict) : option json :=
  match arguments with
  | Some d => dict_lookup k d
  | None => None
  end.

(** ** The formatters *)

(** A property whose key is the given one. *)
Definition has_key (key : string) (prop : json) : bool :=
  match prop with
  | JDict p => py_eq (dict_get p "key" JNull) (JStr key)
  | _ => false
  end.

(** The value a list of properties gives for a key: that of the last
    property with the key ("Unknown" when that property has no value),
    [default] when no property has the key. *)
Definition property_value (key : string) (default : json) (props : list json)
    : json :=
  match find (has_key key) (rev props) with
  | Some (JDict p) => dict_get p "value" (JStr "Unknown")
  | _ => default
  end.

(** ** Example records *)

Definition brixton_station : json :=
  JDict [("commonName", JStr "Brixton Underground Station");
         ("id", JStr "940GZZLUBXN");
         ("modes", JList [JStr "tube"]);
         ("zones", JList [JStr "2"]);
         ("lines", JList [JDict [("name", JStr "Victoria")]])].

Definition victoria_line : json :=
  JDict [("name", JStr "Victoria"); ("id", JStr "victoria");
         ("modeName", JStr "tube"); ("routeSections", JList [])].

Definition vauxhall_bikes : json :=
  JDict [("commonName", JStr "Vauxhall Cross");
         ("additionalProperties",
          JList [JDict [("key", JStr "NbBikes"); ("value", JStr "7")];
                 JDict [("key", JStr "NbEmptyDocks"); ("value", JStr "12")]])].

Definition waterloo_stop : json :=
  JDict [("commonName", JStr "Waterloo"); ("distance", JInt 120);
         ("modes", JList [JStr "tube"])].

(* ================================================================== *)
(** * Part V: properties *)
(* ================================================================== *)

(** ** Dictionaries *)

Lemma dict_lookup_absent (k : string) (d : dict) :
  ~ In k (map fst d) -> dict_lookup k d = None.
Proof.
  induction d as [|[k0 v0] d IH]; simpl; intros Hk.
  - reflexivity.
  - destruct (String.eqb_spec k0 k) as [->|_].
    + exfalso. apply Hk. now left.
    + apply IH. intros Hin. apply Hk. now right.
Qed.

Lemma dict_lookup_set_same (k : string) (v : json) (d : dict) :
  dict_lookup k (dict_set k v d) = Some v.
Proof.
  induction d as [|[k0 v0] d IH]; simpl.
  - now rewrite String.eqb_refl.
  - destruct (String.eqb_spec k0 k) as [->|Hne]; simpl.
    + now rewrite String.eqb_refl.
    + destruct (String.eqb_spec k0 k); [contradiction|exact IH].
Qed.

Lemma dict_lookup_set_other (k k' : string) (v : json) (d : dict) :
  k <> k' -> dict_lookup k' (dict_set k v d) = dict_lookup k' d.
Proof.
  intros Hne. induction d as [|[k0 v0] d IH]; simpl.
  - destruct (String.eqb_spec k k'); [contradiction|reflexivity].
  - destruct (String.eqb_spec k0 k) as [->|Hk0]; simpl.
    + destruct (String.eqb_spec k k'); [contradiction|reflexivity].
    + now rewrite IH.
Qed.

Lemma dict_lookup_update (k : string) (p d : dict) :
  unique_keys p ->
  dict_lookup k (dict_update d p) =
  match dict_lookup k p with
  | Some v => Some v
  | None => dict_lookup k d
  end.
Proof.
  unfold unique_keys, dict_update. revert d.
  induction p as [|[k0 v0] p IH]; simpl; intros d Hnd.
  - reflexivity.
  - inversion Hnd as [|? ? Hnotin Hnd']; subst.
    rewrite (IH _ Hnd').
    destruct (String.eqb_spec k0 k) as [->|Hne].
    + rewrite (dict_lookup_absent _ _ Hnotin). apply dict_lookup_set_same.
    + now rewrite (dict_lookup_set_other _ _ _ _ Hne).
Qed.

(** ** The upstream client *)

Lemma make_tfl_request_eq (w : world) (endpoint : string)
    (params : option dict) (calls : list request) :
  make_tfl_request w endpoint params calls =
  (Ok (client_outcome
         (upstream w (List.length calls) (request_for w endpoint params))),
   (calls ++ [request_for w endpoint params])%list).
Proof.
  unfold make_tfl_request, try_except, bind, client_get, request_for.
  destruct (upstream w _ _) as [|status [body|]]; simpl; try reflexivity;
    unfold lift, raise_for_status, ret; simpl;
    destruct ((200 <=? status) && (status <=? 299)); reflexivity.
Qed.

Lemma bind_make_tfl_request {B : Type} (w : world) (endpoint : string)
    (params : option dict) (k : json -> M B) (calls : list request) :
  bind (make_tfl_request w endpoint params) k calls =
  k (client_outcome
       (upstream w (List.length calls) (request_for w endpoint params)))
    (calls ++ [request_for w endpoint params])%list.
Proof.
  unfold bind. now rewrite make_tfl_request_eq.
Qed.

(** C7.  The upstream client never raises: whatever the endpoint, the
    parameters and the upstream's behaviour, it returns a value, which is
    the parsed body of a 2xx reply and None for a transport error, any
    other status or a body that is not JSON; and it sends exactly one
    request. *)
Theorem make_tfl_request_never_raises (w : world) (endpoint : string)
    (params : option dict) (calls : list request) :
  let req := request_for w endpoint params in
  make_tfl_request w endpoint params calls =
  (Ok match upstream w (List.length calls) req with
      | NoResponse => JNull
      | Response status None => JNull
      | Response status (Some body) =>
          if (200 <=? status) && (status <=? 299) then body else JNull
      end,
   (calls ++ [req])%list).
Proof.
  intros req. rewrite make_tfl_request_eq. fold req.
  destruct (upstream w _ req) as [|status [body|]]; reflexivity.
Qed.

(** C8.  Every request carries the two credential parameters merged with
    the caller's: a key the caller supplies keeps the caller's value, also
    when it is a credential's name; any other key has the credentials'
    value; and both credentials are in the defaults. *)
Theorem credentials_merged_caller_wins (w : world) (endpoint : string)
    (params : dict) (calls : list request) :
  unique_keys params ->
  let sent := merged_params w (Some params) in
  snd (make_tfl_request w endpoint (Some params) calls) =
    (calls ++ [{| url := TFL_API_BASE ++ "/" ++ endpoint; params := sent |}])%list
  /\ (forall k v, dict_lookup k params = Some v -> dict_lookup k sent = Some v)
  /\ (forall k, dict_lookup k params = None ->
                dict_lookup k sent = dict_lookup k (default_params w))
  /\ dict_lookup "app_key" (default_params w) = Some (getenv (APP_KEY w))
  /\ dict_lookup "app_id" (default_params w) = Some (getenv (APP_ID w)).
Proof.
  intros Hu sent.
  assert (Hsent : forall k, dict_lookup k sent =
                            match dict_lookup k params with
                            | Some v => Some v
                            | None => dict_lookup k (default_params w)
                            end).
  { intros k. unfold sent, merged_params. destruct params as [|kv p].
    - reflexivity.
    - now apply dict_lookup_update. }
  split; [|split; [|split; [|split]]].
  - now rewrite make_tfl_request_eq.
  - intros k v Hk. now rewrite Hsent, Hk.
  - intros k Hk. now rewrite Hsent, Hk.
  - reflexivity.
  - reflexivity.
Qed.

Lemma credentials_merged_caller_wins_witness :
  dict_lookup "app_key"
    (merged_params (example_world silent 0)
       (Some [("app_key", JStr "mine"); ("query", JStr "Soho")]))
  = Some (JStr "mine").
Proof.
  apply (credentials_merged_caller_wins (example_world silent 0)
           "BikePoint/Search"
           [("app_key", JStr "mine"); ("query", JStr "Soho")] []).
  - unfold unique_keys. simpl.
    constructor; [|constructor; [|constructor]]; simpl; intuition discriminate.
  - reflexivity.
Defined.

(** ** Running a handler *)

Lemma bind_lift {A B : Type} (r : result A) (k : A -> M B)
    (calls : list request) :
  bind (lift r) k calls =
  match r with
  | Ok a => k a calls
  | Raise e => (Raise e, calls)
  end.
Proof. destruct r; reflexivity. Qed.

Lemma dict_get_found (d : dict) (k : string) (v default : json) :
  dict_lookup k d = Some v -> dict_get d k default = v.
Proof. unfold dict_get. now intros ->. Qed.

Lemma dict_get_missing (d : dict) (k : string) (default : json) :
  dict_lookup k d = None -> dict_get d k default = default.
Proof. unfold dict_get. now intros ->. Qed.

Lemma string_eqb_false (s t : string) : s <> t -> (s =? t)%string = false.
Proof. intros H. now apply String.eqb_neq. Qed.

Lemma lookup_nonempty (d : dict) (k : string) (v : json) :
  dict_lookup k d = Some v -> d <> [].
Proof. intros H ->. discriminate. Qed.

Lemma handle_call_tool_some (w : world) (name : string) (d : dict) :
  d <> [] ->
  handle_call_tool w name (Some d) =
  if (name =? "get-line-status")%string then get_line_status w d
  else if (name =? "get-arrivals")%string then get_arrivals w d
  else if (name =? "search-bike-points")%string then search_bike_points w d
  else if (name =? "get-station-info")%string then get_station_info w d
  else if (name =? "find-stops-by-radius")%string then find_stops_by_radius w d
  else raise (ValueError ("Unknown tool: " ++ name)).
Proof.
  intros Hd. destruct d as [|kv d]; [contradiction|reflexivity].
Qed.

(** A string argument that is missing or blank reads, once trimmed, as the
    empty text. *)
Lemma blank_argument (d : dict) (k : string) :
  missing_or_blank k (Some d) ->
  py_strip (dict_get d k (JStr EmptyString)) = Ok EmptyString.
Proof.
  intros [Hnone|[s [Hs Hblank]]].
  - now rewrite (dict_get_missing _ _ _ Hnone).
  - rewrite (dict_get_found _ _ _ _ Hs). simpl. now rewrite Hblank.
Qed.

Lemma string_argument (d : dict) (k raw : string) :
  dict_lookup k d = Some (JStr raw) ->
  py_strip (dict_get d k (JStr EmptyString)) = Ok (strip raw).
Proof. intros H. now rewrite (dict_get_found _ _ _ _ H). Qed.

Section StringTools.

Variables (w : world) (d : dict) (calls : list request).

Lemma get_line_status_run (lines : string) :
  py_strip (dict_get d "lines" (JStr EmptyString)) = Ok lines ->
  lines <> EmptyString ->
  let req := request_for w
               ("Line/" ++ join "," (map strip (split ","%char lines))
                ++ "/Status") None in
  let statuses_data := client_outcome (upstream w (List.length calls) req) in
  get_line_status w d calls =
  ((if negb (truthy statuses_data) then
      Ok [text_content "Failed to retrieve line statuses"]
    else
      items <- py_iter statuses_data ;;
      formatted_statuses <- rmap format_line_status items ;;
      Ok [text_content ("Current Line Statuses:" ++ nl ++ nl
                        ++ join nl formatted_statuses)]),
   (calls ++ [req])%list).
Proof.
  intros Hl Hne req statuses_data. unfold get_line_status.
  rewrite bind_lift, Hl, (string_eqb_false _ _ Hne), bind_make_tfl_request.
  fold req statuses_data.
  destruct (truthy statuses_data); cbn [negb]; [|reflexivity].
  rewrite bind_lift. destruct (py_iter statuses_data); [|reflexivity].
  cbn [rbind]. rewrite bind_lift.
  destruct (rmap format_line_status a); reflexivity.
Qed.

Lemma search_bike_points_run (location : string) :
  py_strip (dict_get d "location" (JStr EmptyString)) = Ok location ->
  location <> EmptyString ->
  let req := request_for w "BikePoint/Search"
               (Some [("query", JStr location)]) in
  let search_result := client_outcome (upstream w (List.length calls) req) in
  search_bike_points w d calls =
  ((if negb (truthy search_result) then
      Ok [text_content ("Failed to search for bike points near " ++ location)]
    else
      nearest <- py_slice 5 search_result ;;
      points <- py_iter nearest ;;
      formatted_points <- rmap format_bike_point points ;;
      Ok [text_content ("Bike points near " ++ location ++ ":" ++ nl ++ nl
                        ++ join nl formatted_points)]),
   (calls ++ [req])%list).
Proof.
  intros Hl Hne req search_result. unfold search_bike_points.
  rewrite bind_lift, Hl, (string_eqb_false _ _ Hne), bind_make_tfl_request.
  fold req search_result.
  destruct (truthy search_result); cbn [negb]; [|reflexivity].
  rewrite bind_lift. destruct (py_slice 5 search_result); [|reflexivity].
  cbn [rbind]. rewrite bind_lift. destruct (py_iter a); [|reflexivity].
  cbn [rbind]. rewrite bind_lift.
  destruct (rmap format_bike_point a0); reflexivity.
Qed.

(** The search that opens get-arrivals and get-station-info. *)
Variable station : string.
Hypothesis station_read :
  py_strip (dict_get d "station" (JStr EmptyString)) = Ok station.
Hypothesis station_given : station <> EmptyString.

Local Abbreviation req1 := (search_request w station).
Local Abbreviation search_result := (search_outcome w calls station).

Lemma get_arrivals_unresolved (none : result bool) :
  no_matches search_result = none ->
  none <> Ok false ->
  get_arrivals w d calls =
  (match none with
   | Ok _ => Ok [text_content ("Could not find station: " ++ station)]
   | Raise e => Raise e
   end, (calls ++ [req1])%list).
Proof.
  intros Hnone Hnf. unfold get_arrivals.
  rewrite bind_lift, station_read, (string_eqb_false _ _ station_given).
  rewrite bind_make_tfl_request.
  fold (search_request w station). fold (search_outcome w calls station).
  rewrite bind_lift, Hnone. destruct none as [[|]|e]; try reflexivity.
  now contradiction Hnf.
Qed.

Lemma get_station_info_unresolved (none : result bool) :
  no_matches search_result = none ->
  none <> Ok false ->
  get_station_info w d calls =
  (match none with
   | Ok _ => Ok [text_content ("Could not find station: " ++ station)]
   | Raise e => Raise e
   end, (calls ++ [req1])%list).
Proof.
  intros Hnone Hnf. unfold get_station_info.
  rewrite bind_lift, station_read, (string_eqb_false _ _ station_given).
  rewrite bind_make_tfl_request.
  fold (search_request w station). fold (search_outcome w calls station).
  rewrite bind_lift, Hnone. destruct none as [[|]|e]; try reflexivity.
  now contradiction Hnf.
Qed.

Lemma get_arrivals_resolved (station_id : json) :
  no_matches search_result = Ok false ->
  first_match_id search_result = Ok station_id ->
  let req2 := request_for w
                ("StopPoint/" ++ py_str station_id ++ "/Arrivals") None in
  let arrivals_data :=
    client_outcome (upstream w (S (List.length calls)) req2) in
  get_arrivals w d calls =
  ((if negb (truthy arrivals_data) then
      Ok [text_content ("Failed to retrieve arrivals for " ++ station)]
    else
      sorted <- list_sort (sort_other w) arrival_key arrivals_data ;;
      formatted_arrivals <-
        rmapi (fun i arrival =>
                 format_arrival (fromisoformat w) (clock w i) arrival)
          0 (firstn 10 sorted) ;;
      Ok [text_content ("Next arrivals at " ++ station ++ ":" ++ nl ++ nl
                        ++ join nl formatted_arrivals)]),
   (calls ++ [req1; req2])%list).
Proof.
  intros Hnone Hid req2 arrivals_data. unfold get_arrivals.
  rewrite bind_lift, station_read, (string_eqb_false _ _ station_given).
  rewrite bind_make_tfl_request.
  fold (search_request w station). fold (search_outcome w calls station).
  rewrite bind_lift, Hnone, bind_lift, Hid, bind_make_tfl_request.
  replace (List.length (calls ++ [req1])%list) with (S (List.length calls))
    by (rewrite length_app; simpl; lia).
  fold req2 arrivals_data.
  replace ((calls ++ [req1]) ++ [req2])%list with (calls ++ [req1; req2])%list
    by (now rewrite <- app_assoc).
  destruct (truthy arrivals_data); cbn [negb]; [|reflexivity].
  rewrite bind_lift.
  destruct (list_sort (sort_other w) arrival_key arrivals_data);
    [|reflexivity].
  cbn [rbind]. rewrite bind_lift.
  destruct (rmapi _ 0 (firstn 10 a)); reflexivity.
Qed.

Lemma get_station_info_resolved (station_id : json) :
  no_matches search_result = Ok false ->
  first_match_id search_result = Ok station_id ->
  let req2 := request_for w ("StopPoint/" ++ py_str station_id) None in
  let station_data :=
    client_outcome (upstream w (S (List.length calls)) req2) in
  get_station_info w d calls =
  ((if negb (truthy station_data) then
      Ok [text_content ("Failed to retrieve information for " ++ station)]
    else
      formatted <- format_station_info station_data ;;
      Ok [text_content formatted]),
   (calls ++ [req1; req2])%list).
Proof.
  intros Hnone Hid req2 station_data. unfold get_station_info.
  rewrite bind_lift, station_read, (string_eqb_false _ _ station_given).
  rewrite bind_make_tfl_request.
  fold (search_request w station). fold (search_outcome w calls station).
  rewrite bind_lift, Hnone, bind_lift, Hid, bind_make_tfl_request.
  replace (List.length (calls ++ [req1])%list) with (S (List.length calls))
    by (rewrite length_app; simpl; lia).
  fold req2 station_data.
  replace ((calls ++ [req1]) ++ [req2])%list with (calls ++ [req1; req2])%list
    by (now rewrite <- app_assoc).
  destruct (truthy station_data); cbn [negb]; [|reflexivity].
  rewrite bind_lift.
  destruct (format_station_info station_data); reflexivity.
Qed.

End StringTools.

(** The search step of the two station tools. *)

Lemma zero_matches_none (search_result : json) :
  zero_matches search_result = true -> no_matches search_result = Ok true.
Proof.
  destruct search_result as [| | | | |l|fields]; simpl; try discriminate.
  - reflexivity.
  - destruct fields as [|kv fields']; [reflexivity|].
    unfold no_matches, py_get, dict_get.
    destruct (dict_lookup "matches" (kv :: fields')) as [[| | | | |[|x l]|]|];
      simpl; intros H; try discriminate; reflexivity.
Qed.

Lemma first_match_found (search_result : json) (fields first : dict)
    (rest : list json) (id : json) :
  search_result = JDict fields ->
  dict_lookup "matches" fields = Some (JList (JDict first :: rest)) ->
  dict_lookup "id" first = Some id ->
  no_matches search_result = Ok false
  /\ first_match_id search_result = Ok id.
Proof.
  intros -> Hm Hid. pose proof (lookup_nonempty _ _ _ Hm) as Hne.
  unfold no_matches, first_match_id, py_get, py_item.
  rewrite (dict_get_found _ _ _ _ Hm), Hm. simpl. rewrite Hid.
  destruct fields; [contradiction|]. now split.
Qed.

(** C6.  For get-arrivals and get-station-info: when the search hands back
    the absent value or an object with no match, the tool answers
    "Could not find station: ..." and the search is the only request sent;
    when there are matches, the second request is built from the id of the
    first match alone, whatever the other matches are, and no third
    request follows. *)
Theorem station_resolved_by_first_match (w : world) (tool : string)
    (endpoint_of : string -> string) (d : dict) (raw : string) :
  In (tool, endpoint_of) station_tools ->
  dict_lookup "station" d = Some (JStr raw) ->
  strip raw <> EmptyString ->
  let station := strip raw in
  let found := search_outcome w [] station in
  (zero_matches found = true ->
   run (handle_call_tool w tool (Some d)) =
   (Ok [text_content ("Could not find station: " ++ station)],
    [search_request w station]))
  /\ (forall fields first rest id,
        found = JDict fields ->
        dict_lookup "matches" fields = Some (JList (JDict first :: rest)) ->
        dict_lookup "id" first = Some id ->
        snd (run (handle_call_tool w tool (Some d))) =
        [search_request w station;
         request_for w (endpoint_of (py_str id)) None]).
Proof.
  intros Hin Hl Hne station found.
  pose proof (string_argument _ _ _ Hl) as Hread.
  unfold run. rewrite handle_call_tool_some by exact (lookup_nonempty _ _ _ Hl).
  simpl in Hin. destruct Hin as [H|[H|[]]]; inversion H; subst tool endpoint_of;
    cbn [String.eqb Ascii.eqb Bool.eqb]; split.
  - intros Hz. apply zero_matches_none in Hz.
    rewrite (get_arrivals_unresolved w d [] station Hread Hne _ Hz)
      by discriminate.
    reflexivity.
  - intros fields first rest id Hf Hm Hid.
    destruct (first_match_found _ _ _ _ _ Hf Hm Hid) as [Hnone Hfirst].
    now rewrite (get_arrivals_resolved w d [] station Hread Hne _ Hnone Hfirst).
  - intros Hz. apply zero_matches_none in Hz.
    rewrite (get_station_info_unresolved w d [] station Hread Hne _ Hz)
      by discriminate.
    reflexivity.
  - intros fields first rest id Hf Hm Hid.
    destruct (first_match_found _ _ _ _ _ Hf Hm Hid) as [Hnone Hfirst].
    now rewrite
      (get_station_info_resolved w d [] station Hread Hne _ Hnone Hfirst).
Qed.

Lemma station_resolved_by_first_match_witness :
  run (handle_call_tool (example_world (replies [JDict [("matches", JList [])]]) 0)
         "get-station-info" (Some [("station", JStr " Nowhere ")])) =
  (Ok [text_content "Could not find station: Nowhere"],
   [search_request (example_world (replies [JDict [("matches", JList [])]]) 0)
      "Nowhere"]).
Proof.
  apply (station_resolved_by_first_match
           (example_world (replies [JDict [("matches", JList [])]]) 0)
           "get-station-info" (fun id => "StopPoint/" ++ id)
           [("station", JStr " Nowhere ")] " Nowhere ").
  - simpl. right. left. reflexivity.
  - reflexivity.
  - vm_compute. discriminate.
  - reflexivity.
Defined.

(** C9.  get-line-status with lines = victoria, the upstream answering the
    one record of the Victoria line in good service, returns exactly the
    text of the spec. *)
Theorem get_line_status_victoria (w : world) :
  upstream w 0 (request_for w "Line/victoria/Status" None)
  = Response 200 (Some victoria_statuses) ->
  fst (run (handle_call_tool w "get-line-status"
              (Some [("lines", JStr "victoria")])))
  = Ok [text_content ("Current Line Statuses:" ++ nl ++ nl
                      ++ "Line: Victoria" ++ nl
                      ++ "Status: Good Service" ++ nl ++ "---")].
Proof.
  intros Hup. unfold run. rewrite handle_call_tool_some by discriminate.
  cbn [String.eqb Ascii.eqb Bool.eqb].
  rewrite (get_line_status_run w _ [] "victoria") by (reflexivity || discriminate).
  change ("Line/" ++ join "," (map strip (split ","%char "victoria"))
          ++ "/Status") with "Line/victoria/Status".
  change (List.length (@nil request)) with 0%nat.
  rewrite Hup. reflexivity.
Qed.

Lemma get_line_status_victoria_witness :
  fst (run (handle_call_tool
              (example_world (replies [victoria_statuses]) 0)
              "get-line-status" (Some [("lines", JStr "victoria")])))
  = Ok [text_content ("Current Line Statuses:" ++ nl ++ nl
                      ++ "Line: Victoria" ++ nl
                      ++ "Status: Good Service" ++ nl ++ "---")].
Proof.
  apply (get_line_status_victoria
           (example_world (replies [victoria_statuses]) 0)).
  reflexivity.
Defined.

(** C10.  search-bike-points never answers "No bike points found near ...":
    whatever the arguments and the upstream, no text it returns starts
    that way; a search result that is absent or empty is answered by
    "Failed to search for bike points near ...". *)
Theorem no_bike_points_message_unreachable (w : world)
    (arguments : option dict) :
  says_no_bike_points
    (fst (run (handle_call_tool w "search-bike-points" arguments))) = false
  /\ (forall d raw,
        arguments = Some d ->
        dict_lookup "location" d = Some (JStr raw) ->
        strip raw <> EmptyString ->
        let location := strip raw in
        let req := request_for w "BikePoint/Search"
                     (Some [("query", JStr location)]) in
        truthy (client_outcome (upstream w 0 req)) = false ->
        run (handle_call_tool w "search-bike-points" arguments) =
        (Ok [text_content
               ("Failed to search for bike points near " ++ location)],
         [req])).
Proof.
  split.
  - destruct arguments as [[|kv d]|]; try reflexivity.
    unfold run. rewrite handle_call_tool_some by discriminate.
    cbn [String.eqb Ascii.eqb Bool.eqb].
    destruct (py_strip (dict_get (kv :: d) "location" (JStr EmptyString)))
      as [location|e] eqn:Hread.
    + destruct (String.eqb_spec location EmptyString) as [->|Hne].
      * unfold search_bike_points. now rewrite bind_lift, Hread.
      * rewrite (search_bike_points_run w _ [] location Hread Hne).
        cbn [fst]. destruct (truthy _); cbn [negb]; [|reflexivity].
        destruct (py_slice 5 _) as [nearest|]; [|reflexivity]. cbn [rbind].
        destruct (py_iter nearest) as [points|]; [|reflexivity]. cbn [rbind].
        destruct (rmap format_bike_point points); reflexivity.
    + unfold search_bike_points. now rewrite bind_lift, Hread.
  - intros d raw -> Hl Hne location req Hfalsy.
    unfold run. rewrite handle_call_tool_some by exact (lookup_nonempty _ _ _ Hl).
    cbn [String.eqb Ascii.eqb Bool.eqb].
    rewrite (search_bike_points_run w d [] location (string_argument _ _ _ Hl) Hne).
    fold req. change (List.length (@nil request)) with 0%nat.
    now rewrite Hfalsy.
Qed.

Lemma no_bike_points_message_unreachable_witness :
  run (handle_call_tool (example_world (replies [JList []]) 0)
         "search-bike-points" (Some [("location", JStr "Soho")])) =
  (Ok [text_content "Failed to search for bike points near Soho"],
   [request_for (example_world (replies [JList []]) 0) "BikePoint/Search"
      (Some [("query", JStr "Soho")])]).
Proof.
  refine (proj2 (no_bike_points_message_unreachable
                   (example_world (replies [JList []]) 0)
                   (Some [("location", JStr "Soho")]))
            [("location", JStr "Soho")] "Soho" eq_refl eq_refl _ eq_refl).
  vm_compute. discriminate.
Defined.

(** ** find-stops-by-radius *)

Lemma radius_sent_read (d : dict) (radius : json) :
  radius_sent (dict_lookup "radius" d) = Some radius ->
  py_min (dict_get d "radius" (JInt 1000)) (JInt 1000) = Ok radius
  /\ is_none radius = false.
Proof.
  unfold dict_get, py_min.
  destruct (dict_lookup "radius" d) as [[| |n|x| | |]|]; simpl;
    try discriminate; intros [= <-].
  - destruct (Z.ltb_spec 1000 n).
    + rewrite Z.min_r by lia. now split.
    + rewrite Z.min_l by lia. now split.
  - destruct (float_above x 1000); now split.
  - now split.
Qed.

Section FindStops.

Variables (w : world) (d : dict) (calls : list request).

(** Lines 373-378 stop the handler when [lat] or [lon] is None. *)
Lemma find_stops_by_radius_refused :
  is_none (dict_get d "lat" JNull) = true
  \/ is_none (dict_get d "lon" JNull) = true ->
  find_stops_by_radius w d calls =
  (match py_min (dict_get d "radius" (JInt 1000)) (JInt 1000) with
   | Ok _ => Raise (ValueError "Missing required parameters")
   | Raise e => Raise e
   end, calls).
Proof.
  intros Hmiss. unfold find_stops_by_radius. rewrite bind_lift.
  destruct (py_min _ _) as [radius|e]; [|reflexivity].
  cbn [forallb].
  destruct Hmiss as [-> | ->]; cbn [negb andb]; [reflexivity|].
  now rewrite andb_false_r.
Qed.

Lemma find_stops_by_radius_run (lat lon radius : json) :
  dict_lookup "lat" d = Some lat -> is_none lat = false ->
  dict_lookup "lon" d = Some lon -> is_none lon = false ->
  py_min (dict_get d "radius" (JInt 1000)) (JInt 1000) = Ok radius ->
  is_none radius = false ->
  exists out,
    find_stops_by_radius w d calls =
    (out, (calls ++ [stops_request w lat lon radius])%list).
Proof.
  intros Hlat Hlat' Hlon Hlon' Hr Hr'. unfold find_stops_by_radius.
  rewrite bind_lift, Hr.
  rewrite (dict_get_found _ _ _ _ Hlat), (dict_get_found _ _ _ _ Hlon).
  cbn [forallb]. rewrite Hlat', Hlon', Hr'. cbn [negb andb].
  rewrite bind_make_tfl_request. fold (stops_request w lat lon radius).
  set (stops_data := client_outcome _).
  rewrite bind_lift.
  destruct (truthy stops_data); cbn [negb].
  2: { eexists. reflexivity. }
  destruct (py_in "stopPoints" stops_data) as [[|]|e]; cbn [rbind negb];
    try (eexists; reflexivity).
  rewrite bind_lift.
  destruct (py_item stops_data "stopPoints") as [stops|e];
    [|eexists; reflexivity].
  destruct (truthy stops); cbn [negb]; [|eexists; reflexivity].
  rewrite bind_lift.
  destruct (py_slice 10 stops) as [closest|e]; [|eexists; reflexivity].
  rewrite bind_lift.
  destruct (py_iter closest) as [items|e]; [|eexists; reflexivity].
  rewrite bind_lift.
  destruct (rmap format_nearby_stop items); eexists; reflexivity.
Qed.

End FindStops.

(** C1 (as amended).  For the four tools with a string argument, an
    argument that is missing or blank once trimmed raises ValueError
    before any request is sent.  For find-stops-by-radius a missing lat or
    lon raises before any request is sent, a ValueError when the radius is
    absent or a number.  A missing radius is no error: with lat and lon
    given, the request goes out with radius 1000. *)
Theorem required_arguments_checked (w : world) (arguments : option dict) :
  (forall tool key,
     In (tool, key) string_tools ->
     missing_or_blank key arguments ->
     exists msg,
       run (handle_call_tool w tool arguments) = (Raise (ValueError msg), []))
  /\ (missing "lat" arguments \/ missing "lon" arguments ->
      exists e,
        run (handle_call_tool w "find-stops-by-radius" arguments)
        = (Raise e, [])
        /\ (forall d radius,
              arguments = Some d ->
              radius_sent (dict_lookup "radius" d) = Some radius ->
              exists msg, e = ValueError msg))
  /\ (forall d lat lon,
        arguments = Some d ->
        dict_lookup "lat" d = Some lat -> is_none lat = false ->
        dict_lookup "lon" d = Some lon -> is_none lon = false ->
        dict_lookup "radius" d = None ->
        snd (run (handle_call_tool w "find-stops-by-radius" arguments))
        = [stops_request w lat lon (JInt 1000)]).
Proof.
  split; [|split].
  - intros tool key Hin Hblank.
    destruct arguments as [[|kv d]|]; try (eexists; reflexivity).
    unfold run. rewrite handle_call_tool_some by discriminate.
    pose proof (blank_argument _ _ Hblank) as Hread.
    simpl in Hin. destruct Hin as [H|[H|[H|[H|[]]]]]; inversion H; subst tool key;
      cbn [String.eqb Ascii.eqb Bool.eqb].
    + unfold get_line_status. rewrite bind_lift, Hread. eexists. reflexivity.
    + unfold get_arrivals. rewrite bind_lift, Hread. eexists. reflexivity.
    + unfold search_bike_points. rewrite bind_lift, Hread. eexists. reflexivity.
    + unfold get_station_info. rewrite bind_lift, Hread. eexists. reflexivity.
  - intros Hmiss. destruct arguments as [[|kv d]|].
    + eexists. split; [reflexivity|]. intros. eexists. reflexivity.
    + unfold run. rewrite handle_call_tool_some by discriminate.
      cbn [String.eqb Ascii.eqb Bool.eqb].
      rewrite find_stops_by_radius_refused.
      2: { destruct Hmiss as [Hm|Hm]; [left|right].
           - now rewrite (dict_get_missing (kv :: d) "lat" JNull Hm).
           - now rewrite (dict_get_missing (kv :: d) "lon" JNull Hm). }
      destruct (py_min _ _) as [r|e] eqn:Hmin.
      * eexists. split; [reflexivity|]. intros. eexists. reflexivity.
      * exists e. split; [reflexivity|]. intros d' radius [= <-] Hsent.
        apply radius_sent_read in Hsent. destruct Hsent as [Hsent _].
        rewrite Hsent in Hmin. discriminate.
    + eexists. split; [reflexivity|]. intros d radius [=].
  - intros d lat lon -> Hlat Hlat' Hlon Hlon' Hrad.
    unfold run. rewrite handle_call_tool_some by exact (lookup_nonempty _ _ _ Hlat).
    cbn [String.eqb Ascii.eqb Bool.eqb].
    destruct (radius_sent_read d (JInt 1000)) as [Hr Hr'];
      [now rewrite Hrad|].
    destruct (find_stops_by_radius_run w d [] lat lon _ Hlat Hlat' Hlon Hlon'
                Hr Hr') as [out ->].
    reflexivity.
Qed.

Lemma required_arguments_checked_witness :
  exists msg,
    run (handle_call_tool (example_world silent 0) "get-arrivals"
           (Some [("station", JStr "   ")]))
    = (Raise (ValueError msg), []).
Proof.
  refine (proj1 (required_arguments_checked (example_world silent 0)
                   (Some [("station", JStr "   ")]))
            "get-arrivals" "station" _ _).
  - simpl. right. left. reflexivity.
  - simpl. right. exists "   ". split; reflexivity.
Defined.

(** C1, as the spec states it, fails: find-stops-by-radius called without
    its required radius raises nothing and queries the upstream. *)
Lemma missing_radius_is_not_refused :
  run (handle_call_tool (example_world silent 0) "find-stops-by-radius"
         (Some [("lat", JFloat 51.5); ("lon", JFloat (-0.1))]))
  = (Ok [text_content "Failed to find stops within 1000m of 51.5, -0.1"],
     [stops_request (example_world silent 0)
        (JFloat 51.5) (JFloat (-0.1)) (JInt 1000)]).
Proof. vm_compute. reflexivity. Qed.

(** C2 (as amended).  With lat and lon given, find-stops-by-radius sends
    exactly one request, and its radius is 1000 when the requested radius
    is absent or above 1000, and the requested number itself otherwise:
    zero and negative numbers go upstream unchanged. *)
Theorem radius_capped_at_1000 (w : world) (d : dict) (lat lon radius : json) :
  dict_lookup "lat" d = Some lat -> is_none lat = false ->
  dict_lookup "lon" d = Some lon -> is_none lon = false ->
  radius_sent (dict_lookup "radius" d) = Some radius ->
  snd (run (handle_call_tool w "find-stops-by-radius" (Some d)))
  = [stops_request w lat lon radius]
  /\ dict_lookup "radius" (params (stops_request w lat lon radius))
     = Some radius.
Proof.
  intros Hlat Hlat' Hlon Hlon' Hsent.
  destruct (radius_sent_read _ _ Hsent) as [Hr Hr'].
  unfold run. rewrite handle_call_tool_some by exact (lookup_nonempty _ _ _ Hlat).
  cbn [String.eqb Ascii.eqb Bool.eqb].
  destruct (find_stops_by_radius_run w d [] lat lon _ Hlat Hlat' Hlon Hlon'
              Hr Hr') as [out ->].
  split; reflexivity.
Qed.

(** The example of the spec: a requested radius of 2000 is sent as 1000. *)
Lemma radius_capped_at_1000_witness :
  snd (run (handle_call_tool (example_world silent 0) "find-stops-by-radius"
              (Some [("lat", JFloat 51.5); ("lon", JFloat (-0.1));
                     ("radius", JInt 2000)])))
  = [stops_request (example_world silent 0)
       (JFloat 51.5) (JFloat (-0.1)) (JInt 1000)].
Proof.
  apply (radius_capped_at_1000 (example_world silent 0)
           [("lat", JFloat 51.5); ("lon", JFloat (-0.1)); ("radius", JInt 2000)]
           (JFloat 51.5) (JFloat (-0.1)) (JInt 1000));
    reflexivity.
Defined.

(** C2, as the spec states it, fails: a requested radius of zero is sent
    as zero, not as 1000. *)
Lemma zero_radius_is_sent_as_zero :
  map (fun r => dict_lookup "radius" (params r))
    (snd (run (handle_call_tool (example_world silent 0)
                 "find-stops-by-radius"
                 (Some [("lat", JFloat 51.5); ("lon", JFloat (-0.1));
                        ("radius", JInt 0)]))))
  = [Some (JInt 0)].
Proof. vm_compute. reflexivity. Qed.

(** ** The formatters *)

Lemma append_assoc (a b c : string) : (a ++ b) ++ c = a ++ b ++ c.
Proof. induction a as [|x a IH]; simpl; [reflexivity|now rewrite IH]. Qed.

Lemma prefix_nil (s : string) : String.prefix EmptyString s = true.
Proof. now destruct s. Qed.

Lemma prefix_append (a b : string) : String.prefix a (a ++ b) = true.
Proof.
  induction a as [|x a IH]; simpl.
  - apply prefix_nil.
  - destruct (ascii_dec x x); [exact IH|contradiction].
Qed.

Lemma list_field_get (item : json -> bool) (d : dict) (k : string) :
  list_field item d k = true ->
  exists l, dict_get d k (JList []) = JList l /\ forallb item l = true.
Proof.
  unfold list_field, dict_get.
  destruct (dict_lookup k d) as [[| | | | |l|]|]; try discriminate.
  - intros H. now exists l.
  - intros _. now exists [].
Qed.

Lemma py_join_strs (sep : string) (l : list json) :
  forallb is_str l = true -> exists s, py_join sep l = Ok s.
Proof.
  unfold py_join. intros H.
  assert (Hs : exists strs, rmap as_str l = Ok strs).
  { induction l as [|x l IH]; simpl in *.
    - now exists [].
    - apply andb_prop in H. destruct H as [Hx Hl].
      destruct x; try discriminate. destruct (IH Hl) as [strs ->].
      simpl. eauto. }
  destruct Hs as [strs ->]. simpl. eauto.
Qed.

Lemma has_str_get (k : string) (x default : json) :
  has_str k x = true -> is_str default = true ->
  exists v, py_get x k default = Ok v /\ is_str v = true.
Proof.
  destruct x as [| | | | | |p]; try discriminate. unfold has_str, opt_field.
  simpl. unfold dict_get. destruct (dict_lookup k p); eauto.
Qed.

Lemma keys_of_category_strs (category : string) (l : list json) :
  forallb (has_str "key") l = true ->
  exists keys,
    keys_of_category category l = Ok keys /\ forallb is_str keys = true.
Proof.
  induction l as [|x l IH]; simpl; intros H.
  - now exists [].
  - apply andb_prop in H. destruct H as [Hx Hl].
    destruct (IH Hl) as [keys [Hk Hs]].
    destruct (has_str_get "key" x (JStr EmptyString) Hx eq_refl) as [v [Hv Hv']].
    destruct x as [| | | | | |p]; try discriminate.
    cbn [py_get] in Hv. injection Hv as <-. cbn [py_get rbind].
    destruct (py_eq _ _).
    + rewrite Hk. cbn [rbind]. eexists. split; [reflexivity|].
      simpl. now rewrite Hv', Hs.
    + rewrite Hk. now exists keys.
Qed.

Lemma names_of_strs (l : list json) :
  forallb (has_str "name") l = true ->
  exists names, names_of (JList l) = Ok names /\ forallb is_str names = true.
Proof.
  unfold names_of. cbn [py_iter rbind].
  induction l as [|x l IH]; simpl; intros H.
  - now exists [].
  - apply andb_prop in H. destruct H as [Hx Hl].
    destruct (IH Hl) as [names [Hn Hs]].
    destruct (has_str_get "name" x (JStr EmptyString) Hx eq_refl) as [v [Hv Hv']].
    rewrite Hv, Hn. simpl. exists (v :: names). split; [reflexivity|].
    simpl. now rewrite Hv', Hs.
Qed.

Lemma bike_point_loop (l : list json) (acc : json * json) :
  forallb is_dict l = true ->
  exists found, rfold bike_point_step acc l = Ok found.
Proof.
  revert acc. induction l as [|x l IH]; simpl; intros acc H.
  - eauto.
  - apply andb_prop in H. destruct H as [Hx Hl].
    destruct x as [| | | | | |p]; try discriminate.
    unfold bike_point_step. cbn [py_get rbind].
    destruct (py_eq _ _); cbn [rbind]; [apply IH, Hl|].
    destruct (py_eq _ _); cbn [rbind]; apply IH, Hl.
Qed.

Lemma is_distance_format (v : json) :
  is_distance v = true -> exists s, py_format_0f v = Ok s.
Proof.
  destruct v as [|b|n|x| | |]; simpl; try discriminate; eauto.
  destruct (float_of_Z n); [eauto|discriminate].
Qed.

Section Formatters.

Variable d : dict.

Lemma format_line_status_total :
  line_status_shape d = true ->
  exists rest,
    format_line_status (JDict d) =
    Ok ("Line: " ++ py_str (dict_get d "name" (JStr "Unknown Line")) ++ rest).
Proof.
  unfold line_status_shape. intros H.
  destruct (list_field_get _ _ _ H) as [l [Hl Hd]].
  unfold format_line_status. cbn [py_get rbind]. rewrite Hl.
  assert (Hsr : exists status reason,
             (if truthy (JList l) then
                first <- py_first (JList l) ;;
                status <- py_get first "statusSeverityDescription"
                            (JStr "Unknown") ;;
                first' <- py_first (JList l) ;;
                reason <- py_get first' "reason" (JStr EmptyString) ;;
                Ok (status, reason)
              else Ok (JStr "Unknown", JStr EmptyString))
             = Ok (status, reason)).
  { destruct l as [|x l']; [simpl; eauto|].
    simpl in Hd. apply andb_prop in Hd. destruct Hd as [Hx _].
    destruct x; try discriminate. simpl. eauto. }
  destruct Hsr as [status [reason ->]]. cbn [rbind].
  destruct (truthy reason); eexists; rewrite !append_assoc; reflexivity.
Qed.

Lemma format_arrival_total (fromisoformat : string -> option datetime)
    (now : Z) :
  format_arrival fromisoformat now (JDict d) =
  Ok ("Line: " ++ py_str (dict_get d "lineName" (JStr "Unknown Line")) ++ nl
      ++ "Platform: "
      ++ py_str (dict_get d "platformName" (JStr "Unknown Platform")) ++ nl
      ++ "Destination: "
      ++ py_str (dict_get d "destinationName" (JStr "Unknown Destination"))
      ++ nl ++ "Arrival: " ++ arrival_time_desc fromisoformat now (JDict d)
      ++ nl ++ "---").
Proof. reflexivity. Qed.

Lemma format_bike_point_total :
  bike_point_shape d = true ->
  exists rest,
    format_bike_point (JDict d) =
    Ok ("Location: "
        ++ py_str (dict_get d "commonName" (JStr "Unknown Location")) ++ rest).
Proof.
  unfold bike_point_shape. intros H.
  destruct (list_field_get _ _ _ H) as [l [Hl Hd]].
  unfold format_bike_point. cbn [py_get rbind]. rewrite Hl. cbn [py_iter rbind].
  destruct (bike_point_loop l (JStr "Unknown", JStr "Unknown") Hd)
    as [[bikes docks] ->].
  cbn [rbind]. eexists. reflexivity.
Qed.

Lemma format_station_info_total :
  station_info_shape d = true ->
  exists rest,
    format_station_info (JDict d) =
    Ok ("Station: "
        ++ py_str (dict_get d "commonName" (JStr "Unknown Station")) ++ rest).
Proof.
  unfold station_info_shape. intros H.
  apply andb_prop in H. destruct H as [H Hlines].
  apply andb_prop in H. destruct H as [H Hprops].
  apply andb_prop in H. destruct H as [Hmodes Hzones].
  destruct (list_field_get _ _ _ Hmodes) as [modes [Hm Hm']].
  destruct (list_field_get _ _ _ Hzones) as [zones [Hz _]].
  destruct (list_field_get _ _ _ Hprops) as [props [Hp Hp']].
  destruct (list_field_get _ _ _ Hlines) as [lines [Hl Hl']].
  destruct (py_join_strs ", " modes Hm') as [modes_text Hmt].
  destruct (keys_of_category_strs "Facility" props Hp') as [fac [Hf Hf']].
  destruct (keys_of_category_strs "Accessibility" props Hp') as [acc [Ha Ha']].
  destruct (names_of_strs lines Hl') as [names [Hn Hn']].
  destruct (py_join_strs ", " names Hn') as [lines_text Hlt].
  destruct (py_join_strs ", " fac Hf') as [fac_text Hft].
  destruct (py_join_strs ", " acc Ha') as [acc_text Hat].
  unfold format_station_info. cbn [py_get rbind].
  rewrite Hm, Hz, Hp, Hl. cbn [py_iter rbind].
  rewrite Hmt. cbn [rbind]. rewrite Hf. cbn [rbind]. rewrite Hn. cbn [rbind].
  rewrite Ha. cbn [rbind]. rewrite Hlt. cbn [rbind].
  destruct fac as [|f0 fac']; destruct acc as [|a0 acc']; cbn [rbind];
    rewrite ?Hft, ?Hat; cbn [rbind]; eexists; rewrite !append_assoc;
    reflexivity.
Qed.

Lemma format_nearby_stop_total :
  nearby_stop_shape d = true ->
  exists rest,
    format_nearby_stop (JDict d) =
    Ok ("Stop: "
        ++ py_str (dict_get d "commonName" (JStr "Unknown Location")) ++ rest).
Proof.
  unfold nearby_stop_shape. intros H.
  apply andb_prop in H. destruct H as [H Hlines].
  apply andb_prop in H. destruct H as [Hdist Hmodes].
  destruct (list_field_get _ _ _ Hmodes) as [modes [Hm Hm']].
  destruct (list_field_get _ _ _ Hlines) as [lines [Hl Hl']].
  destruct (py_join_strs ", " modes Hm') as [modes_text Hmt].
  destruct (names_of_strs lines Hl') as [names [Hn Hn']].
  destruct (py_join_strs ", " names Hn') as [lines_text Hlt].
  assert (Hdt : exists s,
             py_format_0f (dict_get d "distance" (JInt 0)) = Ok s).
  { unfold opt_field in Hdist. unfold dict_get.
    destruct (dict_lookup "distance" d) as [v|].
    - now apply is_distance_format.
    - now apply is_distance_format. }
  destruct Hdt as [distance_text Hdt].
  unfold format_nearby_stop. cbn [py_get rbind].
  rewrite Hm, Hl. cbn [py_iter rbind].
  rewrite Hmt. cbn [rbind]. rewrite Hn. cbn [rbind]. rewrite Hdt. cbn [rbind].
  rewrite Hlt. cbn [rbind]. eexists. reflexivity.
Qed.

End Formatters.




(** ** The arrival formatter and the clock *)

Lemma arrival_shape_raw (a : json) :
  arrival_shape a = true ->
  exists d, a = JDict d
            /\ dict_get d "expectedArrival" (JStr EmptyString)
               = JStr (arrival_key_text a).
Proof.
  destruct a as [| | | | | |d]; try discriminate. intros H. exists d.
  split; [reflexivity|]. unfold arrival_shape, has_str, opt_field in H.
  unfold arrival_key_text, dict_get.
  destruct (dict_lookup "expectedArrival" d) as [[| | | |t| |]|];
    try discriminate; reflexivity.
Qed.

Lemma arrival_time_desc_minutes (fromisoformat : string -> option datetime)
    (now : Z) (a : json) :
  arrival_time_desc fromisoformat now a =
  match minutes_left fromisoformat now a with
  | Some m => if 0 <? m then string_of_Z m ++ " minutes" else "Due"
  | None => "Time unknown"
  end.
Proof.
  unfold arrival_time_desc, minutes_left, arrival_instant, arrival_stamp.
  destruct a as [| | | | | |d]; try reflexivity. cbn [py_get rbind].
  destruct (dict_get d "expectedArrival" (JStr EmptyString))
    as [| | | |t| |]; try reflexivity.
  cbn [py_replace rbind].
  destruct (fromisoformat _) as [dt|]; [|reflexivity]. cbn [rbind].
  unfold datetime_sub. destruct (utcoffset dt) as [off|]; [|reflexivity].
  cbn [rbind]. unfold py_int. destruct (float_trunc _); reflexivity.
Qed.

Lemma Ok_inj {A : Type} (a b : A) : Ok a = Ok b -> a = b.
Proof. congruence. Qed.

Lemma length_append (a b : string) :
  String.length (a ++ b) = (String.length a + String.length b)%nat.
Proof. induction a as [|c a IH]; simpl; [reflexivity|now rewrite IH]. Qed.

Lemma append_cancel_l (a x y : string) : a ++ x = a ++ y -> x = y.
Proof.
  induction a as [|c a IH]; simpl; [trivial|]. intros [= H]. now apply IH.
Qed.

Lemma append_cancel_r (s x y : string) : x ++ s = y ++ s -> x = y.
Proof.
  revert y. induction x as [|c x IH]; intros [|c' y]; simpl; intros H.
  - reflexivity.
  - apply (f_equal String.length) in H. simpl in H.
    rewrite length_append in H. lia.
  - apply (f_equal String.length) in H. simpl in H.
    rewrite length_append in H. lia.
  - injection H as Hc Ht. subst c'. now rewrite (IH y Ht).
Qed.

Lemma string_of_Z_inj (n m : Z) : string_of_Z n = string_of_Z m -> n = m.
Proof.
  unfold string_of_Z. intros H.
  assert (Hread : forall z,
            NilZero.int_of_string (NilZero.string_of_int (Z.to_int z))
            = Some (Z.to_int z)).
  { intros z. apply NilZero.isi; destruct z as [|p|p]; simpl;
      try discriminate; intros [= E];
      now apply (DecimalPos.Unsigned.to_uint_nonnil p). }
  pose proof (Hread n) as Hn. rewrite H, Hread in Hn.
  apply (f_equal (fun o => match o with
                           | Some d => Z.of_int d
                           | None => 0
                           end)) in Hn.
  now rewrite !DecimalZ.of_to in Hn.
Qed.

Lemma minutes_not_due (s : string) : s ++ " minutes" <> "Due".
Proof.
  intros H. apply (f_equal String.length) in H.
  rewrite length_append in H. simpl in H. lia.
Qed.

Lemma minutes_not_unknown (s : string) : s ++ " minutes" <> "Time unknown".
Proof.
  intros H. pose proof (f_equal String.length H) as Hlen.
  rewrite length_append in Hlen. simpl in Hlen.
  destruct s as [|c1 [|c2 [|c3 [|c4 [|c5 s]]]]]; simpl in Hlen; try lia.
  discriminate H.
Qed.

(** The arrival texts at two readings are the same exactly when the
    readings are. *)
Lemma same_time_desc (m1 m2 : option Z) :
  match m1 with
  | Some m => if 0 <? m then string_of_Z m ++ " minutes" else "Due"
  | None => "Time unknown"
  end
  = match m2 with
    | Some m => if 0 <? m then string_of_Z m ++ " minutes" else "Due"
    | None => "Time unknown"
    end
  <-> match m1, m2 with
      | None, None => True
      | Some a, Some b => a = b \/ (a <= 0 /\ b <= 0)
      | _, _ => False
      end.
Proof.
  destruct m1 as [a|], m2 as [b|].
  - destruct (Z.ltb_spec 0 a) as [Ha|Ha], (Z.ltb_spec 0 b) as [Hb|Hb]; split.
    + intros E. left. apply string_of_Z_inj. now apply append_cancel_r in E.
    + intros [->|[Ha' _]]; [reflexivity|lia].
    + intros E. now apply minutes_not_due in E.
    + intros [->|[Ha' _]]; lia.
    + intros E. symmetry in E. now apply minutes_not_due in E.
    + intros [->|[_ Hb']]; lia.
    + intros _. right. lia.
    + reflexivity.
  - destruct (0 <? a); split; try contradiction; intros E.
    + now apply minutes_not_unknown in E.
    + discriminate E.
  - destruct (0 <? b); split; try contradiction; intros E; symmetry in E.
    + now apply minutes_not_unknown in E.
    + discriminate E.
  - tauto.
Qed.

(** C4 (as amended).  The line-status, bike-point, station-info and
    nearby-stop formatters do not read the clock: two runs on one record
    give the same text whatever the clock reads, and whatever the parser
    of timestamps is.  The arrival formatter reads the clock: two runs on
    one record give the same result if and only if, at both readings, no
    minutes are computed from the record, or the whole minutes left are
    the same at both readings, or no minute is left at either. *)
Theorem formatters_deterministic_given_clock (f : formatter)
    (fromisoformat fromisoformat' : string -> option datetime) (now1 now2 : Z)
    (record : json) :
  (f <> Arrival ->
   run_formatter f fromisoformat now1 record
   = run_formatter f fromisoformat' now2 record)
  /\ (run_formatter Arrival fromisoformat now1 record
      = run_formatter Arrival fromisoformat now2 record
      <-> same_reading fromisoformat now1 now2 record).
Proof.
  split.
  - intros Hf. destruct f; try reflexivity. now contradiction Hf.
  - destruct record as [| | | | | |d];
      try (split; [exact (fun _ => I)|reflexivity]).
    cbn [run_formatter]. rewrite !format_arrival_total.
    unfold same_reading.
    rewrite <- (same_time_desc (minutes_left fromisoformat now1 (JDict d))
                  (minutes_left fromisoformat now2 (JDict d))).
    rewrite <- !arrival_time_desc_minutes. split.
    + intros H. apply Ok_inj in H.
      repeat apply append_cancel_l in H.
      now apply append_cancel_r in H.
    + now intros ->.
Qed.

Lemma formatters_deterministic_given_clock_witness :
  run_formatter Arrival fromisoformat_reference (utc 2024 1 1 12 0 0)
    (JDict [("lineName", JStr "Victoria");
            ("expectedArrival", JStr "2024-01-01T12:10:00Z")])
  = run_formatter Arrival fromisoformat_reference (utc 2024 1 1 11 59 30)
      (JDict [("lineName", JStr "Victoria");
              ("expectedArrival", JStr "2024-01-01T12:10:00Z")]).
Proof.
  apply (proj2 (formatters_deterministic_given_clock Arrival
                  fromisoformat_reference fromisoformat_reference
                  (utc 2024 1 1 12 0 0) (utc 2024 1 1 11 59 30)
                  (JDict [("lineName", JStr "Victoria");
                          ("expectedArrival", JStr "2024-01-01T12:10:00Z")]))).
  vm_compute. left. reflexivity.
Defined.

(** C4, as the spec states it, fails for the arrival formatter: the same
    record formatted at 12:00:00 and at 12:05:00 gives two texts. *)
Lemma arrival_text_changes_with_clock :
  run_formatter Arrival fromisoformat_reference (utc 2024 1 1 12 0 0)
    (JDict [("lineName", JStr "Victoria");
            ("platformName", JStr "Northbound - Platform 3");
            ("destinationName", JStr "Walthamstow Central");
            ("expectedArrival", JStr "2024-01-01T12:10:00Z")])
  = Ok ("Line: Victoria" ++ nl ++ "Platform: Northbound - Platform 3" ++ nl
        ++ "Destination: Walthamstow Central" ++ nl
        ++ "Arrival: 10 minutes" ++ nl ++ "---")
  /\ run_formatter Arrival fromisoformat_reference (utc 2024 1 1 12 5 0)
       (JDict [("lineName", JStr "Victoria");
               ("platformName", JStr "Northbound - Platform 3");
               ("destinationName", JStr "Walthamstow Central");
               ("expectedArrival", JStr "2024-01-01T12:10:00Z")])
     = Ok ("Line: Victoria" ++ nl ++ "Platform: Northbound - Platform 3" ++ nl
           ++ "Destination: Walthamstow Central" ++ nl
           ++ "Arrival: 5 minutes" ++ nl ++ "---").
Proof. split; vm_compute; reflexivity. Qed.

(** ** The order of the arrivals *)

Lemma ltb_leb (s t : string) : String.ltb s t = true -> String.leb s t = true.
Proof. unfold String.ltb, String.leb. now destruct (String.compare s t). Qed.

Lemma not_ltb_leb (s t : string) :
  String.ltb s t = false -> String.leb t s = true.
Proof.
  unfold String.ltb, String.leb. rewrite (String.compare_antisym t s).
  now destruct (String.compare s t).
Qed.

Lemma arrival_keys_read (l : list json) :
  forallb arrival_shape l = true ->
  rmap arrival_key l = Ok (map (fun a => JStr (arrival_key_text a)) l).
Proof.
  induction l as [|a l IH]; simpl; intros H; [reflexivity|].
  apply andb_prop in H. destruct H as [Ha Hl]. rewrite (IH Hl).
  destruct (arrival_shape_raw a Ha) as [d [Hd Hraw]].
  unfold arrival_key. rewrite Hd at 1. cbn [py_get rbind]. now rewrite Hraw.
Qed.

Lemma combine_keyed (l : list json) :
  combine (map (fun a => JStr (arrival_key_text a)) l) l = map keyed l.
Proof. induction l as [|a l IH]; simpl; [reflexivity|now rewrite IH]. Qed.

Lemma insert_keyed_arrival (a : json) (s : list json) :
  insert_keyed (keyed a) (map keyed s) = Ok (map keyed (insert_arrival a s)).
Proof.
  induction s as [|b s IH]; simpl; [reflexivity|].
  destruct (String.ltb (arrival_key_text b) (arrival_key_text a)); simpl.
  - now rewrite IH.
  - reflexivity.
Qed.

Lemma sort_keyed_arrivals (l : list json) :
  sort_keyed (map keyed l) = Ok (map keyed (sort_arrivals l)).
Proof.
  induction l as [|a l IH]; simpl; [reflexivity|].
  rewrite IH. simpl. apply insert_keyed_arrival.
Qed.

Lemma str_keys_read (l : list json) :
  rmap as_str (map (fun a => JStr (arrival_key_text a)) l)
  = Ok (map arrival_key_text l).
Proof.
  induction l as [|a l IH]; simpl; [reflexivity|]. now rewrite IH.
Qed.

Lemma list_sort_arrivals
    (other : list (json * json) -> result (list json)) (l : list json) :
  forallb arrival_shape l = true ->
  list_sort other arrival_key (JList l) = Ok (sort_arrivals l).
Proof.
  intros H. unfold list_sort, sort_by_insertion.
  rewrite (arrival_keys_read l H). cbn [rbind]. rewrite str_keys_read.
  rewrite combine_keyed, sort_keyed_arrivals. cbn [rbind].
  rewrite map_map. unfold keyed. simpl. now rewrite map_id.
Qed.

Lemma insert_arrival_perm (a : json) (s : list json) :
  Permutation (a :: s) (insert_arrival a s).
Proof.
  induction s as [|b s IH]; simpl; [reflexivity|].
  destruct (String.ltb _ _); [|reflexivity].
  rewrite perm_swap. now apply perm_skip.
Qed.

Lemma sort_arrivals_perm (l : list json) : Permutation l (sort_arrivals l).
Proof.
  induction l as [|a l IH]; simpl; [constructor|].
  rewrite <- insert_arrival_perm. now apply perm_skip.
Qed.

Lemma insert_arrival_hd (a b : json) (s : list json) :
  HdRel key_le b s -> key_le b a -> HdRel key_le b (insert_arrival a s).
Proof.
  intros Hhd Hba. destruct s as [|c s]; simpl.
  - now constructor.
  - destruct (String.ltb _ _); constructor; [|assumption].
    now inversion Hhd.
Qed.

Lemma insert_arrival_sorted (a : json) (s : list json) :
  Sorted key_le s -> Sorted key_le (insert_arrival a s).
Proof.
  induction 1 as [|b s Hs IH Hhd]; simpl.
  - repeat constructor.
  - destruct (String.ltb (arrival_key_text b) (arrival_key_text a)) eqn:Hlt.
    + constructor; [exact IH|].
      apply insert_arrival_hd; [exact Hhd|]. now apply ltb_leb.
    + constructor; [now constructor|]. constructor. now apply not_ltb_leb.
Qed.

Lemma sort_arrivals_sorted (l : list json) : Sorted key_le (sort_arrivals l).
Proof.
  induction l as [|a l IH]; simpl; [constructor|].
  now apply insert_arrival_sorted.
Qed.

Lemma Sorted_within {A : Type} (R R' : A -> A -> Prop) (s : list A) :
  Sorted R s ->
  (forall a b, In a s -> In b s -> R a b -> R' a b) ->
  Sorted R' s.
Proof.
  induction 1 as [|a s Hs IH Hhd]; intros Himp; constructor.
  - apply IH. intros x y Hx Hy. apply Himp; now right.
  - destruct Hhd as [|b s' Hab]; constructor.
    apply Himp; [now left|right; now left|exact Hab].
Qed.

Lemma format_arrivals_total (fromisoformat : string -> option datetime)
    (clock : nat -> Z) (l : list json) (start : nat) :
  forallb is_dict l = true ->
  exists blocks,
    rmapi (fun i a => format_arrival fromisoformat (clock i) a) start l
    = Ok blocks
    /\ List.length blocks = List.length l.
Proof.
  revert start. induction l as [|a l IH]; simpl; intros start H.
  - now exists [].
  - apply andb_prop in H. destruct H as [Ha Hl].
    destruct a as [| | | | | |d]; try discriminate.
    rewrite format_arrival_total. cbn [rbind].
    destruct (IH (S start) Hl) as [blocks [-> Hlen]]. cbn [rbind].
    eexists. split; [reflexivity|]. simpl. now rewrite Hlen.
Qed.

Lemma in_firstn {A : Type} (n : nat) (l : list A) (a : A) :
  In a (firstn n l) -> In a l.
Proof.
  revert l. induction n as [|n IH]; intros [|x l]; simpl; try tauto.
  intros [->|H]; [now left|right; now apply IH].
Qed.

Lemma arrival_shape_is_dict (l : list json) :
  forallb arrival_shape l = true -> forallb is_dict l = true.
Proof.
  induction l as [|a l IH]; simpl; [reflexivity|]. intros H.
  apply andb_prop in H. destruct H as [Ha Hl]. rewrite (IH Hl).
  now destruct a.
Qed.

(** C5.  get-arrivals does not print the arrivals in order of time: the
    sort of line 300 compares the timestamps as text.  The upstream lists
    the train to Walthamstow Central (11:05 UTC, written 12:05+01:00) and
    the train to Brixton (11:30 UTC); at 11:00 UTC the tool prints
    Brixton, 30 minutes away, before Walthamstow Central, 5 minutes
    away. *)
Lemma arrivals_not_in_time_order :
  fst (run (handle_call_tool
              (example_world
                 (replies [victoria_search; JList [to_walthamstow; to_brixton]])
                 (utc 2024 1 1 11 0 0))
              "get-arrivals" (Some [("station", JStr "Victoria")])))
  = Ok [text_content
          ("Next arrivals at Victoria:" ++ nl ++ nl
           ++ "Line: Victoria" ++ nl ++ "Platform: Unknown Platform" ++ nl
           ++ "Destination: Brixton" ++ nl
           ++ "Arrival: 30 minutes" ++ nl ++ "---" ++ nl
           ++ "Line: Victoria" ++ nl ++ "Platform: Unknown Platform" ++ nl
           ++ "Destination: Walthamstow Central" ++ nl
           ++ "Arrival: 5 minutes" ++ nl ++ "---")]
  /\ time_leb fromisoformat_reference to_brixton to_walthamstow = false.
Proof. split; vm_compute; reflexivity. Qed.

(* ================================================================== *)
(** * Part VI: further properties of server.py *)
(* ================================================================== *)

(** ** A small logic of what a handler sends *)

Section Sends.

Context {A B : Type}.
Variables (P : request -> Prop).

Lemma sends_ret (n : nat) (Q : A -> Prop) (a : A) : Q a -> sends n P Q (ret a).
Proof.
  intros Ha calls. exists []. rewrite app_nil_r. simpl.
  repeat split; [lia|constructor|exact Ha].
Qed.

Lemma sends_raise (n : nat) (Q : A -> Prop) (e : exn) : sends n P Q (raise e).
Proof.
  intros calls. exists []. rewrite app_nil_r. simpl.
  repeat split; [lia|constructor].
Qed.

Lemma sends_bind_lift (n : nat) (Q : B -> Prop) (r : result A)
    (k : A -> M B) :
  (forall a, r = Ok a -> sends n P Q (k a)) -> sends n P Q (bind (lift r) k).
Proof.
  intros Hk calls. rewrite bind_lift. destruct r as [a|e].
  - exact (Hk a eq_refl calls).
  - exists []. rewrite app_nil_r. simpl. repeat split; [lia|constructor].
Qed.

End Sends.

Lemma sends_bind_request {B : Type} (P : request -> Prop) (n : nat)
    (Q : B -> Prop) (w : world) (endpoint : string) (params : option dict)
    (k : json -> M B) :
  P (request_for w endpoint params) ->
  (forall v, sends n P Q (k v)) ->
  sends (S n) P Q (bind (make_tfl_request w endpoint params) k).
Proof.
  intros Hreq Hk calls. rewrite bind_make_tfl_request.
  destruct (Hk (client_outcome
                  (upstream w (List.length calls)
                     (request_for w endpoint params)))
              (calls ++ [request_for w endpoint params])%list)
    as [extra [Hsnd [Hlen [Hall Hres]]]].
  exists (request_for w endpoint params :: extra).
  rewrite Hsnd, <- app_assoc. simpl.
  repeat split; [lia|now constructor|exact Hres].
Qed.

Lemma api_request_for (w : world) (endpoint : string) (given : dict) :
  unique_keys given ->
  dict_lookup "app_key" given = None ->
  dict_lookup "app_id" given = None ->
  api_request w (request_for w endpoint (Some given)).
Proof.
  intros Hu Hkey Hid. unfold api_request, request_for. cbn [url params].
  split; [|split].
  - rewrite <- append_assoc. apply prefix_append.
  - destruct given as [|kv p]; [reflexivity|].
    unfold merged_params. now rewrite dict_lookup_update, Hkey.
  - destruct given as [|kv p]; [reflexivity|].
    unfold merged_params. now rewrite dict_lookup_update, Hid.
Qed.

Lemma api_request_plain (w : world) (endpoint : string) :
  api_request w (request_for w endpoint None).
Proof.
  unfold api_request, request_for. cbn [url params].
  split; [|split; reflexivity].
  rewrite <- append_assoc. apply prefix_append.
Qed.

Ltac distinct_keys :=
  unfold unique_keys; simpl;
  repeat (constructor; [simpl; intuition discriminate|]); constructor.

Ltac sends_step :=
  lazymatch goal with
  | |- sends _ _ _ (bind (lift _) _) => apply sends_bind_lift; intros
  | |- sends _ _ _ (bind (make_tfl_request _ _ None) _) =>
      apply sends_bind_request; [apply api_request_plain|intros]
  | |- sends _ _ _ (bind (make_tfl_request _ _ (Some _)) _) =>
      apply sends_bind_request;
      [apply api_request_for; [distinct_keys|reflexivity|reflexivity]|intros]
  | |- sends _ _ _ (if ?b then _ else _) => destruct b
  | |- sends _ _ _ (ret _) => apply sends_ret
  | |- sends _ _ _ (raise _) => apply sends_raise
  end.

Ltac sends_all := repeat sends_step; try (eexists; reflexivity); try exact I.

Lemma handle_call_tool_sends (w : world) (name : string)
    (arguments : option dict) :
  sends 2 (api_request w) one_text (handle_call_tool w name arguments).
Proof.
  destruct arguments as [[|kv d]|]; try apply sends_raise.
  rewrite handle_call_tool_some by discriminate.
  repeat match goal with
         | |- sends _ _ _ (if ?b then _ else _) => destruct b
         end; try apply sends_raise.
  - unfold get_line_status. sends_all.
  - unfold get_arrivals. sends_all.
  - unfold search_bike_points. sends_all.
  - unfold get_station_info. sends_all.
  - unfold find_stops_by_radius. sends_all.
Qed.

(** X1.  every tool call, whatever its name, its arguments and the upstream's
    replies, sends at most two requests, each to a URL under the API's
    base and each carrying the app_key and app_id of the environment. *)
Theorem tool_calls_send_api_requests (w : world) (name : string)
    (arguments : option dict) :
  let sent := snd (run (handle_call_tool w name arguments)) in
  (List.length sent <= 2)%nat /\ Forall (api_request w) sent.
Proof.
  destruct (handle_call_tool_sends w name arguments [])
    as [extra [Hsnd [Hlen [Hall _]]]].
  unfold run. cbv zeta. rewrite Hsnd. now split.
Qed.

(** X2.  whenever a tool call returns rather than raises, it returns exactly
    one content block, of type text. *)
Theorem tool_calls_return_one_text (w : world) (name : string)
    (arguments : option dict) :
  match fst (run (handle_call_tool w name arguments)) with
  | Ok out => exists t, out = [{| type := "text"; text := t |}]
  | Raise _ => True
  end.
Proof.
  destruct (handle_call_tool_sends w name arguments [])
    as [extra [_ [_ [_ Hres]]]].
  exact Hres.
Qed.

(** ** The names on offer and the names accepted *)

Lemma not_listed_tool (name : string) :
  ~ In name tool_names ->
  (name =? "get-line-status")%string = false
  /\ (name =? "get-arrivals")%string = false
  /\ (name =? "search-bike-points")%string = false
  /\ (name =? "get-station-info")%string = false
  /\ (name =? "find-stops-by-radius")%string = false.
Proof.
  intros H. repeat split; apply String.eqb_neq; intros ->; apply H;
    unfold tool_names; simpl; tauto.
Qed.

Lemma handle_call_tool_unknown (w : world) (name : string)
    (kv : string * json) (d : dict) :
  ~ In name tool_names ->
  handle_call_tool w name (Some (kv :: d)) =
  raise (ValueError ("Unknown tool: " ++ name)).
Proof.
  intros H. destruct (not_listed_tool name H) as [H1 [H2 [H3 [H4 H5]]]].
  rewrite handle_call_tool_some by discriminate.
  now rewrite H1, H2, H3, H4, H5.
Qed.

(** X3.  a name that [handle_list_tools] does not offer is refused with
    ValueError "Unknown tool: <name>" before any request is sent; but
    arguments that are None or empty are refused first, with
    "Missing arguments", whatever the name. *)
Theorem unknown_tool_refused (w : world) (name : string)
    (arguments : option dict) :
  ~ In name tool_names ->
  run (handle_call_tool w name arguments) =
  (Raise (ValueError match arguments with
                     | None | Some [] => "Missing arguments"
                     | Some (_ :: _) => "Unknown tool: " ++ name
                     end), []).
Proof.
  intros H. destruct arguments as [[|kv d]|]; try reflexivity.
  unfold run. now rewrite handle_call_tool_unknown.
Qed.

Lemma unknown_tool_refused_witness :
  run (handle_call_tool (example_world silent 0) "get-weather"
         (Some [("city", JStr "London")])) =
  (Raise (ValueError "Unknown tool: get-weather"), []).
Proof.
  apply (unknown_tool_refused (example_world silent 0) "get-weather"
           (Some [("city", JStr "London")])).
  unfold tool_names. simpl. intuition discriminate.
Defined.

Lemma py_strip_raises (v : json) (e : exn) :
  py_strip v = Raise e -> e = AttributeError.
Proof. destruct v; simpl; congruence. Qed.

Lemma py_min_1000 (a : json) :
  match py_min a (JInt 1000) with
  | Ok r => is_none r = false
  | Raise e => e = TypeError
  end.
Proof.
  unfold py_min. destruct a as [|b|n|x|s|l|d]; simpl; try reflexivity.
  - now destruct b.
  - now destruct (1000 <? n).
  - now destruct (float_above x 1000).
Qed.

Section FirstRequest.

Variables (w : world) (d : dict) (calls : list request) (station : string).
Hypothesis station_read :
  py_strip (dict_get d "station" (JStr EmptyString)) = Ok station.
Hypothesis station_given : station <> EmptyString.

Lemma get_arrivals_unidentified (e : exn) :
  no_matches (search_outcome w calls station) = Ok false ->
  first_match_id (search_outcome w calls station) = Raise e ->
  get_arrivals w d calls =
  (Raise e, (calls ++ [search_request w station])%list).
Proof.
  intros Hnone Hid. unfold get_arrivals.
  rewrite bind_lift, station_read, (string_eqb_false _ _ station_given).
  rewrite bind_make_tfl_request.
  fold (search_request w station). fold (search_outcome w calls station).
  now rewrite bind_lift, Hnone, bind_lift, Hid.
Qed.

Lemma get_station_info_unidentified (e : exn) :
  no_matches (search_outcome w calls station) = Ok false ->
  first_match_id (search_outcome w calls station) = Raise e ->
  get_station_info w d calls =
  (Raise e, (calls ++ [search_request w station])%list).
Proof.
  intros Hnone Hid. unfold get_station_info.
  rewrite bind_lift, station_read, (string_eqb_false _ _ station_given).
  rewrite bind_make_tfl_request.
  fold (search_request w station). fold (search_outcome w calls station).
  now rewrite bind_lift, Hnone, bind_lift, Hid.
Qed.

(** With a station given, both station tools begin with the search. *)
Lemma get_arrivals_searches :
  exists out rest,
    get_arrivals w d calls =
    (out, (calls ++ search_request w station :: rest)%list).
Proof.
  destruct (no_matches (search_outcome w calls station)) as [[|]|e] eqn:Hnone.
  - rewrite (get_arrivals_unresolved w d calls station station_read
               station_given _ Hnone) by discriminate.
    now eexists _, [].
  - destruct (first_match_id (search_outcome w calls station))
      as [id|e] eqn:Hid.
    + rewrite (get_arrivals_resolved w d calls station station_read
                 station_given _ Hnone Hid).
      now eexists _, [_].
    + rewrite (get_arrivals_unidentified e Hnone Hid). now eexists _, [].
  - rewrite (get_arrivals_unresolved w d calls station station_read
               station_given _ Hnone) by discriminate.
    now eexists _, [].
Qed.

Lemma get_station_info_searches :
  exists out rest,
    get_station_info w d calls =
    (out, (calls ++ search_request w station :: rest)%list).
Proof.
  destruct (no_matches (search_outcome w calls station)) as [[|]|e] eqn:Hnone.
  - rewrite (get_station_info_unresolved w d calls station station_read
               station_given _ Hnone) by discriminate.
    now eexists _, [].
  - destruct (first_match_id (search_outcome w calls station))
      as [id|e] eqn:Hid.
    + rewrite (get_station_info_resolved w d calls station station_read
                 station_given _ Hnone Hid).
      now eexists _, [_].
    + rewrite (get_station_info_unidentified e Hnone Hid). now eexists _, [].
  - rewrite (get_station_info_unresolved w d calls station station_read
               station_given _ Hnone) by discriminate.
    now eexists _, [].
Qed.

End FirstRequest.

Lemma find_stops_by_radius_bad_radius (w : world) (d : dict)
    (calls : list request) (e : exn) :
  py_min (dict_get d "radius" (JInt 1000)) (JInt 1000) = Raise e ->
  find_stops_by_radius w d calls = (Raise e, calls).
Proof.
  intros Hr. unfold find_stops_by_radius. now rewrite bind_lift, Hr.
Qed.

(** X4.  the names [handle_list_tools] offers are exactly the names
    [handle_call_tool] accepts: given arguments that are not empty, a call
    fails with "Unknown tool: <name>" before any request if and only if the
    name is not on offer. *)
Theorem offered_tools_are_accepted (w : world) (name : string) (d : dict) :
  d <> [] ->
  (In name tool_names <->
   run (handle_call_tool w name (Some d))
   <> (Raise (ValueError ("Unknown tool: " ++ name)), [])).
Proof.
  intros Hd. split.
  - intros Hin. unfold run. rewrite handle_call_tool_some by exact Hd.
    unfold tool_names in Hin. simpl in Hin.
    destruct Hin as [<-|[<-|[<-|[<-|[<-|[]]]]]];
      cbn [String.eqb Ascii.eqb Bool.eqb].
    + destruct (py_strip (dict_get d "lines" (JStr EmptyString)))
        as [lines|e] eqn:Hread.
      * destruct (String.eqb_spec lines EmptyString) as [->|Hne].
        -- unfold get_line_status. rewrite bind_lift, Hread. discriminate.
        -- rewrite (get_line_status_run w d [] lines Hread Hne).
           intros [= _ H]; discriminate.
      * unfold get_line_status. rewrite bind_lift, Hread.
        apply py_strip_raises in Hread. subst e. discriminate.
    + destruct (py_strip (dict_get d "station" (JStr EmptyString)))
        as [station|e] eqn:Hread.
      * destruct (String.eqb_spec station EmptyString) as [->|Hne].
        -- unfold get_arrivals. rewrite bind_lift, Hread. discriminate.
        -- destruct (get_arrivals_searches w d [] station Hread Hne)
             as [out [rest ->]].
           intros [= _ H]; discriminate.
      * unfold get_arrivals. rewrite bind_lift, Hread.
        apply py_strip_raises in Hread. subst e. discriminate.
    + destruct (py_strip (dict_get d "location" (JStr EmptyString)))
        as [location|e] eqn:Hread.
      * destruct (String.eqb_spec location EmptyString) as [->|Hne].
        -- unfold search_bike_points. rewrite bind_lift, Hread. discriminate.
        -- rewrite (search_bike_points_run w d [] location Hread Hne).
           intros [= _ H]; discriminate.
      * unfold search_bike_points. rewrite bind_lift, Hread.
        apply py_strip_raises in Hread. subst e. discriminate.
    + destruct (py_strip (dict_get d "station" (JStr EmptyString)))
        as [station|e] eqn:Hread.
      * destruct (String.eqb_spec station EmptyString) as [->|Hne].
        -- unfold get_station_info. rewrite bind_lift, Hread. discriminate.
        -- destruct (get_station_info_searches w d [] station Hread Hne)
             as [out [rest ->]].
           intros [= _ H]; discriminate.
      * unfold get_station_info. rewrite bind_lift, Hread.
        apply py_strip_raises in Hread. subst e. discriminate.
    + pose proof (py_min_1000 (dict_get d "radius" (JInt 1000))) as Hmin.
      destruct (py_min _ _) as [radius|e] eqn:Hr.
      * destruct (is_none (dict_get d "lat" JNull)) eqn:Hlat.
        { rewrite find_stops_by_radius_refused by now left.
          rewrite Hr. discriminate. }
        destruct (is_none (dict_get d "lon" JNull)) eqn:Hlon.
        { rewrite find_stops_by_radius_refused by now right.
          rewrite Hr. discriminate. }
        unfold dict_get in Hlat, Hlon.
        destruct (dict_lookup "lat" d) as [lat|] eqn:Hl; [|discriminate].
        destruct (dict_lookup "lon" d) as [lon|] eqn:Hn; [|discriminate].
        destruct (find_stops_by_radius_run w d [] lat lon radius Hl Hlat
                    Hn Hlon Hr Hmin) as [out ->].
        intros [= _ H]; discriminate.
      * rewrite (find_stops_by_radius_bad_radius w d [] e Hr). subst e.
        discriminate.
  - intros Hrun.
    destruct (in_dec string_dec name tool_names) as [Hin|Hout]; [exact Hin|].
    exfalso. apply Hrun. destruct d as [|kv d]; [contradiction|].
    unfold run. now rewrite handle_call_tool_unknown.
Qed.

Lemma offered_tools_are_accepted_witness :
  In "get-arrivals" tool_names <->
  run (handle_call_tool (example_world silent 0) "get-arrivals"
         (Some [("station", JStr "Victoria")]))
  <> (Raise (ValueError ("Unknown tool: " ++ "get-arrivals")), []).
Proof.
  apply (offered_tools_are_accepted (example_world silent 0) "get-arrivals"
           [("station", JStr "Victoria")]).
  discriminate.
Defined.

(** ** Resources *)

Lemma rmap_total {A B : Type} (f : A -> result B) (l : list A) :
  (forall x, In x l -> exists y, f x = Ok y) ->
  exists ys, rmap f l = Ok ys /\ List.length ys = List.length l.
Proof.
  induction l as [|x l IH]; simpl; intros H.
  - now exists [].
  - destruct (H x (or_introl eq_refl)) as [y ->].
    destruct IH as [ys [-> Hlen]]; [intros z Hz; apply H; now right|].
    simpl. exists (y :: ys). split; [reflexivity|]. simpl. now rewrite Hlen.
Qed.

Section ReadResource.

Variables (w : world) (calls : list request).

Lemma read_lines_run :
  let req := request_for w "Line/Mode/tube,overground,dlr" None in
  let lines_data := client_outcome (upstream w (List.length calls) req) in
  handle_read_resource w (StrUri "tfl://lines") calls =
  ((if negb (truthy lines_data) then Ok "Failed to retrieve lines data"
    else
      items <- py_iter lines_data ;;
      formatted_lines <- rmap lines_entry items ;;
      Ok ("TfL Lines:" ++ nl ++ nl ++ join nl formatted_lines)),
   (calls ++ [req])%list).
Proof.
  intros req lines_data. unfold handle_read_resource.
  cbn [uri_eq String.eqb Ascii.eqb Bool.eqb]. rewrite bind_make_tfl_request.
  fold req lines_data.
  destruct (truthy lines_data); cbn [negb]; [|reflexivity].
  rewrite bind_lift. destruct (py_iter lines_data); [|reflexivity].
  cbn [rbind]. rewrite bind_lift. destruct (rmap lines_entry a); reflexivity.
Qed.

Lemma read_modes_run :
  let req := request_for w "Mode" None in
  let modes_data := client_outcome (upstream w (List.length calls) req) in
  handle_read_resource w (StrUri "tfl://modes") calls =
  ((if negb (truthy modes_data) then
      Ok "Failed to retrieve transport modes data"
    else
      items <- py_iter modes_data ;;
      formatted_modes <- rmap modes_entry items ;;
      Ok ("TfL Transport Modes:" ++ nl ++ nl ++ join nl formatted_modes)),
   (calls ++ [req])%list).
Proof.
  intros req modes_data. unfold handle_read_resource.
  cbn [uri_eq String.eqb Ascii.eqb Bool.eqb]. rewrite bind_make_tfl_request.
  fold req modes_data.
  destruct (truthy modes_data); cbn [negb]; [|reflexivity].
  rewrite bind_lift. destruct (py_iter modes_data); [|reflexivity].
  cbn [rbind]. rewrite bind_lift. destruct (rmap modes_entry a); reflexivity.
Qed.

Lemma read_stations_run :
  let req := request_for w "StopPoint/Mode/tube,overground,dlr" None in
  let stations_data := client_outcome (upstream w (List.length calls) req) in
  handle_read_resource w (StrUri "tfl://stations") calls =
  ((none <- no_stop_points stations_data ;;
    if none : bool then Ok "Failed to retrieve stations data"
    else
      stop_points <- py_item stations_data "stopPoints" ;;
      first_50 <- py_slice 50 stop_points ;;
      items <- py_iter first_50 ;;
      formatted_stations <- rmap stations_entry items ;;
      Ok ("TfL Stations (first 50):" ++ nl ++ nl
          ++ join nl formatted_stations)),
   (calls ++ [req])%list).
Proof.
  intros req stations_data. unfold handle_read_resource.
  cbn [uri_eq String.eqb Ascii.eqb Bool.eqb]. rewrite bind_make_tfl_request.
  fold req stations_data. rewrite bind_lift.
  destruct (no_stop_points stations_data) as [[|]|e]; try reflexivity.
  cbn [rbind]. rewrite bind_lift.
  destruct (py_item stations_data "stopPoints"); [|reflexivity].
  cbn [rbind]. rewrite bind_lift. destruct (py_slice 50 a); [|reflexivity].
  cbn [rbind]. rewrite bind_lift. destruct (py_iter a0); [|reflexivity].
  cbn [rbind]. rewrite bind_lift. destruct (rmap stations_entry a1); reflexivity.
Qed.

End ReadResource.

Lemma not_listed_resource (uri : string) :
  ~ In (AnyUrl uri) resource_uris ->
  (uri =? "tfl://lines")%string = false
  /\ (uri =? "tfl://stations")%string = false
  /\ (uri =? "tfl://modes")%string = false.
Proof.
  intros H. repeat split; apply String.eqb_neq; intros ->; apply H;
    unfold resource_uris; simpl; tauto.
Qed.

(** X5.  [handle_read_resource] compares its argument with str literals.
    Handed a URL object, as every URI that [handle_list_resources] offers
    is and as the server hands it, it raises ValueError
    "Unknown resource URI: <uri>" and sends nothing, whatever the URI.
    Called with a str, it sends exactly one request, without parameters
    of its own, when the str is the text of an offered URI, and raises the
    same error without a request otherwise. *)
Theorem resources_read_by_str_only (w : world) :
  (forall r, In r handle_list_resources ->
             exists s, Resource.uri r = AnyUrl s)
  /\ (forall s,
        run (handle_read_resource w (AnyUrl s)) =
        (Raise (ValueError ("Unknown resource URI: " ++ s)), []))
  /\ (forall s, In (AnyUrl s) resource_uris ->
        exists endpoint,
          snd (run (handle_read_resource w (StrUri s))) =
          [{| url := TFL_API_BASE ++ "/" ++ endpoint;
              params := default_params w |}])
  /\ (forall s, ~ In (AnyUrl s) resource_uris ->
        run (handle_read_resource w (StrUri s)) =
        (Raise (ValueError ("Unknown resource URI: " ++ s)), [])).
Proof.
  split; [|split; [|split]].
  - unfold handle_list_resources. cbn [In].
    intros r [<-|[<-|[<-|[]]]]; eexists; reflexivity.
  - reflexivity.
  - unfold resource_uris. simpl. unfold run.
    intros s [H|[H|[H|[]]]]; injection H as <-; eexists.
    + now rewrite read_lines_run.
    + now rewrite read_stations_run.
    + now rewrite read_modes_run.
  - intros s H. destruct (not_listed_resource s H) as [H1 [H2 H3]].
    unfold run, handle_read_resource. cbn [uri_eq uri_str].
    now rewrite H1, H2, H3.
Qed.

Lemma resources_read_by_str_only_witness :
  run (handle_read_resource (example_world silent 0) (AnyUrl "tfl://lines")) =
  (Raise (ValueError ("Unknown resource URI: " ++ "tfl://lines")), []).
Proof.
  apply (proj1 (proj2 (resources_read_by_str_only (example_world silent 0)))).
Defined.

(** X6.  Called with the URI as a str: when the upstream gives a view
    nothing (no reply, an error status, a body that is not JSON, or an
    empty one), reading it does not raise: it returns the view's failure
    message as its text. *)
Theorem resource_failure_is_text (w : world) (uri endpoint message : string) :
  In (uri, (endpoint, message)) resource_failures ->
  truthy (client_outcome (upstream w 0 (request_for w endpoint None))) = false ->
  run (handle_read_resource w (StrUri uri)) =
  (Ok message, [request_for w endpoint None]).
Proof.
  unfold run. simpl.
  intros [H|[H|[H|[]]]]; injection H as <- <- <-; intros Hfalsy.
  - rewrite read_lines_run. cbn [List.length app]. now rewrite Hfalsy.
  - rewrite read_stations_run. cbn [List.length app].
    unfold no_stop_points. now rewrite Hfalsy.
  - rewrite read_modes_run. cbn [List.length app]. now rewrite Hfalsy.
Qed.

Lemma resource_failure_is_text_witness :
  run (handle_read_resource (example_world silent 0) (StrUri "tfl://stations")) =
  (Ok "Failed to retrieve stations data",
   [request_for (example_world silent 0)
      "StopPoint/Mode/tube,overground,dlr" None]).
Proof.
  apply (resource_failure_is_text (example_world silent 0) "tfl://stations"
           "StopPoint/Mode/tube,overground,dlr"
           "Failed to retrieve stations data").
  - simpl. right. left. reflexivity.
  - reflexivity.
Defined.

Lemma stations_entry_total (v : json) :
  station_entry_shape v = true -> exists block, stations_entry v = Ok block.
Proof.
  destruct v as [| | | | | |d]; try discriminate. simpl. intros H.
  apply andb_prop in H. destruct H as [H Hmodes].
  apply andb_prop in H. destruct H as [Hzones Hlines].
  destruct (list_field_get _ _ _ Hmodes) as [modes [Hm Hm']].
  destruct (list_field_get _ _ _ Hzones) as [zones [Hz _]].
  destruct (list_field_get _ _ _ Hlines) as [lines [Hl Hl']].
  destruct (py_join_strs ", " modes Hm') as [modes_text Hmt].
  destruct (names_of_strs lines Hl') as [names [Hn Hn']].
  destruct (py_join_strs ", " names Hn') as [lines_text Hlt].
  unfold stations_entry. cbn [py_get rbind]. rewrite Hz, Hl, Hm.
  cbn [py_iter rbind]. rewrite Hn. cbn [rbind]. rewrite Hmt. cbn [rbind].
  rewrite Hlt. cbn [rbind]. eauto.
Qed.

(** X7.  Called with the URI as a str, the stations view prints the first
    50 stations only: for n well-shaped stations from the upstream it
    prints min(50, n) blocks, those of the first stations in the
    upstream's order. *)
Theorem stations_view_capped_at_50 (w : world) (fields : dict)
    (l : list json) :
  client_outcome
    (upstream w 0 (request_for w "StopPoint/Mode/tube,overground,dlr" None))
  = JDict fields ->
  dict_lookup "stopPoints" fields = Some (JList l) ->
  l <> [] ->
  forallb station_entry_shape l = true ->
  exists blocks,
    rmap stations_entry (firstn 50 l) = Ok blocks
    /\ List.length blocks = Nat.min 50 (List.length l)
    /\ fst (run (handle_read_resource w (StrUri "tfl://stations")))
       = Ok ("TfL Stations (first 50):" ++ nl ++ nl ++ join nl blocks).
Proof.
  intros Hout Hsp Hne Hshape.
  destruct (rmap_total stations_entry (firstn 50 l)) as [blocks [Hb Hlen]].
  { intros x Hx. apply stations_entry_total. apply in_firstn in Hx.
    rewrite forallb_forall in Hshape. now apply Hshape. }
  exists blocks. split; [exact Hb|]. split.
  { now rewrite Hlen, length_firstn. }
  unfold run. rewrite read_stations_run. cbn [fst List.length].
  rewrite Hout. pose proof (lookup_nonempty _ _ _ Hsp) as Hf.
  unfold no_stop_points, py_get, py_item.
  rewrite (dict_get_found _ _ _ _ Hsp), Hsp.
  destruct fields as [|kv fields']; [contradiction|].
  destruct l as [|x l']; [contradiction|].
  cbn [truthy negb rbind py_slice py_iter]. now rewrite Hb.
Qed.

Lemma stations_view_capped_at_50_witness :
  exists blocks,
    rmap stations_entry (firstn 50 (List.repeat brixton_station 51))
    = Ok blocks
    /\ List.length blocks
       = Nat.min 50 (List.length (List.repeat brixton_station 51))
    /\ fst (run (handle_read_resource
                   (example_world
                      (replies
                         [JDict [("stopPoints",
                                  JList (List.repeat brixton_station 51))]])
                      0)
                   (StrUri "tfl://stations")))
       = Ok ("TfL Stations (first 50):" ++ nl ++ nl ++ join nl blocks).
Proof.
  apply (stations_view_capped_at_50
           (example_world
              (replies
                 [JDict [("stopPoints",
                          JList (List.repeat brixton_station 51))]])
              0)
           [("stopPoints", JList (List.repeat brixton_station 51))]
           (List.repeat brixton_station 51)).
  - reflexivity.
  - reflexivity.
  - discriminate.
  - reflexivity.
Defined.

Lemma lines_entry_total (v : json) :
  line_entry_shape v = true -> exists block, lines_entry v = Ok block.
Proof.
  destruct v as [| | | | | |d]; try discriminate. unfold line_entry_shape.
  unfold opt_field, lines_entry. cbn [py_get rbind]. unfold dict_get.
  destruct (dict_lookup "routeSections" d) as [[| | | | | |]|];
    try discriminate; intros _; cbn [py_len rbind]; eauto.
Qed.

Lemma modes_entry_total (v : json) :
  is_dict v = true -> exists block, modes_entry v = Ok block.
Proof.
  destruct v as [| | | | | |d]; try discriminate. intros _.
  unfold modes_entry. cbn [py_get rbind]. eauto.
Qed.

(** X8.  Called with the URI as a str, the lines view and the modes view
    have no cap: for a non-empty list of n well-shaped records from the
    upstream, each prints its heading and n blocks, one per record in the
    upstream's order, after one request. *)
Theorem plain_views_list_every_record (w : world) (v : plain_view)
    (l : list json) :
  In v plain_views ->
  client_outcome (upstream w 0 (request_for w (view_endpoint v) None))
  = JList l ->
  l <> [] ->
  forallb (view_shape v) l = true ->
  exists blocks,
    rmap (view_entry v) l = Ok blocks
    /\ List.length blocks = List.length l
    /\ run (handle_read_resource w (StrUri (view_uri v)))
       = (Ok (view_heading v ++ nl ++ nl ++ join nl blocks),
          [request_for w (view_endpoint v) None]).
Proof.
  intros Hin Hout Hne Hshape.
  assert (Htotal : forall x, view_shape v x = true ->
                             exists block, view_entry v x = Ok block).
  { simpl in Hin. destruct Hin as [<-|[<-|[]]]; simpl.
    - apply lines_entry_total.
    - apply modes_entry_total. }
  destruct (rmap_total (view_entry v) l) as [blocks [Hb Hlen]].
  { intros x Hx. apply Htotal. rewrite forallb_forall in Hshape.
    now apply Hshape. }
  exists blocks. split; [exact Hb|]. split; [exact Hlen|].
  unfold run. simpl in Hin. destruct Hin as [<-|[<-|[]]]; simpl in *.
  - rewrite read_lines_run. cbn [List.length app]. rewrite Hout.
    destruct l as [|x l']; [contradiction|].
    cbn [truthy negb py_iter rbind]. now rewrite Hb.
  - rewrite read_modes_run. cbn [List.length app]. rewrite Hout.
    destruct l as [|x l']; [contradiction|].
    cbn [truthy negb py_iter rbind]. now rewrite Hb.
Qed.

Lemma plain_views_list_every_record_witness :
  exists blocks,
    rmap lines_entry [victoria_line; victoria_line] = Ok blocks
    /\ List.length blocks = 2%nat
    /\ run (handle_read_resource
              (example_world (replies [JList [victoria_line; victoria_line]])
                 0)
              (StrUri "tfl://lines"))
       = (Ok ("TfL Lines:" ++ nl ++ nl ++ join nl blocks),
          [request_for
             (example_world (replies [JList [victoria_line; victoria_line]])
                0)
             "Line/Mode/tube,overground,dlr" None]).
Proof.
  apply (plain_views_list_every_record
           (example_world (replies [JList [victoria_line; victoria_line]]) 0)
           {| view_uri := "tfl://lines";
              view_endpoint := "Line/Mode/tube,overground,dlr";
              view_heading := "TfL Lines:";
              view_entry := lines_entry;
              view_shape := line_entry_shape |}
           [victoria_line; victoria_line]).
  - simpl. left. reflexivity.
  - reflexivity.
  - discriminate.
  - reflexivity.
Defined.

(** ** Tools: failures, caps and messages *)

Lemma find_stops_by_radius_result (w : world) (d : dict)
    (calls : list request) (lat lon radius : json) :
  dict_lookup "lat" d = Some lat -> is_none lat = false ->
  dict_lookup "lon" d = Some lon -> is_none lon = false ->
  py_min (dict_get d "radius" (JInt 1000)) (JInt 1000) = Ok radius ->
  is_none radius = false ->
  let req := stops_request w lat lon radius in
  let stops_data := client_outcome (upstream w (List.length calls) req) in
  find_stops_by_radius w d calls =
  ((missing <- (if negb (truthy stops_data) then Ok true
                else (has <- py_in "stopPoints" stops_data ;; Ok (negb has))) ;;
    if missing : bool then
      Ok [text_content ("Failed to find stops within "
                        ++ place_text lat lon radius)]
    else
      stops <- py_item stops_data "stopPoints" ;;
      if negb (truthy stops) then
        Ok [text_content ("No stops found within "
                          ++ place_text lat lon radius)]
      else
        closest <- py_slice 10 stops ;;
        items <- py_iter closest ;;
        formatted_stops <- rmap format_nearby_stop items ;;
        Ok [text_content ("Stops within " ++ place_text lat lon radius ++ ":"
                          ++ nl ++ nl ++ join nl formatted_stops)]),
   (calls ++ [req])%list).
Proof.
  intros Hlat Hlat' Hlon Hlon' Hr Hr' req stops_data.
  unfold find_stops_by_radius.
  rewrite bind_lift, Hr.
  rewrite (dict_get_found _ _ _ _ Hlat), (dict_get_found _ _ _ _ Hlon).
  cbn [forallb]. rewrite Hlat', Hlon', Hr'. cbn [negb andb].
  rewrite bind_make_tfl_request. fold (stops_request w lat lon radius).
  fold req stops_data. fold (place_text lat lon radius).
  rewrite bind_lift.
  destruct (if negb (truthy stops_data) then Ok true
            else (has <- py_in "stopPoints" stops_data ;; Ok (negb has)))
    as [[|]|e]; try reflexivity.
  cbn [rbind]. rewrite bind_lift.
  destruct (py_item stops_data "stopPoints") as [stops|e]; [|reflexivity].
  cbn [rbind]. destruct (truthy stops); cbn [negb]; [|reflexivity].
  rewrite bind_lift. destruct (py_slice 10 stops); [|reflexivity].
  cbn [rbind]. rewrite bind_lift. destruct (py_iter a); [|reflexivity].
  cbn [rbind]. rewrite bind_lift.
  destruct (rmap format_nearby_stop a0); reflexivity.
Qed.

(** X9.  when the upstream gives nothing, a tool called with usable arguments
    does not raise: after one request it returns its own failure text.
    The two station tools report the failed search as
    "Could not find station: ...". *)
Theorem upstream_failure_is_text (w : world) (d : dict) :
  gives_nothing w ->
  (forall raw,
     dict_lookup "lines" d = Some (JStr raw) -> strip raw <> EmptyString ->
     exists req,
       run (handle_call_tool w "get-line-status" (Some d))
       = (Ok [text_content "Failed to retrieve line statuses"], [req]))
  /\ (forall tool endpoint_of raw,
        In (tool, endpoint_of) station_tools ->
        dict_lookup "station" d = Some (JStr raw) ->
        strip raw <> EmptyString ->
        run (handle_call_tool w tool (Some d))
        = (Ok [text_content ("Could not find station: " ++ strip raw)],
           [search_request w (strip raw)]))
  /\ (forall raw,
        dict_lookup "location" d = Some (JStr raw) ->
        strip raw <> EmptyString ->
        exists req,
          run (handle_call_tool w "search-bike-points" (Some d))
          = (Ok [text_content ("Failed to search for bike points near "
                               ++ strip raw)], [req]))
  /\ (forall lat lon radius,
        dict_lookup "lat" d = Some lat -> is_none lat = false ->
        dict_lookup "lon" d = Some lon -> is_none lon = false ->
        radius_sent (dict_lookup "radius" d) = Some radius ->
        run (handle_call_tool w "find-stops-by-radius" (Some d))
        = (Ok [text_content ("Failed to find stops within "
                             ++ place_text lat lon radius)],
           [stops_request w lat lon radius])).
Proof.
  intros Hquiet. split; [|split; [|split]].
  - intros raw Hl Hne. unfold run.
    rewrite handle_call_tool_some by exact (lookup_nonempty _ _ _ Hl).
    cbn [String.eqb Ascii.eqb Bool.eqb].
    rewrite (get_line_status_run w d [] _ (string_argument _ _ _ Hl) Hne).
    rewrite Hquiet. eexists. reflexivity.
  - intros tool endpoint_of raw Hin Hl Hne. unfold run.
    rewrite handle_call_tool_some by exact (lookup_nonempty _ _ _ Hl).
    assert (Hnone : no_matches (search_outcome w [] (strip raw)) = Ok true).
    { unfold no_matches, search_outcome. now rewrite Hquiet. }
    simpl in Hin. destruct Hin as [H|[H|[]]]; inversion H; subst;
      cbn [String.eqb Ascii.eqb Bool.eqb].
    + now rewrite (get_arrivals_unresolved w d [] _
                     (string_argument _ _ _ Hl) Hne _ Hnone) by discriminate.
    + now rewrite (get_station_info_unresolved w d [] _
                     (string_argument _ _ _ Hl) Hne _ Hnone) by discriminate.
  - intros raw Hl Hne. unfold run.
    rewrite handle_call_tool_some by exact (lookup_nonempty _ _ _ Hl).
    cbn [String.eqb Ascii.eqb Bool.eqb].
    rewrite (search_bike_points_run w d [] _ (string_argument _ _ _ Hl) Hne).
    rewrite Hquiet. eexists. reflexivity.
  - intros lat lon radius Hlat Hlat' Hlon Hlon' Hsent.
    destruct (radius_sent_read _ _ Hsent) as [Hr Hr']. unfold run.
    rewrite handle_call_tool_some by exact (lookup_nonempty _ _ _ Hlat).
    cbn [String.eqb Ascii.eqb Bool.eqb].
    rewrite (find_stops_by_radius_result w d [] lat lon radius Hlat Hlat'
               Hlon Hlon' Hr Hr').
    now rewrite Hquiet.
Qed.

Lemma upstream_failure_is_text_witness :
  run (handle_call_tool (example_world silent 0) "get-arrivals"
         (Some [("station", JStr "Victoria")]))
  = (Ok [text_content "Could not find station: Victoria"],
     [search_request (example_world silent 0) "Victoria"]).
Proof.
  refine (proj1 (proj2 (upstream_failure_is_text (example_world silent 0)
                          [("station", JStr "Victoria")] _))
            "get-arrivals" (fun id => "StopPoint/" ++ id ++ "/Arrivals")
            "Victoria" _ eq_refl _).
  - intros n r. reflexivity.
  - simpl. left. reflexivity.
  - vm_compute. discriminate.
Defined.

Lemma formatter_total_on_shape (f : formatter) (v : json) :
  f <> Arrival ->
  record_shape f v = true ->
  exists block, run_formatter f (fun _ => None) 0 v = Ok block.
Proof.
  intros Hf. destruct v as [| | | | | |d]; try discriminate. simpl.
  intros Hshape. destruct f; simpl in *.
  - destruct (format_line_status_total d Hshape); eauto.
  - now contradiction Hf.
  - destruct (format_bike_point_total d Hshape); eauto.
  - destruct (format_station_info_total d Hshape); eauto.
  - destruct (format_nearby_stop_total d Hshape); eauto.
Qed.

(** X10.  search-bike-points prints the first 5 bike points only, in the
    upstream's order: for a non-empty list of n well-shaped points it
    prints min(5, n) blocks. *)
Theorem bike_points_capped_at_5 (w : world) (d : dict) (raw : string)
    (l : list json) :
  dict_lookup "location" d = Some (JStr raw) ->
  strip raw <> EmptyString ->
  client_outcome
    (upstream w 0
       (request_for w "BikePoint/Search" (Some [("query", JStr (strip raw))])))
  = JList l ->
  l <> [] ->
  forallb (record_shape BikePoint) l = true ->
  exists blocks,
    rmap format_bike_point (firstn 5 l) = Ok blocks
    /\ List.length blocks = Nat.min 5 (List.length l)
    /\ fst (run (handle_call_tool w "search-bike-points" (Some d)))
       = Ok [text_content ("Bike points near " ++ strip raw ++ ":" ++ nl ++ nl
                           ++ join nl blocks)].
Proof.
  intros Hl Hne Hout Hnonempty Hshape.
  destruct (rmap_total format_bike_point (firstn 5 l)) as [blocks [Hb Hlen]].
  { intros x Hx. apply in_firstn in Hx. rewrite forallb_forall in Hshape.
    apply (formatter_total_on_shape BikePoint); [discriminate|].
    now apply Hshape. }
  exists blocks. split; [exact Hb|]. split.
  { now rewrite Hlen, length_firstn. }
  unfold run. rewrite handle_call_tool_some by exact (lookup_nonempty _ _ _ Hl).
  cbn [String.eqb Ascii.eqb Bool.eqb].
  rewrite (search_bike_points_run w d [] _ (string_argument _ _ _ Hl) Hne).
  cbn [fst List.length]. rewrite Hout.
  destruct l as [|x l']; [contradiction|].
  cbn [truthy negb py_slice py_iter rbind]. now rewrite Hb.
Qed.

Lemma bike_points_capped_at_5_witness :
  exists blocks,
    rmap format_bike_point (firstn 5 (List.repeat vauxhall_bikes 6))
    = Ok blocks
    /\ List.length blocks
       = Nat.min 5 (List.length (List.repeat vauxhall_bikes 6))
    /\ fst (run (handle_call_tool
                   (example_world
                      (replies [JList (List.repeat vauxhall_bikes 6)]) 0)
                   "search-bike-points"
                   (Some [("location", JStr " Vauxhall ")])))
       = Ok [text_content ("Bike points near " ++ strip " Vauxhall " ++ ":"
                           ++ nl ++ nl ++ join nl blocks)].
Proof.
  apply (bike_points_capped_at_5
           (example_world (replies [JList (List.repeat vauxhall_bikes 6)]) 0)
           [("location", JStr " Vauxhall ")] " Vauxhall "
           (List.repeat vauxhall_bikes 6)).
  - reflexivity.
  - vm_compute. discriminate.
  - reflexivity.
  - discriminate.
  - reflexivity.
Defined.

(** X11.  find-stops-by-radius tells an answer without stops from no answer:
    an upstream object whose stopPoints is an empty list gives
    "No stops found within ...", an object without stopPoints gives
    "Failed to find stops within ...", and a non-empty list of n
    well-shaped stops gives min(10, n) blocks, the first stops in the
    upstream's order. *)
Theorem stops_found_none_or_first_10 (w : world) (d fields : dict)
    (lat lon radius : json) :
  dict_lookup "lat" d = Some lat -> is_none lat = false ->
  dict_lookup "lon" d = Some lon -> is_none lon = false ->
  radius_sent (dict_lookup "radius" d) = Some radius ->
  client_outcome (upstream w 0 (stops_request w lat lon radius))
  = JDict fields ->
  fields <> [] ->
  let out := fst (run (handle_call_tool w "find-stops-by-radius" (Some d))) in
  (dict_lookup "stopPoints" fields = None ->
   out = Ok [text_content ("Failed to find stops within "
                           ++ place_text lat lon radius)])
  /\ (dict_lookup "stopPoints" fields = Some (JList []) ->
      out = Ok [text_content ("No stops found within "
                              ++ place_text lat lon radius)])
  /\ (forall l,
        dict_lookup "stopPoints" fields = Some (JList l) ->
        l <> [] ->
        forallb (record_shape NearbyStop) l = true ->
        exists blocks,
          rmap format_nearby_stop (firstn 10 l) = Ok blocks
          /\ List.length blocks = Nat.min 10 (List.length l)
          /\ out = Ok [text_content
                         ("Stops within " ++ place_text lat lon radius ++ ":"
                          ++ nl ++ nl ++ join nl blocks)]).
Proof.
  intros Hlat Hlat' Hlon Hlon' Hsent Hout Hfields out.
  destruct (radius_sent_read _ _ Hsent) as [Hr Hr'].
  assert (Hrun : out =
    (missing <- (has <- py_in "stopPoints" (JDict fields) ;; Ok (negb has)) ;;
     if missing : bool then
       Ok [text_content ("Failed to find stops within "
                         ++ place_text lat lon radius)]
     else
       stops <- py_item (JDict fields) "stopPoints" ;;
       if negb (truthy stops) then
         Ok [text_content ("No stops found within "
                           ++ place_text lat lon radius)]
       else
         closest <- py_slice 10 stops ;;
         items <- py_iter closest ;;
         formatted_stops <- rmap format_nearby_stop items ;;
         Ok [text_content ("Stops within " ++ place_text lat lon radius ++ ":"
                           ++ nl ++ nl ++ join nl formatted_stops)])).
  { unfold out, run.
    rewrite handle_call_tool_some by exact (lookup_nonempty _ _ _ Hlat).
    cbn [String.eqb Ascii.eqb Bool.eqb].
    rewrite (find_stops_by_radius_result w d [] lat lon radius Hlat Hlat'
               Hlon Hlon' Hr Hr').
    cbn [fst List.length]. rewrite Hout.
    destruct fields; [contradiction|reflexivity]. }
  rewrite Hrun. cbn [py_in py_item rbind]. split; [|split].
  - now intros ->.
  - now intros ->.
  - intros l Hsp Hne Hshape. rewrite Hsp. cbn [negb rbind].
    destruct (rmap_total format_nearby_stop (firstn 10 l))
      as [blocks [Hb Hlen]].
    { intros x Hx. apply in_firstn in Hx. rewrite forallb_forall in Hshape.
      apply (formatter_total_on_shape NearbyStop); [discriminate|].
      now apply Hshape. }
    exists blocks. split; [exact Hb|]. split.
    { now rewrite Hlen, length_firstn. }
    destruct l as [|x l']; [contradiction|].
    cbn [truthy negb py_slice py_iter rbind]. now rewrite Hb.
Qed.

Lemma stops_found_none_or_first_10_witness :
  fst (run (handle_call_tool
              (example_world (replies [JDict [("stopPoints", JList [])]]) 0)
              "find-stops-by-radius"
              (Some [("lat", JFloat 51.5); ("lon", JFloat (-0.1));
                     ("radius", JInt 2000)])))
  = Ok [text_content ("No stops found within "
                      ++ place_text (JFloat 51.5) (JFloat (-0.1))
                           (JInt 1000))].
Proof.
  refine (proj1 (proj2 (stops_found_none_or_first_10
                          (example_world
                             (replies [JDict [("stopPoints", JList [])]]) 0)
                          [("lat", JFloat 51.5); ("lon", JFloat (-0.1));
                           ("radius", JInt 2000)]
                          [("stopPoints", JList [])]
                          (JFloat 51.5) (JFloat (-0.1)) (JInt 1000)
                          eq_refl eq_refl eq_refl eq_refl eq_refl eq_refl _))
            eq_refl).
  discriminate.
Defined.

(** X12.  Called with the URI as a str: when the stations view gets an
    object whose stopPoints is missing, null or empty, it returns
    "Failed to retrieve stations data", the text it returns when the
    request fails. *)
Theorem stations_view_needs_stop_points (w : world) (fields : dict) :
  client_outcome
    (upstream w 0 (request_for w "StopPoint/Mode/tube,overground,dlr" None))
  = JDict fields ->
  truthy (dict_get fields "stopPoints" JNull) = false ->
  run (handle_read_resource w (StrUri "tfl://stations"))
  = (Ok "Failed to retrieve stations data",
     [request_for w "StopPoint/Mode/tube,overground,dlr" None]).
Proof.
  intros Hout Hnone. unfold run. rewrite read_stations_run.
  cbn [List.length app]. rewrite Hout. unfold no_stop_points.
  destruct (truthy (JDict fields)); cbn [negb py_get rbind];
    [now rewrite Hnone|reflexivity].
Qed.

Lemma stations_view_needs_stop_points_witness :
  run (handle_read_resource
         (example_world (replies [JDict [("stopPoints", JList [])]]) 0)
         (StrUri "tfl://stations"))
  = (Ok "Failed to retrieve stations data",
     [request_for
        (example_world (replies [JDict [("stopPoints", JList [])]]) 0)
        "StopPoint/Mode/tube,overground,dlr" None]).
Proof.
  apply (stations_view_needs_stop_points
           (example_world (replies [JDict [("stopPoints", JList [])]]) 0)
           [("stopPoints", JList [])]);
    reflexivity.
Defined.

(** ** The second step of the station tools *)

(** X13.  when the search finds a station and the second request gives
    nothing, get-arrivals returns "Failed to retrieve arrivals for
    <station>" and get-station-info "Failed to retrieve information for
    <station>", naming the station as the caller wrote it (trimmed), after
    exactly two requests. *)
Theorem detail_failure_is_text (w : world) (tool : string)
    (endpoint_of : string -> string) (message : string) (d : dict)
    (raw : string) (fields first : dict) (rest : list json) (id : json) :
  In (tool, (endpoint_of, message)) detail_failures ->
  dict_lookup "station" d = Some (JStr raw) ->
  strip raw <> EmptyString ->
  search_outcome w [] (strip raw) = JDict fields ->
  dict_lookup "matches" fields = Some (JList (JDict first :: rest)) ->
  dict_lookup "id" first = Some id ->
  truthy (client_outcome
            (upstream w 1 (request_for w (endpoint_of (py_str id)) None)))
  = false ->
  run (handle_call_tool w tool (Some d))
  = (Ok [text_content (message ++ strip raw)],
     [search_request w (strip raw);
      request_for w (endpoint_of (py_str id)) None]).
Proof.
  intros Hin Hl Hne Hsearch Hm Hid Hnothing.
  destruct (first_match_found _ fields first rest id Hsearch Hm Hid)
    as [Hnone Hfirst].
  unfold run. rewrite handle_call_tool_some by exact (lookup_nonempty _ _ _ Hl).
  unfold detail_failures in Hin. cbn [In] in Hin.
  destruct Hin as [H|[H|[]]]; injection H as <- <- <-;
    cbv beta in Hnothing |- *; cbn [String.eqb Ascii.eqb Bool.eqb].
  - rewrite (get_arrivals_resolved w d [] _ (string_argument _ _ _ Hl) Hne
               id Hnone Hfirst).
    cbn [List.length app].
    match goal with
    | |- context [negb (truthy ?x)] =>
        replace (truthy x) with false by (symmetry; exact Hnothing)
    end.
    reflexivity.
  - rewrite (get_station_info_resolved w d [] _ (string_argument _ _ _ Hl) Hne
               id Hnone Hfirst).
    cbn [List.length app].
    match goal with
    | |- context [negb (truthy ?x)] =>
        replace (truthy x) with false by (symmetry; exact Hnothing)
    end.
    reflexivity.
Qed.

Lemma detail_failure_is_text_witness :
  run (handle_call_tool (example_world (replies [victoria_search]) 0)
         "get-arrivals" (Some [("station", JStr " Victoria ")]))
  = (Ok [text_content ("Failed to retrieve arrivals for "
                       ++ strip " Victoria ")],
     [search_request (example_world (replies [victoria_search]) 0)
        (strip " Victoria ");
      request_for (example_world (replies [victoria_search]) 0)
        ("StopPoint/" ++ py_str (JStr "940GZZLUVIC") ++ "/Arrivals") None]).
Proof.
  apply (detail_failure_is_text
           (example_world (replies [victoria_search]) 0) "get-arrivals"
           (fun id => "StopPoint/" ++ id ++ "/Arrivals")
           "Failed to retrieve arrivals for "
           [("station", JStr " Victoria ")] " Victoria "
           [("matches", JList [JDict [("id", JStr "940GZZLUVIC")]])]
           [("id", JStr "940GZZLUVIC")] [] (JStr "940GZZLUVIC")).
  - simpl. left. reflexivity.
  - reflexivity.
  - vm_compute. discriminate.
  - reflexivity.
  - reflexivity.
  - reflexivity.
  - reflexivity.
Defined.

(** X14.  a first match without an id is not answered with a text: both
    station tools raise KeyError after the search, and send no second
    request. *)
Theorem match_without_id_raises (w : world) (tool : string)
    (endpoint_of : string -> string) (d : dict) (raw : string)
    (fields first : dict) (rest : list json) :
  In (tool, endpoint_of) station_tools ->
  dict_lookup "station" d = Some (JStr raw) ->
  strip raw <> EmptyString ->
  search_outcome w [] (strip raw) = JDict fields ->
  dict_lookup "matches" fields = Some (JList (JDict first :: rest)) ->
  dict_lookup "id" first = None ->
  run (handle_call_tool w tool (Some d))
  = (Raise KeyError, [search_request w (strip raw)]).
Proof.
  intros Hin Hl Hne Hsearch Hm Hid.
  assert (Hnone : no_matches (search_outcome w [] (strip raw)) = Ok false).
  { rewrite Hsearch. pose proof (lookup_nonempty _ _ _ Hm) as Hf.
    unfold no_matches, py_get. rewrite (dict_get_found _ _ _ _ Hm).
    destruct fields; [contradiction|reflexivity]. }
  assert (Hfirst : first_match_id (search_outcome w [] (strip raw))
                   = Raise KeyError).
  { rewrite Hsearch. unfold first_match_id, py_item. rewrite Hm.
    cbn [rbind py_first]. now rewrite Hid. }
  unfold run. rewrite handle_call_tool_some by exact (lookup_nonempty _ _ _ Hl).
  simpl in Hin. destruct Hin as [H|[H|[]]]; inversion H; subst;
    cbn [String.eqb Ascii.eqb Bool.eqb].
  - exact (get_arrivals_unidentified w d [] _ (string_argument _ _ _ Hl) Hne
             _ Hnone Hfirst).
  - exact (get_station_info_unidentified w d [] _ (string_argument _ _ _ Hl)
             Hne _ Hnone Hfirst).
Qed.

Lemma match_without_id_raises_witness :
  run (handle_call_tool
         (example_world
            (replies [JDict [("matches",
                              JList [JDict [("name", JStr "Victoria")]])]])
            0)
         "get-station-info" (Some [("station", JStr "Victoria")]))
  = (Raise KeyError,
     [search_request
        (example_world
           (replies [JDict [("matches",
                             JList [JDict [("name", JStr "Victoria")]])]])
           0)
        (strip "Victoria")]).
Proof.
  apply (match_without_id_raises
           (example_world
              (replies [JDict [("matches",
                                JList [JDict [("name", JStr "Victoria")]])]])
              0)
           "get-station-info" (fun id => "StopPoint/" ++ id)
           [("station", JStr "Victoria")] "Victoria"
           [("matches", JList [JDict [("name", JStr "Victoria")]])]
           [("name", JStr "Victoria")] []).
  - simpl. right. left. reflexivity.
  - reflexivity.
  - vm_compute. discriminate.
  - reflexivity.
  - reflexivity.
  - reflexivity.
Defined.

(** X15.  get-station-info returns the station's block alone, without a
    heading: when the search finds a station and the second request gives
    a well-shaped record, the text is what the station formatter prints
    for that record. *)
Theorem station_info_is_the_formatted_record (w : world) (d : dict)
    (raw : string) (fields first : dict) (rest : list json) (id : json)
    (station : dict) :
  dict_lookup "station" d = Some (JStr raw) ->
  strip raw <> EmptyString ->
  search_outcome w [] (strip raw) = JDict fields ->
  dict_lookup "matches" fields = Some (JList (JDict first :: rest)) ->
  dict_lookup "id" first = Some id ->
  client_outcome
    (upstream w 1 (request_for w ("StopPoint/" ++ py_str id) None))
  = JDict station ->
  station <> [] ->
  station_info_shape station = true ->
  exists block,
    format_station_info (JDict station) = Ok block
    /\ String.prefix "Station: " block = true
    /\ fst (run (handle_call_tool w "get-station-info" (Some d)))
       = Ok [text_content block].
Proof.
  intros Hl Hne Hsearch Hm Hid Hdetail Hstation Hshape.
  destruct (first_match_found _ fields first rest id Hsearch Hm Hid)
    as [Hnone Hfirst].
  destruct (format_station_info_total station Hshape) as [tail Hblock].
  eexists. split; [exact Hblock|]. split; [apply prefix_append|].
  unfold run. rewrite handle_call_tool_some by exact (lookup_nonempty _ _ _ Hl).
  cbn [String.eqb Ascii.eqb Bool.eqb].
  rewrite (get_station_info_resolved w d [] _ (string_argument _ _ _ Hl) Hne
             id Hnone Hfirst).
  cbn [fst List.length]. rewrite Hdetail.
  destruct station; [contradiction|]. cbn [truthy negb].
  now rewrite Hblock.
Qed.

Lemma station_info_is_the_formatted_record_witness :
  exists block,
    format_station_info brixton_station = Ok block
    /\ String.prefix "Station: " block = true
    /\ fst (run (handle_call_tool
                   (example_world (replies [victoria_search; brixton_station])
                      0)
                   "get-station-info" (Some [("station", JStr "Brixton")])))
       = Ok [text_content block].
Proof.
  apply (station_info_is_the_formatted_record
           (example_world (replies [victoria_search; brixton_station]) 0)
           [("station", JStr "Brixton")] "Brixton"
           [("matches", JList [JDict [("id", JStr "940GZZLUVIC")]])]
           [("id", JStr "940GZZLUVIC")] [] (JStr "940GZZLUVIC")
           [("commonName", JStr "Brixton Underground Station");
            ("id", JStr "940GZZLUBXN");
            ("modes", JList [JStr "tube"]);
            ("zones", JList [JStr "2"]);
            ("lines", JList [JDict [("name", JStr "Victoria")]])]).
  - reflexivity.
  - vm_compute. discriminate.
  - reflexivity.
  - reflexivity.
  - reflexivity.
  - reflexivity.
  - discriminate.
  - reflexivity.
Defined.

(** ** The formatters once more *)

(** X16.  the line-status formatter reads the name and the first status entry
    only: two line records with the same name whose status lists begin
    with the same entry are printed alike, whatever else they hold. *)
Theorem line_status_reads_first_entry (d d' : dict) (first : json)
    (rest rest' : list json) :
  dict_lookup "name" d = dict_lookup "name" d' ->
  dict_lookup "lineStatuses" d = Some (JList (first :: rest)) ->
  dict_lookup "lineStatuses" d' = Some (JList (first :: rest')) ->
  format_line_status (JDict d) = format_line_status (JDict d').
Proof.
  intros Hname Hs Hs'. unfold format_line_status. cbn [py_get rbind].
  rewrite (dict_get_found _ _ _ _ Hs), (dict_get_found _ _ _ _ Hs').
  unfold dict_get. now rewrite Hname.
Qed.

Lemma line_status_reads_first_entry_witness :
  format_line_status
    (JDict [("name", JStr "Victoria");
            ("lineStatuses",
             JList [JDict [("statusSeverityDescription", JStr "Good Service")];
                    JDict [("statusSeverityDescription",
                            JStr "Minor Delays")]])])
  = format_line_status
      (JDict [("id", JStr "victoria"); ("name", JStr "Victoria");
              ("lineStatuses",
               JList [JDict [("statusSeverityDescription",
                              JStr "Good Service")]])]).
Proof.
  apply (line_status_reads_first_entry
           [("name", JStr "Victoria");
            ("lineStatuses",
             JList [JDict [("statusSeverityDescription", JStr "Good Service")];
                    JDict [("statusSeverityDescription",
                            JStr "Minor Delays")]])]
           [("id", JStr "victoria"); ("name", JStr "Victoria");
            ("lineStatuses",
             JList [JDict [("statusSeverityDescription",
                            JStr "Good Service")]])]
           (JDict [("statusSeverityDescription", JStr "Good Service")])
           [JDict [("statusSeverityDescription", JStr "Minor Delays")]] []);
    reflexivity.
Defined.

Lemma py_eq_str (k : json) (s : string) :
  py_eq k (JStr s) = true -> k = JStr s.
Proof.
  destruct k as [|b|n|x|t|l|p]; simpl; try discriminate.
  intros H. apply String.eqb_eq in H. now subst.
Qed.

Lemma find_snoc {A : Type} (f : A -> bool) (l : list A) (x : A) :
  find f (l ++ [x])%list =
  match find f l with
  | Some y => Some y
  | None => if f x then Some x else None
  end.
Proof.
  induction l as [|y l IH]; simpl; [reflexivity|].
  now destruct (f y).
Qed.

Lemma property_value_cons (key : string) (default : json) (p : dict)
    (props : list json) :
  property_value key default (JDict p :: props) =
  property_value key
    (if has_key key (JDict p) then dict_get p "value" (JStr "Unknown")
     else default) props.
Proof.
  unfold property_value. cbn [rev]. rewrite find_snoc.
  destruct (find (has_key key) (rev props)) as [y|] eqn:Hfound.
  - apply find_some in Hfound. destruct Hfound as [_ Hy].
    destruct y; try discriminate. reflexivity.
  - now destruct (has_key key (JDict p)).
Qed.

Lemma bike_point_loop_values (props : list json) (acc : json * json) :
  forallb is_dict props = true ->
  rfold bike_point_step acc props =
  Ok (property_value "NbBikes" (fst acc) props,
      property_value "NbEmptyDocks" (snd acc) props).
Proof.
  revert acc. induction props as [|x props IH]; intros acc H.
  - now destruct acc.
  - simpl in H. apply andb_prop in H. destruct H as [Hx Hprops].
    destruct x as [| | | | | |p]; try discriminate.
    rewrite (property_value_cons "NbBikes"),
      (property_value_cons "NbEmptyDocks").
    cbn [rfold]. unfold bike_point_step. cbn [py_get rbind].
    unfold has_key.
    destruct (py_eq (dict_get p "key" JNull) (JStr "NbBikes")) eqn:Hb.
    + cbn [rbind]. rewrite (IH _ Hprops). cbn [fst snd].
      apply py_eq_str in Hb. rewrite Hb. reflexivity.
    + destruct (py_eq (dict_get p "key" JNull) (JStr "NbEmptyDocks"));
        cbn [rbind]; now rewrite (IH _ Hprops).
Qed.

(** X17.  the bike-point formatter prints, for the bikes and for the empty
    docks, the value of the last property with the key NbBikes and of the
    last with the key NbEmptyDocks, each found independently of the other;
    a key that no property has is printed as "Unknown". *)
Theorem bike_point_prints_last_values (d : dict) (props : list json) :
  dict_get d "additionalProperties" (JList []) = JList props ->
  forallb is_dict props = true ->
  format_bike_point (JDict d)
  = Ok ("Location: "
        ++ py_str (dict_get d "commonName" (JStr "Unknown Location")) ++ nl
        ++ "Bikes Available: "
        ++ py_str (property_value "NbBikes" (JStr "Unknown") props) ++ nl
        ++ "Empty Docks: "
        ++ py_str (property_value "NbEmptyDocks" (JStr "Unknown") props) ++ nl
        ++ "---").
Proof.
  intros Hprops Hshape. unfold format_bike_point. cbn [py_get rbind].
  rewrite Hprops. cbn [py_iter rbind].
  now rewrite (bike_point_loop_values props _ Hshape).
Qed.

Lemma bike_point_prints_last_values_witness :
  format_bike_point
    (JDict [("commonName", JStr "Vauxhall Cross");
            ("additionalProperties",
             JList [JDict [("key", JStr "NbBikes"); ("value", JStr "7")];
                    JDict [("key", JStr "NbBikes"); ("value", JStr "3")]])])
  = Ok ("Location: " ++ "Vauxhall Cross" ++ nl
        ++ "Bikes Available: " ++ "3" ++ nl
        ++ "Empty Docks: " ++ "Unknown" ++ nl
        ++ "---").
Proof.
  apply (bike_point_prints_last_values
           [("commonName", JStr "Vauxhall Cross");
            ("additionalProperties",
             JList [JDict [("key", JStr "NbBikes"); ("value", JStr "7")];
                    JDict [("key", JStr "NbBikes"); ("value", JStr "3")]])]
           [JDict [("key", JStr "NbBikes"); ("value", JStr "7")];
            JDict [("key", JStr "NbBikes"); ("value", JStr "3")]]);
    reflexivity.
Defined.

(** ** get-line-status *)

(** X18.  get-line-status has no cap: for a non-empty list of n well-shaped
    line records from the upstream it prints n blocks, one per record in
    the upstream's order, however many lines were asked for. *)
Theorem line_statuses_list_every_record (w : world) (d : dict) (raw : string)
    (l : list json) :
  dict_lookup "lines" d = Some (JStr raw) ->
  strip raw <> EmptyString ->
  client_outcome
    (upstream w 0
       (request_for w
          ("Line/" ++ join "," (map strip (split ","%char (strip raw)))
           ++ "/Status") None))
  = JList l ->
  l <> [] ->
  forallb (record_shape LineStatus) l = true ->
  exists blocks,
    rmap format_line_status l = Ok blocks
    /\ List.length blocks = List.length l
    /\ fst (run (handle_call_tool w "get-line-status" (Some d)))
       = Ok [text_content ("Current Line Statuses:" ++ nl ++ nl
                           ++ join nl blocks)].
Proof.
  intros Hl Hne Hout Hnonempty Hshape.
  destruct (rmap_total format_line_status l) as [blocks [Hb Hlen]].
  { intros x Hx. rewrite forallb_forall in Hshape.
    apply (formatter_total_on_shape LineStatus); [discriminate|].
    now apply Hshape. }
  exists blocks. split; [exact Hb|]. split; [exact Hlen|].
  unfold run. rewrite handle_call_tool_some by exact (lookup_nonempty _ _ _ Hl).
  cbn [String.eqb Ascii.eqb Bool.eqb].
  rewrite (get_line_status_run w d [] _ (string_argument _ _ _ Hl) Hne).
  cbn [fst List.length]. rewrite Hout.
  destruct l as [|x l']; [contradiction|].
  cbn [truthy negb py_iter rbind]. now rewrite Hb.
Qed.

Lemma line_statuses_list_every_record_witness :
  exists blocks,
    rmap format_line_status [victoria_line; victoria_line; victoria_line]
    = Ok blocks
    /\ List.length blocks = 3%nat
    /\ fst (run (handle_call_tool
                   (example_world
                      (replies [JList [victoria_line; victoria_line;
                                       victoria_line]]) 0)
                   "get-line-status" (Some [("lines", JStr "victoria")])))
       = Ok [text_content ("Current Line Statuses:" ++ nl ++ nl
                           ++ join nl blocks)].
Proof.
  apply (line_statuses_list_every_record
           (example_world
              (replies [JList [victoria_line; victoria_line; victoria_line]])
              0)
           [("lines", JStr "victoria")] "victoria"
           [victoria_line; victoria_line; victoria_line]).
  - reflexivity.
  - vm_compute. discriminate.
  - reflexivity.
  - discriminate.
  - reflexivity.
Defined.

Lemma split_plain (sep : ascii) (s : string) :
  contains_char sep s = false -> split sep s = [s].
Proof.
  induction s as [|c s IH]; simpl; [reflexivity|].
  destruct (Ascii.eqb c sep); [discriminate|]. simpl.
  intros H. now rewrite (IH H).
Qed.

Lemma split_append (sep : ascii) (s t : string) :
  contains_char sep s = false ->
  split sep (s ++ String sep t) = s :: split sep t.
Proof.
  induction s as [|c s IH]; simpl.
  - now rewrite Ascii.eqb_refl.
  - destruct (Ascii.eqb c sep); [discriminate|]. simpl.
    intros H. now rewrite (IH H).
Qed.

Lemma split_join (sep : ascii) (names : list string) :
  names <> [] ->
  forallb (fun n => negb (contains_char sep n)) names = true ->
  split sep (join (String sep EmptyString) names) = names.
Proof.
  induction names as [|n names IH]; [contradiction|]. intros _ H.
  simpl in H. apply andb_prop in H. destruct H as [Hn Hnames].
  apply negb_true_iff in Hn.
  destruct names as [|m names'].
  - simpl. now apply split_plain.
  - change (join (String sep EmptyString) (n :: m :: names'))
      with (n ++ String sep (join (String sep EmptyString) (m :: names'))).
    rewrite (split_append _ _ _ Hn). f_equal.
    apply IH; [discriminate|exact Hnames].
Qed.

(** X19.  get-line-status asks for the names between the commas, each trimmed
    of the white space around it and in the caller's order: when the
    trimmed argument is the names joined by commas, the one request goes
    to Line/<trimmed names joined by commas>/Status. *)
Theorem line_names_are_trimmed (w : world) (d : dict) (raw : string)
    (names : list string) :
  dict_lookup "lines" d = Some (JStr raw) ->
  strip raw <> EmptyString ->
  strip raw = join "," names ->
  forallb (fun n => negb (contains_char ","%char n)) names = true ->
  snd (run (handle_call_tool w "get-line-status" (Some d)))
  = [request_for w ("Line/" ++ join "," (map strip names) ++ "/Status") None].
Proof.
  intros Hl Hne Hjoin Hplain.
  assert (Hnames : names <> []).
  { intros ->. now apply Hne. }
  unfold run. rewrite handle_call_tool_some by exact (lookup_nonempty _ _ _ Hl).
  cbn [String.eqb Ascii.eqb Bool.eqb].
  rewrite (get_line_status_run w d [] _ (string_argument _ _ _ Hl) Hne).
  cbn [snd app]. rewrite Hjoin.
  now rewrite (split_join ","%char names Hnames Hplain).
Qed.

Lemma line_names_are_trimmed_witness :
  snd (run (handle_call_tool (example_world silent 0) "get-line-status"
              (Some [("lines", JStr " victoria , northern ")])))
  = [request_for (example_world silent 0)
       ("Line/" ++ join "," (map strip ["victoria "; " northern"])
        ++ "/Status") None].
Proof.
  apply (line_names_are_trimmed (example_world silent 0)
           [("lines", JStr " victoria , northern ")] " victoria , northern "
           ["victoria "; " northern"]).
  - reflexivity.
  - vm_compute. discriminate.
  - reflexivity.
  - reflexivity.
Defined.

(** ** Declared arguments *)

(** X20.  A tool reads whether its arguments are empty and the arguments
    its input schema declares, and nothing else: two calls of an offered
    tool whose arguments are both empty (or None) or both not empty, and
    agree on the declared properties, send the same requests and return
    the same result. *)
Theorem undeclared_arguments_ignored (w : world) (t : Tool.t)
    (arguments arguments' : option dict) :
  In t handle_list_tools ->
  has_arguments arguments = has_arguments arguments' ->
  (forall k, In k (declared_properties t) ->
             argument k arguments = argument k arguments') ->
  run (handle_call_tool w (Tool.name t) arguments)
  = run (handle_call_tool w (Tool.name t) arguments').
Proof.
  intros Hin Hgiven Hsame.
  destruct arguments as [[|kv d0]|], arguments' as [[|kv' d0']|];
    try discriminate Hgiven; try reflexivity.
  set (d := kv :: d0) in *. set (d' := kv' :: d0') in *.
  cbn [argument] in Hsame. unfold run.
  rewrite !handle_call_tool_some by discriminate.
  unfold handle_list_tools in Hin. cbn [In] in Hin.
  destruct Hin as [<-|[<-|[<-|[<-|[<-|[]]]]]];
    cbn [Tool.name String.eqb Ascii.eqb Bool.eqb].
  - assert (H : dict_lookup "lines" d = dict_lookup "lines" d')
      by (apply Hsame; simpl; tauto).
    unfold get_line_status, dict_get. now rewrite H.
  - assert (H : dict_lookup "station" d = dict_lookup "station" d')
      by (apply Hsame; simpl; tauto).
    unfold get_arrivals, dict_get. now rewrite H.
  - assert (H : dict_lookup "location" d = dict_lookup "location" d')
      by (apply Hsame; simpl; tauto).
    unfold search_bike_points, dict_get. now rewrite H.
  - assert (H : dict_lookup "station" d = dict_lookup "station" d')
      by (apply Hsame; simpl; tauto).
    unfold get_station_info, dict_get. now rewrite H.
  - assert (Hlat : dict_lookup "lat" d = dict_lookup "lat" d')
      by (apply Hsame; simpl; tauto).
    assert (Hlon : dict_lookup "lon" d = dict_lookup "lon" d')
      by (apply Hsame; simpl; tauto).
    assert (Hradius : dict_lookup "radius" d = dict_lookup "radius" d')
      by (apply Hsame; simpl; tauto).
    unfold find_stops_by_radius, dict_get. now rewrite Hlat, Hlon, Hradius.
Qed.

Lemma undeclared_arguments_ignored_witness :
  run (handle_call_tool (example_world silent 0) "get-arrivals"
         (Some [("station", JStr "Victoria")]))
  = run (handle_call_tool (example_world silent 0) "get-arrivals"
           (Some [("limit", JInt 3); ("station", JStr "Victoria")])).
Proof.
  apply (undeclared_arguments_ignored (example_world silent 0)
           {| Tool.name := "get-arrivals";
              Tool.description :=
                "Get arrival predictions for a specific station";
              Tool.inputSchema :=
                JDict [("type", JStr "object");
                       ("properties",
                        JDict [("station",
                                schema_property "string"
                                  "Station name or ID")]);
                       ("required", JList [JStr "station"])] |}
           (Some [("station", JStr "Victoria")])
           (Some [("limit", JInt 3); ("station", JStr "Victoria")])).
  - simpl. right. left. reflexivity.
  - reflexivity.
  - intros k [<-|[]]. reflexivity.
Defined.

(** ** The separator *)

Lemma separator_alone : exists body, nl ++ "---" = body ++ nl ++ "---".
Proof. now exists EmptyString. Qed.

Lemma separator_after (a t : string) :
  (exists body, t = body ++ nl ++ "---") ->
  exists body, a ++ t = body ++ nl ++ "---".
Proof. intros [body ->]. exists (a ++ body). now rewrite append_assoc. Qed.

Ltac ends_with_separator :=
  let H := fresh in
  intros H; apply Ok_inj in H; subst; rewrite ?append_assoc;
  repeat first [apply separator_alone | apply separator_after].

Ltac run_binds :=
  repeat match goal with
         | |- rbind (match ?l with [] => _ | _ :: _ => _ end) _ = _ -> _ =>
             destruct l; cbn [rbind]
         | |- rbind (rbind ?r _) _ = _ -> _ =>
             destruct r; cbn [rbind]; [|discriminate]
         | |- rbind ?r _ = _ -> _ =>
             destruct r; cbn [rbind]; [|discriminate]
         | |- (let '(_, _) := ?p in _) = _ -> _ => destruct p
         end.

(** X21.  every block a formatter returns ends with a new line and "---",
    whatever the record it was given. *)
Theorem formatter_blocks_end_with_separator (f : formatter)
    (fromisoformat : string -> option datetime) (now : Z) (record : json)
    (block : string) :
  run_formatter f fromisoformat now record = Ok block ->
  exists body, block = body ++ nl ++ "---".
Proof.
  destruct f; cbn [run_formatter].
  - unfold format_line_status. run_binds; destruct (truthy _);
      ends_with_separator.
  - unfold format_arrival. run_binds; ends_with_separator.
  - unfold format_bike_point. run_binds; ends_with_separator.
  - unfold format_station_info. run_binds; ends_with_separator.
  - unfold format_nearby_stop. run_binds; ends_with_separator.
Qed.

Lemma formatter_blocks_end_with_separator_witness :
  exists body,
    ("Line: Victoria" ++ nl ++ "Status: Good Service" ++ nl ++ "---")
    = body ++ nl ++ "---".
Proof.
  apply (formatter_blocks_end_with_separator LineStatus (fun _ => None) 0
           (JDict [("name", JStr "Victoria");
                   ("lineStatuses",
                    JList [JDict [("statusSeverityDescription",
                                   JStr "Good Service")]])])).
  reflexivity.
Defined.

(** ** The arrivals printed *)

Lemma rmapi_length {A B : Type} (f : nat -> A -> result B) (l : list A) :
  forall start ys, rmapi f start l = Ok ys -> List.length ys = List.length l.
Proof.
  induction l as [|x l IH]; simpl; intros start ys H.
  - injection H as <-. reflexivity.
  - destruct (f start x) as [y|]; [|discriminate]. cbn [rbind] in H.
    destruct (rmapi f (S start) l) as [ys'|] eqn:Hl; [|discriminate].
    cbn [rbind] in H. injection H as <-. simpl. now rewrite (IH _ _ Hl).
Qed.

Lemma ltb_irrefl (s : string) : String.ltb s s = false.
Proof.
  unfold String.ltb. pose proof (String.compare_antisym s s) as H.
  destruct (String.compare s s); try reflexivity. discriminate H.
Qed.

Lemma insert_arrival_stable (k : string) (a : json) (s : list json) :
  filter (fun x => (arrival_key_text x =? k)%string) (insert_arrival a s)
  = filter (fun x => (arrival_key_text x =? k)%string) (a :: s).
Proof.
  induction s as [|b t IH]; [reflexivity|]. cbn [insert_arrival].
  destruct (String.ltb (arrival_key_text b) (arrival_key_text a)) eqn:Hlt;
    [|reflexivity].
  cbn [filter] in *. rewrite IH.
  destruct (String.eqb_spec (arrival_key_text a) k) as [Ha|Ha];
    destruct (String.eqb_spec (arrival_key_text b) k) as [Hb|Hb];
    try reflexivity.
  rewrite Ha, Hb, ltb_irrefl in Hlt. discriminate.
Qed.

Lemma sort_arrivals_stable (k : string) (l : list json) :
  filter (fun x => (arrival_key_text x =? k)%string) (sort_arrivals l)
  = filter (fun x => (arrival_key_text x =? k)%string) l.
Proof.
  induction l as [|a l IH]; [reflexivity|]. cbn [sort_arrivals].
  rewrite insert_arrival_stable. cbn [filter]. now rewrite IH.
Qed.

(** X22.  get-arrivals prints at most 10 blocks, whatever the upstream
    returns.  For a non-empty list of n records (objects whose
    expectedArrival, when present, is a string) it prints min(10, n)
    blocks: those of the first records of the list put in order of the
    expectedArrival text (string order, a record without one as the empty
    text), records of equal text staying in the upstream's order.  The
    blocks are in order of time whenever string order agrees with time
    order on the list. *)
Theorem arrivals_capped_at_10 (w : world) (d : dict) (raw : string)
    (fields first : dict) (rest : list json) (id : json) :
  dict_lookup "station" d = Some (JStr raw) ->
  strip raw <> EmptyString ->
  let station := strip raw in
  search_outcome w [] station = JDict fields ->
  dict_lookup "matches" fields = Some (JList (JDict first :: rest)) ->
  dict_lookup "id" first = Some id ->
  let arrivals_data :=
    client_outcome
      (upstream w 1
         (request_for w ("StopPoint/" ++ py_str id ++ "/Arrivals") None)) in
  let out := fst (run (handle_call_tool w "get-arrivals" (Some d))) in
  let format := fun i a => format_arrival (fromisoformat w) (clock w i) a in
  (forall texts, out = Ok texts ->
     texts = [text_content ("Failed to retrieve arrivals for " ++ station)]
     \/ exists sorted blocks,
          rmapi format 0 (firstn 10 sorted) = Ok blocks
          /\ (List.length blocks <= 10)%nat
          /\ texts = [text_content ("Next arrivals at " ++ station ++ ":" ++ nl ++ nl
                                   ++ join nl blocks)])
  /\ (forall l,
        arrivals_data = JList l ->
        l <> [] ->
        forallb arrival_shape l = true ->
        exists blocks,
          rmapi format 0 (firstn 10 (sort_arrivals l)) = Ok blocks
          /\ List.length blocks = Nat.min 10 (List.length l)
          /\ out = Ok [text_content ("Next arrivals at " ++ station ++ ":" ++ nl ++ nl
                                   ++ join nl blocks)])
  /\ (forall l,
        Permutation l (sort_arrivals l)
        /\ Sorted key_le (sort_arrivals l)
        /\ (forall k,
              filter (fun a => (arrival_key_text a =? k)%string)
                (sort_arrivals l)
              = filter (fun a => (arrival_key_text a =? k)%string) l)
        /\ ((forall a b, In a l -> In b l -> key_le a b ->
                         time_leb (fromisoformat w) a b = true) ->
            Sorted (fun a b => time_leb (fromisoformat w) a b = true)
              (sort_arrivals l))).
Proof.
  intros Hl Hne station Hfound Hm Hid arrivals_data out format.
  destruct (first_match_found _ _ _ _ _ Hfound Hm Hid) as [Hnone Hfirst].
  assert (Hrun : out =
    (if negb (truthy arrivals_data) then
       Ok [text_content ("Failed to retrieve arrivals for " ++ station)]
     else
       sorted <- list_sort (sort_other w) arrival_key arrivals_data ;;
       formatted_arrivals <- rmapi format 0 (firstn 10 sorted) ;;
       Ok [text_content ("Next arrivals at " ++ station ++ ":" ++ nl ++ nl
                          ++ join nl formatted_arrivals)])).
  { unfold out, run.
    rewrite handle_call_tool_some by exact (lookup_nonempty _ _ _ Hl).
    cbn [String.eqb Ascii.eqb Bool.eqb].
    now rewrite (get_arrivals_resolved w d [] station
                   (string_argument _ _ _ Hl) Hne _ Hnone Hfirst). }
  split; [|split].
  - intros texts Hout. rewrite Hrun in Hout.
    destruct (truthy arrivals_data); cbn [negb] in Hout.
    + destruct (list_sort _ _ _) as [sorted|]; [|discriminate].
      cbn [rbind] in Hout.
      destruct (rmapi format 0 (firstn 10 sorted)) as [blocks|] eqn:Hblocks;
        [|discriminate].
      cbn [rbind] in Hout. apply Ok_inj in Hout. right.
      exists sorted, blocks. split; [exact Hblocks|]. split; [|now symmetry].
      rewrite (rmapi_length _ _ _ _ Hblocks), length_firstn.
      apply Nat.le_min_l.
    + left. apply Ok_inj in Hout. now symmetry.
  - intros l Harr Hnonempty Hshape.
    pose proof (sort_arrivals_perm l) as Hperm.
    assert (Hdicts : forallb is_dict (firstn 10 (sort_arrivals l)) = true).
    { apply forallb_forall. intros a Ha. apply in_firstn in Ha.
      apply (Permutation_in _ (Permutation_sym Hperm)) in Ha.
      pose proof (arrival_shape_is_dict l Hshape) as Hd.
      rewrite forallb_forall in Hd. now apply Hd. }
    destruct (format_arrivals_total (fromisoformat w) (clock w) _ 0%nat Hdicts)
      as [blocks [Hblocks Hlen]].
    exists blocks. split; [exact Hblocks|]. split.
    { rewrite Hlen, length_firstn. now rewrite (Permutation_length Hperm). }
    rewrite Hrun, Harr. destruct l as [|a l']; [contradiction|].
    cbn [truthy negb]. rewrite (list_sort_arrivals _ _ Hshape). cbn [rbind].
    fold format in Hblocks. now rewrite Hblocks.
  - intros l. split; [apply sort_arrivals_perm|].
    split; [apply sort_arrivals_sorted|].
    split; [intros k; apply sort_arrivals_stable|].
    intros Hagree. apply (Sorted_within key_le); [apply sort_arrivals_sorted|].
    intros a b Ha Hb. apply Hagree;
      apply (Permutation_in _ (Permutation_sym (sort_arrivals_perm l)));
      assumption.
Qed.

Lemma arrivals_capped_at_10_witness :
  exists blocks,
    rmapi (fun i a =>
             format_arrival fromisoformat_reference (utc 2024 1 1 11 0 0) a)
      0 (firstn 10 (sort_arrivals two_arrivals)) = Ok blocks
    /\ List.length blocks = Nat.min 10 (List.length two_arrivals)
    /\ fst (run (handle_call_tool
                   (example_world (replies [victoria_search; JList two_arrivals])
                      (utc 2024 1 1 11 0 0))
                   "get-arrivals" (Some [("station", JStr "Victoria")])))
       = Ok [text_content ("Next arrivals at " ++ strip "Victoria" ++ ":"
                           ++ nl ++ nl ++ join nl blocks)].
Proof.
  refine (proj1 (proj2 (arrivals_capped_at_10
                          (example_world
                             (replies [victoria_search; JList two_arrivals])
                             (utc 2024 1 1 11 0 0))
                          [("station", JStr "Victoria")] "Victoria"
                          [("matches", JList [JDict [("id", JStr "940GZZLUVIC")]])]
                          [("id", JStr "940GZZLUVIC")] [] (JStr "940GZZLUVIC")
                          eq_refl _ eq_refl eq_refl eq_refl))
            two_arrivals eq_refl _ eq_refl).
  - vm_compute. discriminate.
  - discriminate.
Defined.
